(** * OneTrainer: the Stable Diffusion training bundle and its loader

    A shallow embedding of

    - [modules/model/StableDiffusionModel.py]: the bundle, [predict] (one
      noising and denoising step), [____save_image], [create_pipeline];
    - [modules/modelLoader/FineTuneModelLoader.py]: the three loading
      strategies and [load].

    Python values are kept as the code has them: integers are [Z], floats
    are IEEE binary64 numbers ([spec_float] with precision 53), strings are
    [string], a batch is a dictionary from strings to tensors, exceptions are
    a sum type, and a method that reads or writes the outside world is a
    function on an explicit [World].  Calls into torch, diffusers and
    transformers are fields of the class [Externals]. *)

From Stdlib Require Import ZArith QArith Qround Ascii String Floats.SpecFloat.
From stdpp Require Import gmap strings list fin_maps pretty.

Set Warnings "-register-all".
Open Scope Z_scope.

(** ** Exceptions and results *)

(** The Python exceptions the two files can meet. *)
Inductive exn : Type :=
| KeyError (key : string)
| IndexError
| TypeError
| ValueError
| OverflowError
| AttributeError
| RuntimeError (msg : string)
| OSError (msg : string).

(** The outcome of a call: a value, or a raised exception. *)
Inductive Result (A : Type) : Type :=
| Ok (a : A)
| Raise (e : exn).
Arguments Ok {A} a.
Arguments Raise {A} e.

Definition is_ok {A} (r : Result A) : bool :=
  match r with Ok _ => true | Raise _ => false end.

Definition raises {A} (r : Result A) : Prop :=
  match r with Ok _ => False | Raise _ => True end.

Definition result_bind {A B} (r : Result A) (f : A -> Result B) : Result B :=
  match r with Ok a => f a | Raise e => Raise e end.

(** ** Python floats *)

(** A Python [float] is an IEEE 754 binary64 number. *)
Definition float : Type := spec_float.
Definition prec : Z := 53.
Definition emax : Z := 1024.

Definition float_zero : float := S754_zero false.
Definition float_one : float := SFone prec emax.

(** [x > 0] on floats; false on NaN. *)
Definition float_gt_zero (x : float) : bool := SFltb float_zero x.

(** [float(n)] for a Python integer, as [int * float] performs it: rounded
    to nearest even, [OverflowError] when the integer is too large. *)
Definition float_of_int (n : Z) : Result float :=
  match binary_normalize prec emax n 0 false with
  | S754_infinity _ => Raise OverflowError
  | x => Ok x
  end.

(** [n * x] for an integer [n] and a float [x]. *)
Definition int_mul_float (n : Z) (x : float) : Result float :=
  result_bind (float_of_int n) (fun fn => Ok (SFmul prec emax fn x)).

(** [int(x)]: truncation towards zero; [ValueError] on NaN,
    [OverflowError] on an infinity. *)
Definition py_int (x : float) : Result Z :=
  match x with
  | S754_zero _ => Ok 0
  | S754_infinity _ => Raise OverflowError
  | S754_nan => Raise ValueError
  | S754_finite s m e =>
      let a := Z.shiftl (Z.pos m) e in
      Ok (if s then - a else a)
  end.

(** The exact rational value of a finite float (0 for the others). *)
Definition float_value (x : float) : Q :=
  match x with
  | S754_finite s m e =>
      let a := if 0 <=? e then inject_Z (Z.pos m * 2 ^ e)
               else Qmake (Z.pos m) (Z.to_pos (2 ^ (- e))) in
      if s then Qopp a else a
  | _ => 0%Q
  end.

Definition float_is_finite (x : float) : bool :=
  match x with
  | S754_zero _ | S754_finite _ _ _ => true
  | _ => false
  end.

(** ** Strings and paths *)

Definition str_get (p : string) (i : nat) : option ascii := String.get i p.

(** [p.rfind(c)]: the highest index of [c] in [p], or -1. *)
Fixpoint rfind_from (c : ascii) (p : string) (i : Z) (best : Z) : Z :=
  match p with
  | EmptyString => best
  | String a rest =>
      rfind_from c rest (i + 1) (if Ascii.eqb a c then i else best)
  end.

Definition rfind (c : ascii) (p : string) : Z := rfind_from c p 0 (-1).

(** [p[:n]] and [p[n:]] for [0 <= n]. *)
Definition str_take (n : nat) (p : string) : string := substring 0 n p.
Definition str_drop (n : nat) (p : string) : string :=
  substring n (String.length p - n) p.

(** The loop of [genericpath._splitext] that skips leading dots: does some
    character of [p] at an index in [filenameIndex, filenameIndex + n) differ
    from the dot? *)
Fixpoint has_non_dot (p : string) (filenameIndex : nat) (n : nat) : bool :=
  match n with
  | O => false
  | S n' =>
      match str_get p filenameIndex with
      | Some a =>
          if Ascii.eqb a "."%char then has_non_dot p (S filenameIndex) n' else true
      | None => true
      end
  end.

(** [os.path.splitext(p)] (posixpath). *)
Definition splitext (p : string) : string * string :=
  let sepIndex := rfind "/"%char p in
  let dotIndex := rfind "."%char p in
  if (sepIndex <? dotIndex)
       && has_non_dot p (Z.to_nat (sepIndex + 1))
            (Z.to_nat (dotIndex - (sepIndex + 1)))
  then (str_take (Z.to_nat dotIndex) p, str_drop (Z.to_nat dotIndex) p)
  else (p, EmptyString).

Definition str_startswith (pre p : string) : bool := String.prefix pre p.

Definition str_endswith_sep (p : string) : bool :=
  match String.length p with
  | O => false
  | S n =>
      match str_get p n with
      | Some a => Ascii.eqb a "/"%char
      | None => false
      end
  end.

(** One step of [os.path.join] (posixpath): joins [b] onto [path]. *)
Definition join2 (path b : string) : string :=
  if str_startswith "/" b then b
  else if (String.length path =? 0)%nat || str_endswith_sep path
       then path +:+ b
       else path +:+ "/" +:+ b.

(** [os.path.join(a, *p)]. *)
Definition path_join (a : string) (p : list string) : string :=
  fold_left join2 p a.

(** ** Python values read from [meta.json] *)

Inductive PyVal : Type :=
| PyNone
| PyInt (n : Z)
| PyStr (s : string)
| PyDict (items : list (string * PyVal))
| PyOther (repr : string).

(** [d[key]] on a value: [KeyError] when a dictionary lacks the key,
    [TypeError] when the value cannot be indexed by a string. *)
Fixpoint assoc_get (items : list (string * PyVal)) (key : string)
  : option PyVal :=
  match items with
  | [] => None
  | (k, v) :: rest => if String.eqb k key then Some v else assoc_get rest key
  end.

Definition py_getitem (v : PyVal) (key : string) : Result PyVal :=
  match v with
  | PyDict items =>
      match assoc_get items key with
      | Some x => Ok x
      | None => Raise (KeyError key)
      end
  | _ => Raise TypeError
  end.

(** [str(v)] for the values a step counter takes. *)
Definition py_str (v : PyVal) : string :=
  match v with
  | PyNone => "None"
  | PyInt n => pretty n
  | PyStr s => s
  | PyDict _ => "{...}"
  | PyOther repr => repr
  end.

(** ** Model types and training progress *)

(** Modelled from the spec: [modules/util/enum/ModelType.py] is not part of
    the sources.  The five variants are the ones [__default_yaml_name]
    names; [OTHER_MODEL_TYPE] stands for any value that is none of them (the
    [case _] of that function). *)
Inductive ModelType : Type :=
| STABLE_DIFFUSION_15
| STABLE_DIFFUSION_15_INPAINTING
| STABLE_DIFFUSION_20
| STABLE_DIFFUSION_20_INPAINTING
| STABLE_DIFFUSION_20_DEPTH
| OTHER_MODEL_TYPE (name : string).

(** Modelled from the spec: the capability flags of a model type
    ([has_conditioning_image_input], [has_mask_input], [has_depth_input]
    are methods of the missing [ModelType]).  They are parameters of the
    development. *)
Class Capabilities : Type := {
  has_conditioning_image_input : ModelType -> bool;
  has_mask_input : ModelType -> bool;
  has_depth_input : ModelType -> bool;
}.

(** Modelled from the spec: [modules/util/TrainProgress.py] is not part of
    the sources.  A [TrainProgress] holds four counters; its constructor
    stores the values it is given and defaults each to zero. *)
Record TrainProgress : Type := mkTrainProgress {
  epoch : PyVal;
  epoch_step : PyVal;
  epoch_sample : PyVal;
  global_step : PyVal;
}.

Definition TrainProgress_default : TrainProgress :=
  mkTrainProgress (PyInt 0) (PyInt 0) (PyInt 0) (PyInt 0).

(** ** Observable events

    Every call that leaves the two files, and every read of a batch field,
    is recorded in the world's trace, in program order. *)
Inductive Event : Type :=
| EvReadJson (path : string)
| EvFromPretrained (cls base subfolder : string)
| EvTorchLoad (path : string)
| EvExists (path : string)
| EvConvertCkpt (path : string) (config : option string)
| EvBatchRead (key : string)
| EvRandn (shape : list nat)
| EvRandint (low high : Z)
| EvAddNoise
| EvTextEncoder
| EvConcat
| EvUnet (with_depth : bool)
| EvVaeDecode
| EvMakedirs (path : string)
| EvImageSave (path : string).


(** ** The libraries behind the two files

    torch, diffusers, transformers, torchvision, [os] and [json] are outside
    the repository.  Their objects are abstract types and each call the two
    files make is a field: a pure function where the call only computes,
    a [Result] where it can raise, a function of the environment [Env]
    (disk and network) where it reads or writes files. *)

Definition Device : Type := string.
Definition Dtype : Type := string.

(** A one-dimensional integer tensor: the sampled timesteps. *)
Definition Timesteps : Type := list Z.

Class Externals : Type := {
  Tensor : Type;
  (** the state of a [torch.Generator] *)
  Rng : Type;
  Env : Type;
  Image : Type;
  Tokenizer : Type;
  Scheduler : Type;
  TextEncoder : Type;
  Vae : Type;
  Unet : Type;
  DepthProcessor : Type;
  DepthEstimator : Type;
  Optimizer : Type;
  StateDict : Type;
  CkptPipeline : Type;
  SafetyChecker : Type;
  FeatureExtractor : Type;

  (** tensors *)
  shape : Tensor -> list nat;
  device_of : Tensor -> Device;
  mul_scalar : Tensor -> float -> Tensor;
  div_scalar : Tensor -> float -> Tensor;
  sub_int : Tensor -> Z -> Tensor;
  div_int : Tensor -> Z -> Tensor;
  rsub_int : Z -> Tensor -> Tensor;
  pow_scalar : Tensor -> float -> Tensor;
  t_add : Tensor -> Tensor -> Result Tensor;
  t_sub : Tensor -> Tensor -> Result Tensor;
  t_mul : Tensor -> Tensor -> Result Tensor;
  t_div : Tensor -> Tensor -> Result Tensor;
  t_clamp : Tensor -> Z -> Z -> Tensor;
  t_getitem : Tensor -> Z -> Result Tensor;
  t_index : Tensor -> Timesteps -> Result Tensor;
  t_unsqueeze : Tensor -> Z -> Result Tensor;
  t_squeeze : Tensor -> Tensor;
  t_flatten : Tensor -> Tensor;
  t_reshape : Tensor -> list Z -> Result Tensor;
  t_concat : list Tensor -> Z -> Result Tensor;

  (** random numbers: [torch.Generator(device=d)], [g.manual_seed(n)],
      [torch.randn(shape, generator=g, device=d, dtype=t)], and one raw
      64-bit draw of a generator *)
  new_generator : Device -> Result Rng;
  manual_seed : Rng -> Z -> Result Rng;
  randn : list nat -> Rng -> Device -> Dtype -> Result (Tensor * Rng);
  random_bits : Rng -> Z * Rng;

  (** the sub-networks and the scheduler *)
  scaling_factor : Vae -> float;
  vae_decode : Vae -> Tensor -> Result Tensor;
  text_encoder_forward : TextEncoder -> Tensor -> Result Tensor;
  unet_forward :
    Unet -> Tensor -> Timesteps -> Tensor -> option Tensor -> Result Tensor;
  num_train_timesteps : Scheduler -> Z;
  alphas_cumprod : Scheduler -> Tensor;
  add_noise : Scheduler -> Tensor -> Tensor -> Timesteps -> Result Tensor;

  (** files: [os.path.exists], [os.makedirs], [ToPILImage], [Image.save] *)
  path_exists : Env -> string -> bool;
  makedirs : Env -> string -> Result Env;
  to_pil_image : Tensor -> Result Image;
  image_save : Env -> Image -> string -> Result Env;

  (** loading: [json.load(open(path))], [torch.load], the [from_pretrained]
      constructors (base name, subfolder[, dtype]) and the checkpoint
      converter (checkpoint path, original config file) *)
  read_json : Env -> string -> Result PyVal;
  torch_load : Env -> string -> Result StateDict;
  tokenizer_from_pretrained : Env -> string -> string -> Result Tokenizer;
  scheduler_from_pretrained : Env -> string -> string -> Result Scheduler;
  text_encoder_from_pretrained :
    Env -> string -> string -> Dtype -> Result TextEncoder;
  vae_from_pretrained : Env -> string -> string -> Dtype -> Result Vae;
  unet_from_pretrained : Env -> string -> string -> Dtype -> Result Unet;
  depth_processor_from_pretrained :
    Env -> string -> string -> Result DepthProcessor;
  depth_estimator_from_pretrained :
    Env -> string -> string -> Result DepthEstimator;
  download_from_original_stable_diffusion_ckpt :
    Env -> string -> option string -> Result CkptPipeline;
  pipeline_tokenizer : CkptPipeline -> Tokenizer;
  pipeline_scheduler : CkptPipeline -> Scheduler;
  pipeline_text_encoder : CkptPipeline -> TextEncoder;
  pipeline_vae : CkptPipeline -> Vae;
  pipeline_unet : CkptPipeline -> Unet;
  text_encoder_to : TextEncoder -> Dtype -> TextEncoder;
  vae_to : Vae -> Dtype -> Vae;
  unet_to : Unet -> Dtype -> Unet;
}.

(** ** The world and the monad of Python calls *)

Section World.
Context `{Externals}.

(** The state a call can read or change: the environment, the
    [TrainProgress] objects of the process (address 0 is the instance that
    the default argument of [StableDiffusionModel.__init__] created when the
    class was defined), the default generator of each device, and the trace
    of events so far (most recent last). *)
Record World : Type := mkWorld {
  env : Env;
  heap : list TrainProgress;
  default_generator : Device -> Rng;
  trace : list Event;
}.

(** The four ways a call changes the world. *)
Definition add_trace (w : World) (evs : list Event) : World :=
  mkWorld (env w) (heap w) (default_generator w) (trace w ++ evs).

Definition with_env (w : World) (e : Env) : World :=
  mkWorld e (heap w) (default_generator w) (trace w).

Definition with_generator (w : World) (d : Device) (g : Rng) : World :=
  mkWorld (env w) (heap w)
    (fun d' => if String.eqb d' d then g else default_generator w d')
    (trace w).

Definition alloc (w : World) (tp : TrainProgress) : World :=
  mkWorld (env w) (heap w ++ [tp]) (default_generator w) (trace w).

Definition Py (A : Type) : Type := World -> Result A * World.

Definition ret {A} (a : A) : Py A := fun w => (Ok a, w).

Definition raise {A} (e : exn) : Py A := fun w => (Raise e, w).

Definition bind {A B} (m : Py A) (k : A -> Py B) : Py B :=
  fun w =>
    match m w with
    | (Ok a, w') => k a w'
    | (Raise e, w') => (Raise e, w')
    end.

(** A library result becomes a call that leaves the world alone. *)
Definition lift {A} (r : Result A) : Py A := fun w => (r, w).

Definition log (ev : Event) : Py unit := fun w => (Ok tt, add_trace w [ev]).

(** [try: return body  except: return None], with a bare [except]. *)
Definition try_except {A} (body : Py A) : Py (option A) :=
  fun w =>
    match body w with
    | (Ok a, w') => (Ok (Some a), w')
    | (Raise _, w') => (Ok None, w')
    end.

(** Reading a file-like resource: the call is recorded, then made. *)
Definition read_env {A} (ev : Event) (f : Env -> Result A) : Py A :=
  fun w => (f (env w), add_trace w [ev]).

(** Writing: the call is recorded and made; the new environment is kept
    when it succeeds. *)
Definition write_env (ev : Event) (f : Env -> Result Env) : Py unit :=
  fun w =>
    match f (env w) with
    | Ok e => (Ok tt, with_env (add_trace w [ev]) e)
    | Raise x => (Raise x, add_trace w [ev])
    end.

(** [TrainProgress(...)]: a new object on the heap; the result is its
    address. *)
Definition new_train_progress (tp : TrainProgress) : Py nat :=
  fun w => (Ok (length (heap w)), alloc w tp).

(** The address of the default-argument instance of
    [StableDiffusionModel.__init__]. *)
Definition default_train_progress : nat := 0%nat.

(** [obj.global_step] and the like: a read through the address. *)
Definition read_train_progress (addr : nat) : Py TrainProgress :=
  fun w =>
    match heap w !! addr with
    | Some tp => (Ok tp, w)
    | None => (Raise AttributeError, w)
    end.

(** An update in place of the object at an address, as a training loop
    performs on [model.train_progress] when it advances the counters. *)
Definition write_train_progress (addr : nat) (tp : TrainProgress) : Py unit :=
  fun w =>
    (Ok tt,
     mkWorld (env w) (<[addr := tp]> (heap w)) (default_generator w) (trace w)).

(** The events a call added: what the trace gained from [w] to [w']. *)
Definition events_since (w w' : World) : list Event :=
  drop (length (trace w)) (trace w').

#[export] Instance Py_ret : MRet Py := @ret.
#[export] Instance Py_bind : MBind Py := fun A B k m => bind m k.

End World.

(** ** The training configuration *)

(** Modelled from the spec: [modules/util/args/TrainArgs.py] is not part of
    the sources.  These are the fields the two files read. *)
Module TrainArgs.
Record t : Type := mk {
  train_text_encoder : bool;
  model_type : ModelType;
  train_device : Device;
  train_dtype : Dtype;
  offset_noise_weight : float;
  max_noising_strength : float;
  debug_mode : bool;
  debug_dir : string;
}.
End TrainArgs.

(** ** [StableDiffusionModel] *)

Section StableDiffusionModel.
Context `{Externals} `{Capabilities}.

(** The attributes of a bundle.  [train_progress] is a reference: the
    address of a [TrainProgress] object on the heap. *)
Record StableDiffusionModel : Type := mkModel {
  model_type : ModelType;
  tokenizer : Tokenizer;
  noise_scheduler : Scheduler;
  text_encoder : TextEncoder;
  vae : Vae;
  unet : Unet;
  image_depth_processor : option DepthProcessor;
  depth_estimator : option DepthEstimator;
  optimizer : option Optimizer;
  optimizer_state_dict : option StateDict;
  train_progress : nat;
}.

(** [StableDiffusionModel.__init__].  An omitted [train_progress] is the
    default argument [TrainProgress()], evaluated once when the class is
    defined: every bundle built without one refers to that same object. *)
Definition StableDiffusionModel_init
    (model_type : ModelType) (tokenizer : Tokenizer)
    (noise_scheduler : Scheduler) (text_encoder : TextEncoder)
    (vae : Vae) (unet : Unet)
    (image_depth_processor : option DepthProcessor)
    (depth_estimator : option DepthEstimator)
    (optimizer_state_dict : option StateDict)
    (train_progress : option nat) : StableDiffusionModel :=
  {| model_type := model_type;
     tokenizer := tokenizer;
     noise_scheduler := noise_scheduler;
     text_encoder := text_encoder;
     vae := vae;
     unet := unet;
     image_depth_processor := image_depth_processor;
     depth_estimator := depth_estimator;
     optimizer := None;
     optimizer_state_dict := optimizer_state_dict;
     train_progress := default default_train_progress train_progress |}.

(** [model.optimizer_state_dict = v] and [model.train_progress = a]. *)
Definition set_optimizer_state_dict (self : StableDiffusionModel)
    (v : option StateDict) : StableDiffusionModel :=
  mkModel (model_type self) (tokenizer self) (noise_scheduler self)
    (text_encoder self) (vae self) (unet self) (image_depth_processor self)
    (depth_estimator self) (optimizer self) v (train_progress self).

Definition set_train_progress (self : StableDiffusionModel) (a : nat)
  : StableDiffusionModel :=
  mkModel (model_type self) (tokenizer self) (noise_scheduler self)
    (text_encoder self) (vae self) (unet self) (image_depth_processor self)
    (depth_estimator self) (optimizer self) (optimizer_state_dict self) a.

(** [batch[key]]: the read is recorded; a missing key raises [KeyError]. *)
Definition batch_get (batch : gmap string Tensor) (key : string) : Py Tensor :=
  log (EvBatchRead key);;
  match batch !! key with
  | Some x => ret x
  | None => raise (KeyError key)
  end.

(** [shape[i]] for [0 <= i]. *)
Definition shape_get (sh : list nat) (i : nat) : Result nat :=
  match sh !! i with
  | Some d => Ok d
  | None => Raise IndexError
  end.

(** A step counter used as a seed must be an integer. *)
Definition as_int (v : PyVal) : Result Z :=
  match v with
  | PyInt n => Ok n
  | _ => Raise TypeError
  end.

(** [torch.randn(shape, generator=g, device=d, dtype=t)]. *)
Definition torch_randn (sh : list nat) (g : Rng) (d : Device) (t : Dtype)
  : Py (Tensor * Rng) :=
  log (EvRandn sh);; lift (randn sh g d t).

(** [n] draws of [low + bits mod range] from a generator. *)
Fixpoint draw_ints (n : nat) (low range : Z) (g : Rng) : Timesteps * Rng :=
  match n with
  | O => ([], g)
  | S n' =>
      let (r, g1) := random_bits g in
      let (rest, g2) := draw_ints n' low range g1 in
      ((low + r mod range) :: rest, g2)
  end.

(** [torch.randint(low=low, high=high, size=(n,), device=d)].  No generator
    is passed: the draws come from the default generator of the device.
    torch refuses an empty range. *)
Definition torch_randint (low high : Z) (n : nat) (d : Device) : Py Timesteps :=
  log (EvRandint low high);;
  if high <=? low
  then raise (RuntimeError "random_ expects 'from' to be less than 'to'")
  else fun w =>
         let r := draw_ints n low (high - low) (default_generator w d) in
         (Ok (fst r), with_generator w d (snd r)).

(** [StableDiffusionModel.__save_image]. *)
Definition __save_image (image_tensor : Tensor) (directory name : string)
    (step : PyVal) : Py unit :=
  let path :=
    path_join directory ["step-" +:+ py_str step +:+ "-" +:+ name +:+ ".png"] in
  present ← read_env (EvExists directory)
               (fun e => Ok (path_exists e directory));
  (if negb present
   then write_env (EvMakedirs directory) (fun e => makedirs e directory)
   else ret tt);;
  first ← lift (t_getitem image_tensor 0);
  image_tensor ← lift (t_unsqueeze first 0);
  let range_min := -1 in
  let range_max := 1 in
  let image_tensor :=
    div_int (sub_int image_tensor range_min) (range_max - range_min) in
  image ← lift (to_pil_image (t_squeeze image_tensor));
  write_env (EvImageSave path) (fun e => image_save e image path).

(** [self.vae.decode(x).sample]. *)
Definition decode (self : StableDiffusionModel) (x : Tensor) : Py Tensor :=
  log EvVaeDecode;; lift (vae_decode (vae self) x).

(** [self.train_progress.global_step]. *)
Definition self_global_step (self : StableDiffusionModel) : Py PyVal :=
  tp ← read_train_progress (train_progress self);
  ret (global_step tp).

Definition float_half : float := S754_finite false 4503599627370496 (-53).

(** The noise of one call: lines 99 to 104 of [predict]. *)
Definition draw_latent_noise (sh : list nat) (generator : Rng)
    (args : TrainArgs.t) : Py Tensor :=
  if float_gt_zero (TrainArgs.offset_noise_weight args)
  then
    r1 ← torch_randn sh generator
            (TrainArgs.train_device args) (TrainArgs.train_dtype args);
    let normal_noise := fst r1 in
    b ← lift (shape_get sh 0);
    c ← lift (shape_get sh 1);
    r2 ← torch_randn [b; c; 1%nat; 1%nat] (snd r1)
            (TrainArgs.train_device args) (TrainArgs.train_dtype args);
    let offset_noise := fst r2 in
    lift (t_add normal_noise
            (mul_scalar offset_noise (TrainArgs.offset_noise_weight args)))
  else
    r ← torch_randn sh generator
           (TrainArgs.train_device args) (TrainArgs.train_dtype args);
    ret (fst r).

(** The timesteps of one call: lines 106 to 111 of [predict]. *)
Definition sample_timestep (self : StableDiffusionModel)
    (scaled_latent_image : Tensor) (args : TrainArgs.t) : Py Timesteps :=
  product ← lift (int_mul_float (num_train_timesteps (noise_scheduler self))
                     (TrainArgs.max_noising_strength args));
  high ← lift (py_int product);
  n ← lift (shape_get (shape scaled_latent_image) 0);
  torch_randint 0 high n (device_of scaled_latent_image).

(** The debug block of [predict]: lines 127 to 167. *)
Definition debug_images (self : StableDiffusionModel) (args : TrainArgs.t)
    (latent_image : Tensor) (latent_conditioning_image : option Tensor)
    (latent_noise predicted_latent_noise scaled_noisy_latent_image : Tensor)
    (timestep : Timesteps) : Py unit :=
  let sf := scaling_factor (vae self) in
  let dir := TrainArgs.debug_dir args +:+ "/training_batches" in
  (* noise *)
  noise ← decode self (div_scalar latent_noise sf);
  let noise := t_clamp noise (-1) 1 in
  step ← self_global_step self;
  __save_image noise dir "1-noise" step;;
  (* predicted noise *)
  predicted_noise ← decode self (div_scalar predicted_latent_noise sf);
  let predicted_noise := t_clamp predicted_noise (-1) 1 in
  step ← self_global_step self;
  __save_image predicted_noise dir "2-predicted_noise" step;;
  (* noisy image *)
  let noisy_latent_image := div_scalar scaled_noisy_latent_image sf in
  noisy_image ← decode self noisy_latent_image;
  let noisy_image := t_clamp noisy_image (-1) 1 in
  step ← self_global_step self;
  __save_image noisy_image dir "3-noisy_image" step;;
  (* predicted image *)
  a ← lift (t_index (alphas_cumprod (noise_scheduler self)) timestep);
  let sqrt_alpha_prod := pow_scalar a float_half in
  sqrt_alpha_prod ← lift (t_reshape (t_flatten sqrt_alpha_prod) [-1; 1; 1; 1]);
  a' ← lift (t_index (alphas_cumprod (noise_scheduler self)) timestep);
  let sqrt_one_minus_alpha_prod := pow_scalar (rsub_int 1 a') float_half in
  sqrt_one_minus_alpha_prod ←
    lift (t_reshape (t_flatten sqrt_one_minus_alpha_prod) [-1; 1; 1; 1]);
  x ← lift (t_mul predicted_latent_noise sqrt_one_minus_alpha_prod);
  y ← lift (t_sub scaled_noisy_latent_image x);
  scaled_predicted_latent_image ← lift (t_div y sqrt_alpha_prod);
  let predicted_latent_image := div_scalar scaled_predicted_latent_image sf in
  predicted_image ← decode self predicted_latent_image;
  let predicted_image := t_clamp predicted_image (-1) 1 in
  step ← self_global_step self;
  __save_image predicted_image dir "4-predicted_image" step;;
  (* image *)
  image ← decode self latent_image;
  let image := t_clamp image (-1) 1 in
  step ← self_global_step self;
  __save_image image dir "5-image" step;;
  (* conditioning image *)
  if has_conditioning_image_input (model_type self)
  then
    conditioning_image ←
      (log EvVaeDecode;;
       match latent_conditioning_image with
       | Some c => lift (vae_decode (vae self) c)
       | None => raise AttributeError
       end);
    let conditioning_image := t_clamp conditioning_image (-1) 1 in
    step ← self_global_step self;
    __save_image conditioning_image dir "6-conditioning_image" step
  else ret tt.

(** Everything [predict] computes before the debug block (lines 87 to
    125): the pair it will return and the values the debug block reads. *)
Record Forward : Type := mkForward {
  fw_latent_image : Tensor;
  fw_latent_conditioning_image : option Tensor;
  fw_latent_noise : Tensor;
  fw_scaled_noisy_latent_image : Tensor;
  fw_timestep : Timesteps;
  fw_predicted_latent_noise : Tensor;
}.

Definition forward (self : StableDiffusionModel) (batch : gmap string Tensor)
    (args : TrainArgs.t) : Py Forward :=
  latent_image ← batch_get batch "latent_image";
  let scaled_latent_image := mul_scalar latent_image (scaling_factor (vae self)) in
  cond ← (if has_conditioning_image_input (TrainArgs.model_type args)
           then
             c ← batch_get batch "latent_conditioning_image";
             ret (Some c, Some (mul_scalar c (scaling_factor (vae self))))
           else ret (None, None));
  let latent_conditioning_image := fst cond in
  let scaled_latent_conditioning_image := snd cond in
  generator ← lift (new_generator (TrainArgs.train_device args));
  step ← self_global_step self;
  seed ← lift (as_int step);
  generator ← lift (manual_seed generator seed);
  latent_noise ← draw_latent_noise (shape scaled_latent_image) generator args;
  timestep ← sample_timestep self scaled_latent_image args;
  scaled_noisy_latent_image ←
    (log EvAddNoise;;
     lift (add_noise (noise_scheduler self)
             scaled_latent_image latent_noise timestep));
  tokens ← batch_get batch "tokens";
  text_encoder_output ←
    (log EvTextEncoder;;
     lift (text_encoder_forward (text_encoder self) tokens));
  latent_input ←
    (if has_mask_input (TrainArgs.model_type args)
        && has_conditioning_image_input (TrainArgs.model_type args)
     then
       latent_mask ← batch_get batch "latent_mask";
       c ← match scaled_latent_conditioning_image with
            | Some c => ret c
            | None => raise TypeError
            end;
       log EvConcat;;
       lift (t_concat [scaled_noisy_latent_image; latent_mask; c] 1)
     else ret scaled_noisy_latent_image);
  predicted_latent_noise ←
    (if has_depth_input (TrainArgs.model_type args)
     then
       latent_depth ← batch_get batch "latent_depth";
       log (EvUnet true);;
       lift (unet_forward (unet self) latent_input timestep
               text_encoder_output (Some latent_depth))
     else
       log (EvUnet false);;
       lift (unet_forward (unet self) latent_input timestep
               text_encoder_output None));
  ret (mkForward latent_image latent_conditioning_image latent_noise
         scaled_noisy_latent_image timestep predicted_latent_noise).

(** [StableDiffusionModel.predict]. *)
Definition predict (self : StableDiffusionModel) (batch : gmap string Tensor)
    (args : TrainArgs.t) : Py (Tensor * Tensor) :=
  fw ← forward self batch args;
  (if TrainArgs.debug_mode args
   then debug_images self args (fw_latent_image fw)
          (fw_latent_conditioning_image fw) (fw_latent_noise fw)
          (fw_predicted_latent_noise fw) (fw_scaled_noisy_latent_image fw)
          (fw_timestep fw)
   else ret tt);;
  ret (fw_predicted_latent_noise fw, fw_latent_noise fw).

(** The three pipeline classes of diffusers with the keyword arguments
    [create_pipeline] passes. *)
Inductive Pipeline : Type :=
| StableDiffusionDepth2ImgPipeline
    (vae : Vae) (text_encoder : TextEncoder) (tokenizer : Tokenizer)
    (unet : Unet) (scheduler : Scheduler)
    (depth_estimator : option DepthEstimator)
    (feature_extractor : option DepthProcessor)
| StableDiffusionInpaintPipeline
    (vae : Vae) (text_encoder : TextEncoder) (tokenizer : Tokenizer)
    (unet : Unet) (scheduler : Scheduler)
    (safety_checker : option SafetyChecker)
    (feature_extractor : option FeatureExtractor)
    (requires_safety_checker : bool)
| StableDiffusionPipeline
    (vae : Vae) (text_encoder : TextEncoder) (tokenizer : Tokenizer)
    (unet : Unet) (scheduler : Scheduler)
    (safety_checker : option SafetyChecker)
    (feature_extractor : option FeatureExtractor)
    (requires_safety_checker : bool).

(** [StableDiffusionModel.create_pipeline]. *)
Definition create_pipeline (self : StableDiffusionModel) : Py Pipeline :=
  if has_depth_input (model_type self)
  then ret (StableDiffusionDepth2ImgPipeline
              (vae self) (text_encoder self) (tokenizer self) (unet self)
              (noise_scheduler self) (depth_estimator self)
              (image_depth_processor self))
  else if has_conditioning_image_input (model_type self)
  then ret (StableDiffusionInpaintPipeline
              (vae self) (text_encoder self) (tokenizer self) (unet self)
              (noise_scheduler self) None None false)
  else ret (StableDiffusionPipeline
              (vae self) (text_encoder self) (tokenizer self) (unet self)
              (noise_scheduler self) None None false).

End StableDiffusionModel.

(** ** [FineTuneModelLoader] *)

Section FineTuneModelLoader.
Context `{Externals} `{Capabilities}.

Definition float32 : Dtype := "float32".

(** [Cls.from_pretrained(base_model_name, subfolder=...)]. *)
Definition from_pretrained {A} (cls base_model_name subfolder : string)
    (f : Env -> string -> string -> Result A) : Py A :=
  read_env (EvFromPretrained cls base_model_name subfolder)
    (fun e => f e base_model_name subfolder).

(** The body of the [try] of [__load_diffusers_model]. *)
Definition load_diffusers_body (base_model_name : string)
    (model_type : ModelType) : Py StableDiffusionModel :=
  tokenizer ←
    from_pretrained "CLIPTokenizer" base_model_name "tokenizer"
      tokenizer_from_pretrained;
  noise_scheduler ←
    from_pretrained "DDPMScheduler" base_model_name "scheduler"
      scheduler_from_pretrained;
  text_encoder ←
    from_pretrained "CLIPTextModel" base_model_name "text_encoder"
      (fun e b sub => text_encoder_from_pretrained e b sub float32);
  vae ←
    from_pretrained "AutoencoderKL" base_model_name "vae"
      (fun e b sub => vae_from_pretrained e b sub float32);
  unet ←
    from_pretrained "UNet2DConditionModel" base_model_name "unet"
      (fun e b sub => unet_from_pretrained e b sub float32);
  image_depth_processor ←
    (if has_depth_input model_type
     then
       x ← from_pretrained "DPTImageProcessor" base_model_name
             "feature_extractor" depth_processor_from_pretrained;
       ret (Some x)
     else ret None);
  depth_estimator ←
    (if has_depth_input model_type
     then
       x ← from_pretrained "DPTForDepthEstimation" base_model_name
             "depth_estimator" depth_estimator_from_pretrained;
       ret (Some x)
     else ret None);
  ret (StableDiffusionModel_init model_type tokenizer noise_scheduler
         text_encoder vae unet image_depth_processor depth_estimator
         None None).

(** [FineTuneModelLoader.__load_diffusers_model]. *)
Definition __load_diffusers_model (base_model_name : string)
    (model_type : ModelType) : Py (option StableDiffusionModel) :=
  try_except (load_diffusers_body base_model_name model_type).

(** [meta['train_progress'][field]]. *)
Definition meta_counter (meta : PyVal) (field : string) : Result PyVal :=
  result_bind (py_getitem meta "train_progress")
    (fun tp => py_getitem tp field).

(** The body of the [try] of [__load_internal_model]. *)
Definition load_internal_body (base_model_name : string)
    (model_type : ModelType) : Py StableDiffusionModel :=
  let meta_path := path_join base_model_name ["meta.json"] in
  meta ← read_env (EvReadJson meta_path) (fun e => read_json e meta_path);
  epoch ← lift (meta_counter meta "epoch");
  epoch_step ← lift (meta_counter meta "epoch_step");
  epoch_sample ← lift (meta_counter meta "epoch_sample");
  global_step ← lift (meta_counter meta "global_step");
  train_progress ←
    new_train_progress
      (mkTrainProgress epoch epoch_step epoch_sample global_step);
  (* base model *)
  model ← __load_diffusers_model base_model_name model_type;
  (* optimizer *)
  let optimizer_path :=
    path_join base_model_name ["optimizer"; "optimizer.pt"] in
  state ← read_env (EvTorchLoad optimizer_path)
            (fun e => torch_load e optimizer_path);
  match model with
  | None => raise AttributeError
  | Some model =>
      let model := set_optimizer_state_dict model (Some state) in
      (* meta *)
      let model := set_train_progress model train_progress in
      ret model
  end.

(** [FineTuneModelLoader.__load_internal_model]. *)
Definition __load_internal_model (base_model_name : string)
    (model_type : ModelType) : Py (option StableDiffusionModel) :=
  try_except (load_internal_body base_model_name model_type).

(** [FineTuneModelLoader.__default_yaml_name]. *)
Definition __default_yaml_name (model_type : ModelType) : option string :=
  match model_type with
  | STABLE_DIFFUSION_15 =>
      Some "resources/diffusers_model_config/v1-inference.yaml"
  | STABLE_DIFFUSION_15_INPAINTING =>
      Some "resources/diffusers_model_config/v1-inpainting-inference.yaml"
  | STABLE_DIFFUSION_20 =>
      Some "resources/diffusers_model_config/v2-inference.yaml"
  | STABLE_DIFFUSION_20_INPAINTING =>
      Some "resources/diffusers_model_config/v2-inpainting-inference.yaml"
  | STABLE_DIFFUSION_20_DEPTH =>
      Some "resources/diffusers_model_config/v2-midas-inference.yaml"
  | OTHER_MODEL_TYPE _ => None
  end.

(** [os.path.exists(path)]. *)
Definition os_path_exists (path : string) : Py bool :=
  read_env (EvExists path) (fun e => Ok (path_exists e path)).

(** Lines 117 to 121 of [__load_ckpt_model]: the config file handed to the
    converter. *)
Definition resolve_yaml_name (base_model_name : string)
    (model_type : ModelType) : Py (option string) :=
  let yaml_name := fst (splitext base_model_name) +:+ ".yaml" in
  present ← os_path_exists yaml_name;
  if negb present
  then
    let yaml_name := fst (splitext base_model_name) +:+ ".yml" in
    present ← os_path_exists yaml_name;
    if negb present
    then ret (__default_yaml_name model_type)
    else ret (Some yaml_name)
  else ret (Some yaml_name).

(** The body of the [try] of [__load_ckpt_model]. *)
Definition load_ckpt_body (base_model_name : string)
    (model_type : ModelType) : Py StableDiffusionModel :=
  yaml_name ← resolve_yaml_name base_model_name model_type;
  pipeline ←
    read_env (EvConvertCkpt base_model_name yaml_name)
      (fun e =>
         download_from_original_stable_diffusion_ckpt e
           base_model_name yaml_name);
  ret (StableDiffusionModel_init model_type
         (pipeline_tokenizer pipeline)
         (pipeline_scheduler pipeline)
         (text_encoder_to (pipeline_text_encoder pipeline) float32)
         (vae_to (pipeline_vae pipeline) float32)
         (unet_to (pipeline_unet pipeline) float32)
         None None None None).

(** [FineTuneModelLoader.__load_ckpt_model]. *)
Definition __load_ckpt_model (base_model_name : string)
    (model_type : ModelType) : Py (option StableDiffusionModel) :=
  try_except (load_ckpt_body base_model_name model_type).

(** [FineTuneModelLoader.load]. *)
Definition load (base_model_name : string) (model_type : ModelType)
  : Py (option StableDiffusionModel) :=
  model ← __load_internal_model base_model_name model_type;
  match model with
  | Some model => ret (Some model)
  | None =>
      model ← __load_diffusers_model base_model_name model_type;
      match model with
      | Some model => ret (Some model)
      | None =>
          model ← __load_ckpt_model base_model_name model_type;
          match model with
          | Some model => ret (Some model)
          | None => ret None
          end
      end
  end.

End FineTuneModelLoader.

(** ** Shapes

    The shape rules of torch that the noise of [predict] relies on. *)

(** Broadcasting of two shapes, both given innermost dimension first. *)
Fixpoint broadcast_rev (a b : list nat) : option (list nat) :=
  match a, b with
  | [], _ => Some b
  | _, [] => Some a
  | x :: a', y :: b' =>
      if (x =? y)%nat then cons x <$> broadcast_rev a' b'
      else if (x =? 1)%nat then cons y <$> broadcast_rev a' b'
      else if (y =? 1)%nat then cons x <$> broadcast_rev a' b'
      else None
  end.

(** [torch.broadcast_shapes(a, b)]. *)
Definition broadcast_shapes (a b : list nat) : option (list nat) :=
  reverse <$> broadcast_rev (reverse a) (reverse b).

(** What torch documents about the shapes of the three operations the
    noise is built from. *)
Record ShapeLaws `{Externals} : Prop := {
  randn_shape :
    forall sh g d t x g', randn sh g d t = Ok (x, g') -> shape x = sh;
  mul_scalar_shape :
    forall x c, shape (mul_scalar x c) = shape x;
  t_add_shape :
    forall x y z, t_add x y = Ok z ->
      broadcast_shapes (shape x) (shape y) = Some (shape z);
}.

(** ** A small interpretation of the libraries

    Tensors carry their shape and a checksum, generators are linear
    congruential, the environment is a set of paths, the JSON files among
    them, and a flag for a read-only disk.  The examples below run the two
    files on it. *)

Module Sim.

Record tensor : Type := mkTensor { t_shape : list nat; t_sum : Z }.

Record sim_env : Type := mkEnv {
  paths : gset string;
  json_files : gmap string PyVal;
  read_only : bool;
}.

Definition lcg (g : Z) : Z :=
  (g * 6364136223846793005 + 1442695040888963407) mod 2 ^ 64.

Definition float_hash (x : float) : Z :=
  match x with
  | S754_finite s m e => (if s then -1 else 1) * (Z.pos m + e)
  | _ => 0
  end.

Definition pointwise (a b : tensor) (f : Z -> Z -> Z) : Result tensor :=
  match broadcast_shapes (t_shape a) (t_shape b) with
  | Some sh => Ok (mkTensor sh (f (t_sum a) (t_sum b)))
  | None => Raise (RuntimeError "shapes cannot be broadcast")
  end.

Definition numel (sh : list nat) : nat := fold_right Nat.mul 1%nat sh.

Definition getitem (a : tensor) (i : Z) : Result tensor :=
  match t_shape a with
  | [] => Raise IndexError
  | d :: rest =>
      if (0 <=? i) && (i <? Z.of_nat d)
      then Ok (mkTensor rest (t_sum a + i))
      else Raise IndexError
  end.

Definition reshape (a : tensor) (dims : list Z) : Result tensor :=
  let known := fold_right Z.mul 1 (filter (fun d => 0 <= d) dims) in
  let total := Z.of_nat (numel (t_shape a)) in
  let sh := map (fun d => if d <? 0 then Z.to_nat (total / known)
                          else Z.to_nat d) dims in
  if (numel sh =? numel (t_shape a))%nat
  then Ok (mkTensor sh (t_sum a))
  else Raise (RuntimeError "invalid shape").

Definition concat (ts : list tensor) (dim : Z) : Result tensor :=
  match ts with
  | [] => Raise (RuntimeError "expected a non-empty list")
  | a :: _ =>
      let channels :=
        fold_right Nat.add 0%nat
          (map (fun x => default 0%nat (t_shape x !! Z.to_nat dim)) ts) in
      Ok (mkTensor (<[Z.to_nat dim := channels]> (t_shape a))
            (fold_right Z.add 0 (map t_sum ts)))
  end.

Definition exists_in (e : sim_env) (p : string) : bool :=
  bool_decide (p ∈ paths e).

Definition create (e : sim_env) (p : string) : Result sim_env :=
  if read_only e then Raise (OSError "read-only file system")
  else Ok (mkEnv ({[p]} ∪ paths e) (json_files e) (read_only e)).

Definition open_dir {A} (e : sim_env) (base sub : string) (a : string -> A)
  : Result A :=
  let p := path_join base [sub] in
  if exists_in e p then Ok (a p) else Raise (OSError "no such directory").

Definition externals : Externals := {|
  Tensor := tensor;
  Rng := Z;
  Env := sim_env;
  Image := tensor;
  Tokenizer := string;
  Scheduler := Z;
  TextEncoder := string * Dtype;
  Vae := string * Dtype;
  Unet := string * Dtype;
  DepthProcessor := string;
  DepthEstimator := string;
  Optimizer := string;
  StateDict := string;
  CkptPipeline := string * option string;
  SafetyChecker := string;
  FeatureExtractor := string;

  shape := t_shape;
  device_of := fun _ => "cpu";
  mul_scalar := fun a c => mkTensor (t_shape a) (t_sum a * 3 + float_hash c);
  div_scalar := fun a c => mkTensor (t_shape a) (t_sum a * 5 + float_hash c);
  sub_int := fun a n => mkTensor (t_shape a) (t_sum a - n);
  div_int := fun a n => mkTensor (t_shape a) (t_sum a * 7 + n);
  rsub_int := fun n a => mkTensor (t_shape a) (n - t_sum a);
  pow_scalar := fun a c => mkTensor (t_shape a) (t_sum a * 11 + float_hash c);
  t_add := fun a b => pointwise a b Z.add;
  t_sub := fun a b => pointwise a b Z.sub;
  t_mul := fun a b => pointwise a b Z.mul;
  t_div := fun a b => pointwise a b (fun x y => x * 13 + y);
  t_clamp := fun a lo hi => a;
  t_getitem := getitem;
  t_index := fun a ts =>
    if forallb (fun t => (0 <=? t) && (t <? Z.of_nat (numel (t_shape a)))) ts
    then Ok (mkTensor [length ts] (t_sum a + fold_right Z.add 0 ts))
    else Raise IndexError;
  t_unsqueeze := fun a dim => Ok (mkTensor (1%nat :: t_shape a) (t_sum a));
  t_squeeze := fun a =>
    mkTensor (filter (fun d => d <> 1%nat) (t_shape a)) (t_sum a);
  t_flatten := fun a => mkTensor [numel (t_shape a)] (t_sum a);
  t_reshape := reshape;
  t_concat := concat;

  new_generator := fun d => Ok 0;
  manual_seed := fun g n => Ok n;
  randn := fun sh g d t => Ok (mkTensor sh g, lcg g);
  random_bits := fun g => (g, lcg g);

  scaling_factor := fun v => S754_finite false 6562645377004287 (-55);
  vae_decode := fun v a => Ok (mkTensor (t_shape a) (t_sum a * 17));
  text_encoder_forward := fun te tokens =>
    Ok (mkTensor (t_shape tokens ++ [768%nat]) (t_sum tokens * 19));
  unet_forward := fun u x ts emb depth =>
    Ok (mkTensor (<[1%nat := 4%nat]> (t_shape x))
          (t_sum x + fold_right Z.add 0 ts + t_sum emb
           + from_option t_sum 0 depth));
  num_train_timesteps := fun s => s;
  alphas_cumprod := fun s => mkTensor [Z.to_nat s] 0;
  add_noise := fun s x n ts =>
    if forallb (fun t => (0 <=? t) && (t <? s)) ts
    then Ok (mkTensor (t_shape x) (t_sum x + t_sum n + fold_right Z.add 0 ts))
    else Raise IndexError;

  path_exists := exists_in;
  makedirs := create;
  to_pil_image := fun a => Ok a;
  image_save := fun e img p => create e p;

  read_json := fun e p =>
    match json_files e !! p with
    | Some v => Ok v
    | None => Raise (OSError "no such file")
    end;
  torch_load := fun e p =>
    if exists_in e p then Ok p else Raise (OSError "no such file");
  tokenizer_from_pretrained := fun e base sub => open_dir e base sub id;
  scheduler_from_pretrained := fun e base sub => open_dir e base sub (fun _ => 1000);
  text_encoder_from_pretrained := fun e base sub t =>
    open_dir e base sub (fun p => (p, t));
  vae_from_pretrained := fun e base sub t => open_dir e base sub (fun p => (p, t));
  unet_from_pretrained := fun e base sub t => open_dir e base sub (fun p => (p, t));
  depth_processor_from_pretrained := fun e base sub => open_dir e base sub id;
  depth_estimator_from_pretrained := fun e base sub => open_dir e base sub id;
  (* like diffusers, the converter infers a config when it is given none *)
  download_from_original_stable_diffusion_ckpt := fun e ckpt config =>
    if exists_in e ckpt then Ok (ckpt, config)
    else Raise (OSError "no such file");
  pipeline_tokenizer := fun p => fst p +:+ "#tokenizer";
  pipeline_scheduler := fun p => 1000;
  pipeline_text_encoder := fun p => (fst p +:+ "#text_encoder", "float16");
  pipeline_vae := fun p => (fst p +:+ "#vae", "float16");
  pipeline_unet := fun p => (fst p +:+ "#unet", "float16");
  text_encoder_to := fun te t => (fst te, t);
  vae_to := fun v t => (fst v, t);
  unet_to := fun u t => (fst u, t);
|}.

(** The flags of the five variants as OneTrainer sets them, and one
    further variant that has every capability. *)
Definition capabilities : Capabilities := {|
  has_conditioning_image_input := fun mt =>
    match mt with
    | STABLE_DIFFUSION_15_INPAINTING | STABLE_DIFFUSION_20_INPAINTING => true
    | OTHER_MODEL_TYPE name => String.eqb name "DEPTH_INPAINTING"
    | _ => false
    end;
  has_mask_input := fun mt =>
    match mt with
    | STABLE_DIFFUSION_15_INPAINTING | STABLE_DIFFUSION_20_INPAINTING => true
    | OTHER_MODEL_TYPE name => String.eqb name "DEPTH_INPAINTING"
    | _ => false
    end;
  has_depth_input := fun mt =>
    match mt with
    | STABLE_DIFFUSION_20_DEPTH => true
    | OTHER_MODEL_TYPE name => String.eqb name "DEPTH_INPAINTING"
    | _ => false
    end;
|}.

#[local] Existing Instance externals.
#[local] Existing Instance capabilities.

Definition world (e : sim_env) (default_tp : TrainProgress) (g : Z) : World :=
  mkWorld e [default_tp] (fun _ => g) [].

Definition empty_env : sim_env := mkEnv ∅ ∅ false.

Definition read_only_env : sim_env := mkEnv ∅ ∅ true.

(** A Stable Diffusion 1.5 bundle built without a [train_progress]. *)
Definition model (mt : ModelType) : StableDiffusionModel :=
  StableDiffusionModel_init mt "tok" 1000 ("te", "float32")
    ("vae", "float32") ("unet", "float32") None None None None.

Definition latent : tensor := mkTensor [2; 4; 8; 8]%nat 5.

Definition batch : gmap string tensor :=
  {[ "latent_image" := latent;
     "tokens" := mkTensor [2; 77]%nat 9 ]}.

Definition inpainting_batch : gmap string tensor :=
  <["latent_conditioning_image" := mkTensor [2; 4; 8; 8]%nat 6]>
    (<["latent_mask" := mkTensor [2; 1; 8; 8]%nat 1]> batch).

(** 0.3 and 0.0005 as binary64 numbers. *)
Definition f_0_3 : float := S754_finite false 5404319552844595 (-54).
Definition f_0_0005 : float := S754_finite false 4611686018427388 (-63).
(** the float nearest to 1/3 *)
Definition f_third : float := S754_finite false 6004799503160661 (-54).

(** 0.1 as a binary64 number. *)
Definition f_0_1 : float := S754_finite false 7205759403792794 (-56).

(** A directory with the bare-weights layout and no [meta.json]. *)
Definition bare_weights_env : sim_env :=
  mkEnv (list_to_set
           ["models/sd15/tokenizer"; "models/sd15/scheduler";
            "models/sd15/text_encoder"; "models/sd15/vae";
            "models/sd15/unet"])
    ∅ false.

(** A packed checkpoint with no sibling config, and one with a sibling
    [.yaml]. *)
Definition ckpt_env : sim_env := mkEnv {["models/custom.ckpt"]} ∅ false.

Definition ckpt_yaml_env : sim_env :=
  mkEnv (list_to_set ["models/foo.ckpt"; "models/foo.yaml"]) ∅ false.

(** The counters after seven steps of training. *)
Definition advanced : TrainProgress :=
  mkTrainProgress (PyInt 0) (PyInt 7) (PyInt 28) (PyInt 7).

Definition args (mt : ModelType) (weight strength : float) (debug : bool)
  : TrainArgs.t :=
  TrainArgs.mk false mt "cpu" "float32" weight strength debug "debug".

(** A process that loads a bare-weights directory, trains the bundle for
    seven steps (the training loop advances the counters of
    [model.train_progress] in place), and loads the directory again. *)
Definition first_load : Result (option StableDiffusionModel) * World :=
  load "models/sd15" STABLE_DIFFUSION_15
    (world bare_weights_env TrainProgress_default 42).

Definition after_training : World :=
  match fst first_load with
  | Ok (Some m) =>
      snd (write_train_progress (train_progress m) advanced (snd first_load))
  | _ => snd first_load
  end.

Definition second_load : Result (option StableDiffusionModel) * World :=
  load "models/sd15" STABLE_DIFFUSION_15 after_training.

(** [1000 * 0.0005] as [predict] computes it. *)
Definition small_product : float :=
  Eval vm_compute in
    match int_mul_float 1000 f_0_0005 with
    | Ok p => p
    | Raise _ => S754_nan
    end.

End Sim.


(** ** Vocabulary of the statements *)

Section Vocabulary.
Context `{Externals} `{Capabilities}.

(** The batch fields a model type implies, in the order [predict] reads
    them. *)
Definition required_fields (mt : ModelType) : list string :=
  ["latent_image"]
  ++ (if has_conditioning_image_input mt
      then ["latent_conditioning_image"] else [])
  ++ ["tokens"]
  ++ (if has_mask_input mt && has_conditioning_image_input mt
      then ["latent_mask"] else [])
  ++ (if has_depth_input mt then ["latent_depth"] else []).

(** The keys of the batch reads among some events, in order. *)
Definition batch_reads (evs : list Event) : list string :=
  omap (fun ev => match ev with EvBatchRead k => Some k | _ => None end) evs.

(** The shapes of the [torch.randn] calls among some events, in order. *)
Definition randn_shapes (evs : list Event) : list (list nat) :=
  omap (fun ev => match ev with EvRandn sh => Some sh | _ => None end) evs.

Definition is_unet (ev : Event) : bool :=
  match ev with EvUnet _ => true | _ => false end.

(** The events of the debug block. *)
Definition is_debug_event (ev : Event) : bool :=
  match ev with
  | EvVaeDecode | EvExists _ | EvMakedirs _ | EvImageSave _ => true
  | _ => false
  end.

(** The events of the noise draw. *)
Definition noise_events (sh : list nat) (args : TrainArgs.t) : list Event :=
  if float_gt_zero (TrainArgs.offset_noise_weight args)
  then [EvRandn sh;
        EvRandn [default 0%nat (sh !! 0%nat); default 0%nat (sh !! 1%nat);
                 1%nat; 1%nat]]
  else [EvRandn sh].

(** The events of a [forward] that returns: [sh] is the shape of the scaled
    latent image and [high] the bound of the timestep draw. *)
Definition forward_events (args : TrainArgs.t) (sh : list nat) (high : Z)
  : list Event :=
  let mt := TrainArgs.model_type args in
  [EvBatchRead "latent_image"]
  ++ (if has_conditioning_image_input mt
      then [EvBatchRead "latent_conditioning_image"] else [])
  ++ noise_events sh args
  ++ [EvRandint 0 high; EvAddNoise; EvBatchRead "tokens"; EvTextEncoder]
  ++ (if has_mask_input mt && has_conditioning_image_input mt
      then [EvBatchRead "latent_mask"; EvConcat] else [])
  ++ (if has_depth_input mt
      then [EvBatchRead "latent_depth"; EvUnet true]
      else [EvUnet false]).

(** [args] with [debug_mode] set to [b]. *)
Definition with_debug_mode (b : bool) (args : TrainArgs.t) : TrainArgs.t :=
  TrainArgs.mk (TrainArgs.train_text_encoder args) (TrainArgs.model_type args)
    (TrainArgs.train_device args) (TrainArgs.train_dtype args)
    (TrainArgs.offset_noise_weight args) (TrainArgs.max_noising_strength args)
    b (TrainArgs.debug_dir args).

(** A batch read is allowed when its key is a required field. *)
Definition read_allowed (mt : ModelType) (ev : Event) : Prop :=
  match ev with
  | EvBatchRead k => k ∈ required_fields mt
  | _ => True
  end.

(** The three pipeline classes. *)
Inductive PipelineVariant : Type :=
| DepthVariant
| InpaintVariant
| TextToImageVariant.

Definition pipeline_variant (p : Pipeline) : PipelineVariant :=
  match p with
  | StableDiffusionDepth2ImgPipeline _ _ _ _ _ _ _ => DepthVariant
  | StableDiffusionInpaintPipeline _ _ _ _ _ _ _ _ => InpaintVariant
  | StableDiffusionPipeline _ _ _ _ _ _ _ _ => TextToImageVariant
  end.

(** The sub-networks and the scheduler a pipeline refers to. *)
Definition pipeline_components (p : Pipeline)
  : Vae * TextEncoder * Tokenizer * Unet * Scheduler :=
  match p with
  | StableDiffusionDepth2ImgPipeline v te tok u s _ _
  | StableDiffusionInpaintPipeline v te tok u s _ _ _
  | StableDiffusionPipeline v te tok u s _ _ _ => (v, te, tok, u, s)
  end.

(** The value a call returned, if it returned. *)
Definition returned {A} (x : Result A * World) : option A :=
  match fst x with
  | Ok a => Some a
  | Raise _ => None
  end.

(** The events of the three loading strategies. *)
Definition is_internal_event (ev : Event) : bool :=
  match ev with
  | EvReadJson _ | EvFromPretrained _ _ _ | EvTorchLoad _ => true
  | _ => false
  end.

Definition is_diffusers_event (ev : Event) : bool :=
  match ev with
  | EvFromPretrained _ _ _ => true
  | _ => false
  end.

Definition is_ckpt_event (ev : Event) : bool :=
  match ev with
  | EvExists _ | EvConvertCkpt _ _ => true
  | _ => false
  end.

(** The bundle a loading call returned, if it returned one. *)
Definition loaded (x : Result (option StableDiffusionModel) * World)
  : option StableDiffusionModel :=
  match fst x with
  | Ok (Some m) => Some m
  | _ => None
  end.

(** The training progress of the bundle a loading call returned, read in
    the world the call left. *)
Definition progress_of_loaded
    (x : Result (option StableDiffusionModel) * World) : option TrainProgress :=
  match loaded x with
  | Some m => heap (snd x) !! train_progress m
  | None => None
  end.

(** Every event a call adds satisfies [P], whatever its outcome. *)
Definition emits {A} (P : Event -> Prop) (m : Py A) : Prop :=
  forall w r w', m w = (r, w') ->
    exists evs, trace w' = trace w ++ evs /\ Forall P evs.

(** A call raises in every world, and every event it adds satisfies [P]. *)
Definition fails_with {A} (P : Event -> Prop) (m : Py A) : Prop :=
  forall w, exists e w' evs,
    m w = (Raise e, w') /\ trace w' = trace w ++ evs /\ Forall P evs.

End Vocabulary.

(** ** Vocabulary of the further properties *)

(** *** What a call leaves alone *)

Section Frames.
Context `{Externals}.

(** Whatever its outcome, a call takes a world to one related by [R]. *)
Definition preserves {A} (R : World -> World -> Prop) (m : Py A) : Prop :=
  forall w r w', m w = (r, w') -> R w w'.

(** The relations between the world before and after a call. *)
Definition same_heap (w w' : World) : Prop := heap w' = heap w.
Definition same_env (w w' : World) : Prop := env w' = env w.
Definition same_generators (w w' : World) : Prop :=
  default_generator w' = default_generator w.

(** A relation that is kept by doing nothing, by doing two things in a row,
    and by recording events. *)
Record Frame (R : World -> World -> Prop) : Prop := {
  frame_refl : forall w, R w w;
  frame_trans : forall w1 w2 w3, R w1 w2 -> R w2 w3 -> R w1 w3;
  frame_trace : forall w evs, R w (add_trace w evs);
}.

End Frames.

(** *** Saved images *)

(** The file [__save_image] writes. *)
Definition image_path (directory name : string) (step : PyVal) : string :=
  path_join directory ["step-" +:+ py_str step +:+ "-" +:+ name +:+ ".png"].

(** The paths of the image writes among some events, in order. *)
Definition saved_images (evs : list Event) : list string :=
  omap (fun ev => match ev with EvImageSave p => Some p | _ => None end) evs.

Section DebugVocabulary.
Context `{Externals} `{Capabilities}.

(** The names under which the debug block of [predict] saves its images. *)
Definition debug_labels (self : StableDiffusionModel) : list string :=
  ["1-noise"; "2-predicted_noise"; "3-noisy_image"; "4-predicted_image";
   "5-image"]
  ++ (if has_conditioning_image_input (model_type self)
      then ["6-conditioning_image"] else []).

(** The files of one debug block. *)
Definition debug_files (self : StableDiffusionModel) (args : TrainArgs.t)
    (step : PyVal) : list string :=
  map (fun label =>
         TrainArgs.debug_dir args +:+ "/training_batches/step-"
         +:+ py_str step +:+ "-" +:+ label +:+ ".png")
      (debug_labels self).

End DebugVocabulary.

(** *** The loader *)

Section LoaderVocabulary.
Context `{Capabilities}.

(** The [from_pretrained] calls of the bare-weights strategy, in order. *)
Definition diffusers_calls (base_model_name : string) (mt : ModelType)
  : list Event :=
  [EvFromPretrained "CLIPTokenizer" base_model_name "tokenizer";
   EvFromPretrained "DDPMScheduler" base_model_name "scheduler";
   EvFromPretrained "CLIPTextModel" base_model_name "text_encoder";
   EvFromPretrained "AutoencoderKL" base_model_name "vae";
   EvFromPretrained "UNet2DConditionModel" base_model_name "unet"]
  ++ (if has_depth_input mt
      then [EvFromPretrained "DPTImageProcessor" base_model_name
              "feature_extractor";
            EvFromPretrained "DPTForDepthEstimation" base_model_name
              "depth_estimator"]
      else []).

End LoaderVocabulary.

Section PipelineVocabulary.
Context `{Externals}.

(** The depth estimator and the feature extractor of a depth pipeline. *)
Definition pipeline_depth_parts (p : Pipeline)
  : option (option DepthEstimator * option DepthProcessor) :=
  match p with
  | StableDiffusionDepth2ImgPipeline _ _ _ _ _ d f => Some (d, f)
  | _ => None
  end.

End PipelineVocabulary.

(** Internal checkpoints on the small interpretation. *)
Module SimCheckpoint.

(** The [meta.json] of a backup taken at step 103. *)
Definition meta : PyVal :=
  PyDict [("train_progress",
           PyDict [("epoch", PyInt 1); ("epoch_step", PyInt 3);
                   ("epoch_sample", PyInt 12); ("global_step", PyInt 103)])].

Definition restored : TrainProgress :=
  mkTrainProgress (PyInt 1) (PyInt 3) (PyInt 12) (PyInt 103).

Definition weights : list string :=
  ["backup/tokenizer"; "backup/scheduler"; "backup/text_encoder";
   "backup/vae"; "backup/unet"].

(** A complete internal checkpoint, and one whose optimizer state is
    missing. *)
Definition checkpoint_env : Sim.sim_env :=
  Sim.mkEnv (list_to_set ("backup/optimizer/optimizer.pt" :: weights))
    {[ "backup/meta.json" := meta ]} false.

Definition no_optimizer_env : Sim.sim_env :=
  Sim.mkEnv (list_to_set weights) {[ "backup/meta.json" := meta ]} false.

End SimCheckpoint.

(** * Examples *)

Example splitext_ckpt : splitext "models/foo.ckpt" = ("models/foo", ".ckpt").
Proof. reflexivity. Qed.

Example splitext_hidden : splitext "models/.hidden" = ("models/.hidden", "").
Proof. reflexivity. Qed.

Example splitext_dotted_dir : splitext "a.b/foo" = ("a.b/foo", "").
Proof. reflexivity. Qed.

Example path_join_meta : path_join "run/1" ["meta.json"] = "run/1/meta.json".
Proof. reflexivity. Qed.

Example path_join_optimizer :
  path_join "run/1/" ["optimizer"; "optimizer.pt"] = "run/1/optimizer/optimizer.pt".
Proof. reflexivity. Qed.

(** * Proofs *)

(** ** Running a call step by step *)

Section Run.
Context `{Externals}.

Lemma bind_run {A B} (m : Py A) (k : A -> Py B) (w : World) :
  mbind k m w =
  match m w with
  | (Ok a, w') => k a w'
  | (Raise e, w') => (Raise e, w')
  end.
Proof. reflexivity. Qed.

Lemma ret_run {A} (a : A) (w : World) : ret a w = (Ok a, w).
Proof. reflexivity. Qed.

Lemma try_except_run {A} (body : Py A) (w : World) :
  try_except body w =
  match body w with
  | (Ok a, w') => (Ok (Some a), w')
  | (Raise _, w') => (Ok None, w')
  end.
Proof. reflexivity. Qed.

(** A [try ... except: return None] never raises. *)
Lemma try_except_ok {A} (body : Py A) (w : World) :
  exists o, fst (try_except body w) = Ok o.
Proof.
  rewrite try_except_run. destruct (body w) as [[a|e] w']; eauto.
Qed.

Lemma raise_run {A} (e : exn) (w : World) : raise (A:=A) e w = (Raise e, w).
Proof. reflexivity. Qed.

Lemma lift_run {A} (r : Result A) (w : World) : lift r w = (r, w).
Proof. reflexivity. Qed.

Lemma log_run (ev : Event) (w : World) : log ev w = (Ok tt, add_trace w [ev]).
Proof. reflexivity. Qed.

Lemma add_trace_add_trace (w : World) (a b : list Event) :
  add_trace (add_trace w a) b = add_trace w (a ++ b).
Proof. unfold add_trace. cbn. by rewrite app_assoc. Qed.

Lemma add_trace_with_generator (w : World) d g (a : list Event) :
  add_trace (with_generator w d g) a = with_generator (add_trace w a) d g.
Proof. reflexivity. Qed.

(** *** Events of a call, whatever its outcome *)

Lemma events_since_app (w w' : World) (evs : list Event) :
  trace w' = trace w ++ evs -> events_since w w' = evs.
Proof. intros E. unfold events_since. rewrite E. apply drop_app_length. Qed.

Lemma emits_ret {A} P (a : A) : emits P (ret a).
Proof.
  intros w r w' E. injection E as <- <-. exists []. by rewrite app_nil_r.
Qed.

Lemma emits_raise {A} P (e : exn) : emits P (raise (A:=A) e).
Proof.
  intros w r w' E. injection E as <- <-. exists []. by rewrite app_nil_r.
Qed.

Lemma emits_lift {A} P (x : Result A) : emits P (lift x).
Proof.
  intros w r w' E. injection E as <- <-. exists []. by rewrite app_nil_r.
Qed.

Lemma emits_log (P : Event -> Prop) ev : P ev -> emits P (log ev).
Proof.
  intros HP w r w' E. injection E as <- <-. exists [ev]. split; [done|].
  by constructor.
Qed.

Lemma emits_bind {A B} P (m : Py A) (k : A -> Py B) :
  emits P m -> (forall a, emits P (k a)) -> emits P (mbind k m).
Proof.
  intros Hm Hk w r w' E. rewrite bind_run in E.
  destruct (m w) as [[a|e] w1] eqn:Em.
  - destruct (Hm _ _ _ Em) as (evs1 & T1 & F1).
    destruct (Hk a _ _ _ E) as (evs2 & T2 & F2).
    exists (evs1 ++ evs2). split.
    + by rewrite T2, T1, app_assoc.
    + by apply Forall_app.
  - injection E as <- <-. exact (Hm _ _ _ Em).
Qed.

Lemma emits_read_env {A} (P : Event -> Prop) ev (f : Env -> Result A) :
  P ev -> emits P (read_env ev f).
Proof.
  intros HP w r w' E. injection E as <- <-. exists [ev]. split; [done|].
  by constructor.
Qed.

Lemma emits_write_env (P : Event -> Prop) ev (f : Env -> Result Env) :
  P ev -> emits P (write_env ev f).
Proof.
  intros HP w r w' E. unfold write_env in E.
  exists [ev]. split; [|by constructor].
  destruct (f (env w)); by injection E as <- <-.
Qed.

Lemma emits_read_train_progress P addr : emits P (read_train_progress addr).
Proof.
  intros w r w' E. unfold read_train_progress in E.
  exists []. rewrite app_nil_r. split; [|constructor].
  destruct (heap w !! addr); by injection E as <- <-.
Qed.

Lemma read_env_run {A} ev (f : Env -> Result A) (w : World) :
  read_env ev f w = (f (env w), add_trace w [ev]).
Proof. reflexivity. Qed.

End Run.

(** ** [predict] *)

Section RunModel.
Context `{Externals} `{Capabilities}.

Lemma batch_get_run (batch : gmap string Tensor) (key : string) (w : World) :
  batch_get batch key w =
  (match batch !! key with Some x => Ok x | None => Raise (KeyError key) end,
   add_trace w [EvBatchRead key]).
Proof.
  unfold batch_get. rewrite bind_run, log_run.
  destruct (batch !! key); reflexivity.
Qed.

Lemma self_global_step_run (self : StableDiffusionModel) (w : World) :
  self_global_step self w =
  (match heap w !! train_progress self with
   | Some tp => Ok (global_step tp)
   | None => Raise AttributeError
   end, w).
Proof.
  unfold self_global_step, read_train_progress. rewrite bind_run.
  destruct (heap w !! train_progress self); reflexivity.
Qed.

Lemma torch_randn_run sh g d t (w : World) :
  torch_randn sh g d t w = (randn sh g d t, add_trace w [EvRandn sh]).
Proof. reflexivity. Qed.

Lemma torch_randint_run low high n d (w : World) :
  torch_randint low high n d w =
  if high <=? low
  then (Raise (RuntimeError "random_ expects 'from' to be less than 'to'"),
        add_trace w [EvRandint low high])
  else (Ok (fst (draw_ints n low (high - low) (default_generator w d))),
        with_generator (add_trace w [EvRandint low high]) d
          (snd (draw_ints n low (high - low) (default_generator w d)))).
Proof.
  unfold torch_randint. rewrite bind_run, log_run.
  destruct (high <=? low); reflexivity.
Qed.


Lemma emits_torch_randint (P : Event -> Prop) low high n d :
  P (EvRandint low high) -> emits P (torch_randint low high n d).
Proof.
  intros HP w r w' E. rewrite torch_randint_run in E.
  exists [EvRandint low high]. split; [|by constructor].
  destruct (high <=? low); by injection E as <- <-.
Qed.

End RunModel.

Ltac run_norm H :=
  repeat first
    [ rewrite bind_run in H
    | rewrite log_run in H
    | rewrite lift_run in H
    | rewrite ret_run in H
    | rewrite raise_run in H
    | rewrite batch_get_run in H
    | rewrite self_global_step_run in H
    | rewrite torch_randn_run in H
    | rewrite torch_randint_run in H
    | progress cbv beta iota zeta in H
    | progress cbn [fst snd] in H ].

Ltac run_case H :=
  match type of H with
  | context [match ?x with _ => _ end] =>
      lazymatch x with
      | context [match _ with _ => _ end] => fail
      | _ => destruct x eqn:?
      end
  end.

Ltac run_ok H :=
  run_norm H;
  repeat (run_case H; run_norm H; try discriminate H).


Ltac emits_step :=
  first
    [ apply emits_ret
    | apply emits_raise
    | apply emits_lift
    | apply emits_read_train_progress
    | apply emits_log
    | apply emits_read_env
    | apply emits_write_env
    | apply emits_torch_randint
    | apply emits_bind; [|intros ?]
    | progress cbv zeta
    | match goal with
      | |- emits _ (match ?c with _ => _ end) => destruct c eqn:?
      end ].

Section PredictProofs.
Context `{Externals} `{Capabilities}.

Lemma draw_latent_noise_ok sh g args w noise w' :
  draw_latent_noise sh g args w = (Ok noise, w') ->
  w' = add_trace w (noise_events sh args) /\
  if float_gt_zero (TrainArgs.offset_noise_weight args)
  then exists normal g1 b c offset g2,
      randn sh g (TrainArgs.train_device args) (TrainArgs.train_dtype args)
        = Ok (normal, g1) /\
      sh !! 0%nat = Some b /\ sh !! 1%nat = Some c /\
      randn [b; c; 1%nat; 1%nat] g1
        (TrainArgs.train_device args) (TrainArgs.train_dtype args)
        = Ok (offset, g2) /\
      t_add normal (mul_scalar offset (TrainArgs.offset_noise_weight args))
        = Ok noise
  else exists g1,
      randn sh g (TrainArgs.train_device args) (TrainArgs.train_dtype args)
        = Ok (noise, g1).
Proof.
  intros Hrun. unfold draw_latent_noise, noise_events, shape_get in *.
  run_ok Hrun; injection Hrun as Hn <-.
  - split; [by rewrite add_trace_add_trace|].
    destruct a as [normal g1], a0 as [offset g2]. by exists normal, g1, n, n0, offset, g2.
  - split; [done|]. destruct a as [x g1]. cbn in Hn. subst. by exists g1.
Qed.

(** The noise of a call does not depend on the world. *)
Lemma draw_latent_noise_world sh g args (w1 w2 : World) :
  fst (draw_latent_noise sh g args w1) = fst (draw_latent_noise sh g args w2).
Proof.
  unfold draw_latent_noise, shape_get.
  repeat first
    [ rewrite bind_run | rewrite torch_randn_run | rewrite lift_run
    | rewrite ret_run | progress cbv beta iota zeta | progress cbn [fst snd]
    | match goal with
      | |- context [match ?x with _ => _ end] =>
          lazymatch x with
          | context [match _ with _ => _ end] => fail
          | _ => destruct x eqn:?
          end
      end ]; reflexivity.
Qed.

Lemma sample_timestep_ok self x args w ts w' :
  sample_timestep self x args w = (Ok ts, w') ->
  exists product high n,
    int_mul_float (num_train_timesteps (noise_scheduler self))
      (TrainArgs.max_noising_strength args) = Ok product /\
    py_int product = Ok high /\
    0 < high /\
    shape x !! 0%nat = Some n /\
    ts = fst (draw_ints n 0 high (default_generator w (device_of x))) /\
    w' = with_generator (add_trace w [EvRandint 0 high]) (device_of x)
           (snd (draw_ints n 0 high (default_generator w (device_of x)))).
Proof.
  intros Hrun. unfold sample_timestep, shape_get in *.
  run_ok Hrun. injection Hrun as <- <-.
  apply Z.leb_gt in Heqb. rewrite Z.sub_0_r.
  by exists a, a0, n.
Qed.


Lemma draw_latent_noise_any sh g args w noise w' :
  draw_latent_noise sh g args w = (Ok noise, w') ->
  forall w0 : World,
    draw_latent_noise sh g args w0
    = (Ok noise, add_trace w0 (noise_events sh args)).
Proof.
  intros Hd w0.
  pose proof (draw_latent_noise_world sh g args w0 w) as Hw.
  rewrite Hd in Hw. cbn [fst] in Hw.
  destruct (draw_latent_noise sh g args w0) as [r' w0'] eqn:Hd'.
  cbn [fst] in Hw. subst r'.
  by pose proof (draw_latent_noise_ok _ _ _ _ _ _ Hd') as [-> _].
Qed.

Lemma forward_ok self batch args w fw w' :
  forward self batch args w = (Ok fw, w') ->
  exists latent tp seed g0 g product high n,
    let x := mul_scalar latent (scaling_factor (vae self)) in
    let rng := default_generator w (device_of x) in
    batch !! "latent_image" = Some latent /\
    fw_latent_image fw = latent /\
    heap w !! train_progress self = Some tp /\
    global_step tp = PyInt seed /\
    new_generator (TrainArgs.train_device args) = Ok g0 /\
    manual_seed g0 seed = Ok g /\
    (forall w0 : World,
       draw_latent_noise (shape x) g args w0
       = (Ok (fw_latent_noise fw), add_trace w0 (noise_events (shape x) args))) /\
    int_mul_float (num_train_timesteps (noise_scheduler self))
      (TrainArgs.max_noising_strength args) = Ok product /\
    py_int product = Ok high /\
    0 < high /\
    shape x !! 0%nat = Some n /\
    fw_timestep fw = fst (draw_ints n 0 high rng) /\
    Forall (fun k => is_Some (batch !! k))
      (required_fields (TrainArgs.model_type args)) /\
    w' = with_generator (add_trace w (forward_events args (shape x) high))
           (device_of x) (snd (draw_ints n 0 high rng)).
Proof.
  intros Hrun. unfold forward, as_int in Hrun.
  run_ok Hrun;
    injection Hrun as <- <-;
    match goal with
    | Hd : draw_latent_noise _ _ _ _ = _, Hs : sample_timestep _ _ _ _ = _ |- _ =>
        pose proof (draw_latent_noise_ok _ _ _ _ _ _ Hd) as [-> _];
        apply sample_timestep_ok in Hs
          as (product & high & k & Hprod & Hint & Hpos & Hk & -> & ->)
    end;
    cbn [heap default_generator add_trace] in *;
    match goal with
    | Hl : batch !! "latent_image" = Some ?lat,
      Hh : heap w !! _ = Some ?tp,
      Hs : global_step ?tp = PyInt ?seed,
      Hg0 : new_generator _ = Ok ?g0,
      Hg : manual_seed ?g0 ?seed = Ok ?g,
      Hd : draw_latent_noise _ ?g _ _ = _ |- _ =>
        exists lat, tp, seed, g0, g, product, high, k; cbn zeta;
        (split; [done|]); (split; [done|]); (split; [done|]);
        (split; [done|]); (split; [done|]); (split; [done|]);
        (split; [by apply (draw_latent_noise_any _ _ _ _ _ _ Hd)|])
    end;
    (split; [done|]); (split; [done|]); (split; [done|]); (split; [done|]);
    (split; [done|]);
    repeat match goal with
           | Hb : _ = true |- _ => rewrite andb_true_r in Hb
           | Hb : _ = false |- _ => rewrite andb_false_r in Hb
           end;
    (split;
     [ unfold required_fields;
       repeat match goal with
              | Hb : ?c = _ |- context [?c] => rewrite Hb
              end;
       rewrite ?andb_true_r, ?andb_false_r;
       repeat match goal with
              | Hb : ?c = _ |- context [?c] => rewrite Hb
              end;
       cbn [app]; repeat constructor; eauto
     | ]);
    unfold forward_events;
    repeat match goal with
           | Hb : ?c = _ |- context [?c] => rewrite Hb
           end;
    rewrite ?andb_true_r, ?andb_false_r;
    repeat match goal with
           | Hb : ?c = _ |- context [?c] => rewrite Hb
           end;
    rewrite ?add_trace_with_generator, ?add_trace_add_trace;
    cbn [app]; rewrite <- ?app_assoc; reflexivity.
Qed.


Lemma debug_images_emits self args latent cond noise predicted noisy ts :
  emits (fun ev => is_debug_event ev = true)
    (debug_images self args latent cond noise predicted noisy ts).
Proof.
  unfold debug_images, __save_image, decode, self_global_step.
  repeat emits_step; reflexivity.
Qed.

Lemma predict_run self batch args (w : World) :
  predict self batch args w =
  match forward self batch args w with
  | (Ok fw, w1) =>
      if TrainArgs.debug_mode args
      then
        match debug_images self args (fw_latent_image fw)
                (fw_latent_conditioning_image fw) (fw_latent_noise fw)
                (fw_predicted_latent_noise fw)
                (fw_scaled_noisy_latent_image fw) (fw_timestep fw) w1 with
        | (Ok _, w2) =>
            (Ok (fw_predicted_latent_noise fw, fw_latent_noise fw), w2)
        | (Raise e, w2) => (Raise e, w2)
        end
      else (Ok (fw_predicted_latent_noise fw, fw_latent_noise fw), w1)
  | (Raise e, w1) => (Raise e, w1)
  end.
Proof.
  unfold predict. rewrite bind_run.
  destruct (forward self batch args w) as [[fw|e] w1]; [|reflexivity].
  rewrite bind_run.
  destruct (TrainArgs.debug_mode args); [|reflexivity].
  by destruct (debug_images _ _ _ _ _ _ _ _ w1) as [[[]|e] w2].
Qed.

Lemma predict_ok self batch args w r w' :
  predict self batch args w = (Ok r, w') ->
  exists fw w1 evs,
    forward self batch args w = (Ok fw, w1) /\
    r = (fw_predicted_latent_noise fw, fw_latent_noise fw) /\
    trace w' = trace w1 ++ evs /\
    Forall (fun ev => is_debug_event ev = true) evs.
Proof.
  rewrite predict_run. intros E.
  destruct (forward self batch args w) as [[fw|e] w1]; [|discriminate].
  exists fw, w1.
  destruct (TrainArgs.debug_mode args).
  - destruct (debug_images _ _ _ _ _ _ _ _ w1) as [[u|e] w2] eqn:Ed;
      [|discriminate].
    injection E as <- <-.
    destruct (debug_images_emits _ _ _ _ _ _ _ _ _ _ _ Ed) as (evs & T & F).
    by exists evs.
  - injection E as <- <-. exists []. by rewrite app_nil_r.
Qed.


Lemma debug_events_randn evs :
  Forall (fun ev => is_debug_event ev = true) evs -> randn_shapes evs = [].
Proof.
  induction 1 as [|ev evs Hev _ IH]; [done|].
  unfold randn_shapes in *. cbn. rewrite IH. by destruct ev.
Qed.

Lemma debug_events_batch_reads evs :
  Forall (fun ev => is_debug_event ev = true) evs -> batch_reads evs = [].
Proof.
  induction 1 as [|ev evs Hev _ IH]; [done|].
  unfold batch_reads in *. cbn. rewrite IH. by destruct ev.
Qed.

Lemma randn_shapes_app a b :
  randn_shapes (a ++ b) = randn_shapes a ++ randn_shapes b.
Proof. apply omap_app. Qed.

Lemma batch_reads_app a b :
  batch_reads (a ++ b) = batch_reads a ++ batch_reads b.
Proof. apply omap_app. Qed.

Lemma forward_events_randn args sh high :
  randn_shapes (forward_events args sh high)
  = randn_shapes (noise_events sh args).
Proof.
  unfold forward_events. cbv zeta.
  rewrite !randn_shapes_app.
  destruct (has_conditioning_image_input _), (has_mask_input _),
    (has_depth_input _); cbn; by rewrite app_nil_r.
Qed.

Lemma forward_events_batch_reads args sh high :
  batch_reads (forward_events args sh high)
  = required_fields (TrainArgs.model_type args).
Proof.
  unfold forward_events, required_fields, noise_events. cbv zeta.
  rewrite !batch_reads_app.
  destruct (has_conditioning_image_input _), (has_mask_input _),
    (has_depth_input _), (float_gt_zero _); reflexivity.
Qed.

(** What a [predict] that returns has done. *)
Lemma predict_ok_inv self batch args w r w' :
  predict self batch args w = (Ok r, w') ->
  exists fw latent tp seed g0 g product high n evs,
    let x := mul_scalar latent (scaling_factor (vae self)) in
    let rng := default_generator w (device_of x) in
    r = (fw_predicted_latent_noise fw, fw_latent_noise fw) /\
    batch !! "latent_image" = Some latent /\
    heap w !! train_progress self = Some tp /\
    global_step tp = PyInt seed /\
    new_generator (TrainArgs.train_device args) = Ok g0 /\
    manual_seed g0 seed = Ok g /\
    (forall w0 : World,
       draw_latent_noise (shape x) g args w0
       = (Ok (fw_latent_noise fw), add_trace w0 (noise_events (shape x) args))) /\
    int_mul_float (num_train_timesteps (noise_scheduler self))
      (TrainArgs.max_noising_strength args) = Ok product /\
    py_int product = Ok high /\
    0 < high /\
    shape x !! 0%nat = Some n /\
    fw_timestep fw = fst (draw_ints n 0 high rng) /\
    Forall (fun k => is_Some (batch !! k))
      (required_fields (TrainArgs.model_type args)) /\
    events_since w w' = forward_events args (shape x) high ++ evs /\
    Forall (fun ev => is_debug_event ev = true) evs.
Proof.
  intros E.
  destruct (predict_ok _ _ _ _ _ _ E) as (fw & w1 & evs & Ef & -> & T & F).
  destruct (forward_ok _ _ _ _ _ _ Ef)
    as (latent & tp & seed & g0 & g & product & high & n & Hf).
  cbv zeta in Hf.
  destruct Hf as (? & ? & ? & ? & ? & ? & ? & ? & ? & ? & ? & ? & ? & ->).
  exists fw, latent, tp, seed, g0, g, product, high, n, evs. cbv zeta.
  repeat (split; [done|]). split; [|done].
  apply events_since_app. rewrite T.
  cbn [trace with_generator add_trace]. symmetry. apply app_assoc.
Qed.

(** C4.  The noise a returning [predict] hands back.  The generator is
    created on the training device and seeded with the global step.  When
    the offset-noise weight is greater than zero, the noise is a
    full-resolution [randn] tensor plus the weight times a [randn] tensor
    of shape [(b, c, 1, 1)], the second drawn from the generator as the
    first left it, and these are the only two [randn] calls.  Otherwise
    (in particular for a weight of zero) the noise is a single
    full-resolution [randn] tensor and no other [randn] call is made: the
    offset tensor is never allocated.  For a latent of rank 4, and with
    torch's shape rules, the noise has the shape of the scaled latent
    image in both branches. *)
Theorem predict_actual_noise self batch args w predicted noise w' :
  predict self batch args w = (Ok (predicted, noise), w') ->
  exists latent tp seed g0 g,
    let sh := shape (mul_scalar latent (scaling_factor (vae self))) in
    let d := TrainArgs.train_device args in
    let t := TrainArgs.train_dtype args in
    let weight := TrainArgs.offset_noise_weight args in
    batch !! "latent_image" = Some latent /\
    heap w !! train_progress self = Some tp /\
    global_step tp = PyInt seed /\
    new_generator d = Ok g0 /\
    manual_seed g0 seed = Ok g /\
    (float_gt_zero weight = true ->
     exists normal g1 b c offset g2,
       randn sh g d t = Ok (normal, g1) /\
       sh !! 0%nat = Some b /\ sh !! 1%nat = Some c /\
       randn [b; c; 1%nat; 1%nat] g1 d t = Ok (offset, g2) /\
       t_add normal (mul_scalar offset weight) = Ok noise /\
       randn_shapes (events_since w w') = [sh; [b; c; 1%nat; 1%nat]]) /\
    (float_gt_zero weight = false ->
     exists g1,
       randn sh g d t = Ok (noise, g1) /\
       randn_shapes (events_since w w') = [sh]) /\
    (ShapeLaws -> length sh = 4%nat -> shape noise = sh).
Proof.
  intros E.
  destruct (predict_ok_inv _ _ _ _ _ _ E)
    as (fw & latent & tp & seed & g0 & g & product & high & n & evs & Hf).
  cbv zeta in Hf.
  destruct Hf as (Hr & Hl & Hh & Hs & Hg0 & Hg & Hd & _ & _ & _ & _ & _ & _
                  & Hev & Hdbg).
  injection Hr as -> ->.
  exists latent, tp, seed, g0, g. cbv zeta.
  repeat (split; [done|]).
  set (sh := shape (mul_scalar latent (scaling_factor (vae self)))) in *.
  assert (Hshapes : randn_shapes (events_since w w')
                    = randn_shapes (noise_events sh args)).
  { rewrite Hev, randn_shapes_app, forward_events_randn,
      (debug_events_randn _ Hdbg). apply app_nil_r. }
  pose proof (Hd w) as Hw. apply draw_latent_noise_ok in Hw as [_ Hw].
  unfold noise_events in Hshapes.
  destruct (float_gt_zero (TrainArgs.offset_noise_weight args)) eqn:Hgt.
  - destruct Hw as (normal & g1 & b & c & offset & g2 & R1 & B & C & R2 & A).
    split; [|split; [done|]].
    + intros _. exists normal, g1, b, c, offset, g2.
      repeat (split; [done|]). rewrite Hshapes, B, C. reflexivity.
    + intros Laws Hlen.
      pose proof (randn_shape Laws _ _ _ _ _ _ R1) as S1.
      pose proof (randn_shape Laws _ _ _ _ _ _ R2) as S2.
      pose proof (t_add_shape Laws _ _ _ A) as S3.
      rewrite (mul_scalar_shape Laws), S1, S2 in S3.
      destruct sh as [|b' [|c' [|h [|x [|]]]]]; try discriminate Hlen.
      injection B as ->. injection C as ->.
      revert S3. unfold broadcast_shapes. cbn.
      rewrite !Nat.eqb_refl. cbn.
      destruct (h =? 1)%nat eqn:Eh, (x =? 1)%nat eqn:Ex; cbn;
        try apply Nat.eqb_eq in Eh; try apply Nat.eqb_eq in Ex; subst;
        intros [= <-]; reflexivity.
  - destruct Hw as (g1 & R1).
    split; [done|]. split.
    + intros _. by exists g1.
    + intros Laws _. exact (randn_shape Laws _ _ _ _ _ _ R1).
Qed.

(** C5.  Two calls of [predict] on the same bundle, batch and
    configuration, in two worlds that agree on the global step of the
    bundle's training progress (and may differ in everything else: files,
    default generators, trace), return the same actual noise when both
    return. *)
Theorem predict_noise_deterministic self batch args w1 w2 r1 r2 w1' w2' :
  global_step <$> heap w1 !! train_progress self
    = global_step <$> heap w2 !! train_progress self ->
  predict self batch args w1 = (Ok r1, w1') ->
  predict self batch args w2 = (Ok r2, w2') ->
  snd r1 = snd r2.
Proof.
  intros Hstep E1 E2.
  destruct (predict_ok_inv _ _ _ _ _ _ E1)
    as (fw1 & l1 & tp1 & s1 & a1 & b1 & ? & ? & ? & ? & Hf1).
  destruct (predict_ok_inv _ _ _ _ _ _ E2)
    as (fw2 & l2 & tp2 & s2 & a2 & b2 & ? & ? & ? & ? & Hf2).
  cbv zeta in Hf1, Hf2.
  destruct Hf1 as (-> & L1 & T1 & S1 & G1 & M1 & D1 & _).
  destruct Hf2 as (-> & L2 & T2 & S2 & G2 & M2 & D2 & _).
  cbn [snd].
  rewrite T1, T2 in Hstep. cbn in Hstep. injection Hstep as Hstep.
  rewrite S1, S2 in Hstep. injection Hstep as <-.
  rewrite L1 in L2. injection L2 as <-.
  rewrite G1 in G2. injection G2 as <-.
  rewrite M1 in M2. injection M2 as <-.
  pose proof (D1 w1) as X1. pose proof (D2 w1) as X2.
  rewrite X1 in X2. by injection X2.
Qed.

Lemma batch_get_delete_ne (batch : gmap string Tensor) (k key : string) :
  k <> key -> batch_get (delete k batch) key = batch_get batch key.
Proof. intros Hne. unfold batch_get. by rewrite lookup_delete_ne. Qed.

Lemma emits_weaken {A} (P Q : Event -> Prop) (m : Py A) :
  (forall ev, P ev -> Q ev) -> emits P m -> emits Q m.
Proof.
  intros HPQ Hm w r w' E. destruct (Hm _ _ _ E) as (evs & T & F).
  exists evs. split; [done|]. eapply Forall_impl; eauto.
Qed.

Lemma forward_emits_reads self batch args :
  emits (read_allowed (TrainArgs.model_type args)) (forward self batch args).
Proof.
  unfold forward, draw_latent_noise, sample_timestep, batch_get,
    self_global_step, torch_randn.
  repeat emits_step; try exact I;
    repeat match goal with
           | Hb : _ = true |- _ => rewrite andb_true_r in Hb
           | Hb : _ = false |- _ => rewrite andb_false_r in Hb
           end;
    unfold read_allowed, required_fields;
    repeat match goal with
           | Hb : ?c = _ |- context [?c] => rewrite Hb
           end;
    rewrite ?andb_true_r, ?andb_false_r;
    repeat match goal with
           | Hb : ?c = _ |- context [?c] => rewrite Hb
           end;
    set_solver.
Qed.


Lemma predict_emits_reads self batch args :
  emits (read_allowed (TrainArgs.model_type args)) (predict self batch args).
Proof.
  unfold predict.
  apply emits_bind; [apply forward_emits_reads|intros fw].
  apply emits_bind; [|intros ?; apply emits_ret].
  destruct (TrainArgs.debug_mode args); [|apply emits_ret].
  eapply emits_weaken; [|apply debug_images_emits].
  by intros [].
Qed.

Lemma batch_reads_allowed mt evs :
  Forall (read_allowed mt) evs ->
  forall k, k ∈ batch_reads evs -> k ∈ required_fields mt.
Proof.
  intros F k. unfold batch_reads. rewrite list_elem_of_omap.
  intros (ev & Hin & Hk). rewrite Forall_forall in F.
  specialize (F ev Hin). destruct ev; try discriminate.
  by injection Hk as <-.
Qed.

Lemma predict_delete_unused self batch args k :
  k ∉ required_fields (TrainArgs.model_type args) ->
  predict self (delete k batch) args = predict self batch args.
Proof.
  unfold required_fields. intros Hk.
  unfold predict, forward.
  rewrite (batch_get_delete_ne batch k "latent_image") by set_solver.
  rewrite (batch_get_delete_ne batch k "tokens") by set_solver.
  destruct (has_conditioning_image_input _) eqn:Ec;
    destruct (has_mask_input _) eqn:Em;
    destruct (has_depth_input _) eqn:Ed; cbn [andb] in *;
    rewrite ?(batch_get_delete_ne batch k "latent_conditioning_image")
      by set_solver;
    rewrite ?(batch_get_delete_ne batch k "latent_mask") by set_solver;
    rewrite ?(batch_get_delete_ne batch k "latent_depth") by set_solver;
    reflexivity.
Qed.

(** C7.  With the required fields of a model type being [latent_image]
    and [tokens], [latent_conditioning_image] when it has a conditioning
    image input, [latent_mask] when it has a mask input together with a
    conditioning image input, and [latent_depth] when it has a depth
    input: whatever its outcome, [predict] reads no other batch field; when
    it returns, it has read exactly these fields, in this order; removing
    any other field from the batch changes neither the outcome nor the
    world [predict] leaves; removing a required field makes [predict]
    raise. *)
Theorem predict_reads_required_fields self batch args w :
  let mt := TrainArgs.model_type args in
  (forall r w', predict self batch args w = (r, w') ->
     forall k, k ∈ batch_reads (events_since w w') -> k ∈ required_fields mt) /\
  (forall r w', predict self batch args w = (Ok r, w') ->
     batch_reads (events_since w w') = required_fields mt) /\
  (forall k, k ∉ required_fields mt ->
     predict self (delete k batch) args w = predict self batch args w) /\
  (forall k, k ∈ required_fields mt ->
     raises (fst (predict self (delete k batch) args w))).
Proof.
  cbv zeta. repeat split.
  - intros r w' E.
    destruct (predict_emits_reads _ _ _ _ _ _ E) as (evs & T & F).
    rewrite (events_since_app _ _ _ T). by apply batch_reads_allowed.
  - intros r w' E.
    destruct (predict_ok_inv _ _ _ _ _ _ E)
      as (fw & l & tp & s & a & b & p & h & n & evs & Hf).
    cbv zeta in Hf.
    destruct Hf as (_ & _ & _ & _ & _ & _ & _ & _ & _ & _ & _ & _ & _ & -> & F).
    by rewrite batch_reads_app, forward_events_batch_reads,
      (debug_events_batch_reads _ F), app_nil_r.
  - intros k Hk. by rewrite predict_delete_unused.
  - intros k Hk.
    destruct (predict self (delete k batch) args w) as [[r|e] w'] eqn:E;
      [|exact I].
    destruct (predict_ok_inv _ _ _ _ _ _ E)
      as (fw & l & tp & s & a & b & p & h & n & evs & Hf).
    cbv zeta in Hf.
    destruct Hf as (_ & _ & _ & _ & _ & _ & _ & _ & _ & _ & _ & _ & F & _).
    rewrite Forall_forall in F. destruct (F k Hk) as [x Hx].
    by rewrite lookup_delete_eq in Hx.
Qed.


(** *** [int(x)] and the floor *)

Lemma py_int_below_one (p : float) :
  float_is_finite p = true -> (float_value p < 1)%Q ->
  exists high, py_int p = Ok high /\ high <= 0.
Proof.
  destruct p as [s| | |s m e]; try discriminate; intros _ Hlt.
  - exists 0. by split.
  - cbn [py_int]. eexists. split; [reflexivity|].
    pose proof (Z.shiftl_nonneg (Z.pos m) e) as Hnn.
    destruct s; [lia|].
    cbn [float_value] in Hlt.
    destruct (0 <=? e) eqn:He.
    + apply Z.leb_le in He. unfold Qlt in Hlt. cbn in Hlt.
      assert (0 < 2 ^ e) by (apply Z.pow_pos_nonneg; lia). nia.
    + apply Z.leb_gt in He. unfold Qlt in Hlt. cbn [Qnum Qden] in Hlt.
      assert (Hp : 0 < 2 ^ (- e)) by (apply Z.pow_pos_nonneg; lia).
      rewrite Z2Pos.id in Hlt by done.
      rewrite Z.shiftl_div_pow2 by lia.
      rewrite Z.div_small by lia. lia.
Qed.

Lemma py_int_floor (p : float) (high : Z) :
  py_int p = Ok high -> 0 < high -> high = Qfloor (float_value p).
Proof.
  destruct p as [s| | |s m e]; try discriminate; intros [= <-] Hpos; [lia|].
  pose proof (Z.shiftl_nonneg (Z.pos m) e) as Hnn.
  destruct s; [lia|]. cbn [float_value].
  destruct (0 <=? e) eqn:He.
  - apply Z.leb_le in He. rewrite Qfloor_Z. by apply Z.shiftl_mul_pow2.
  - apply Z.leb_gt in He. unfold Qfloor.
    assert (Hp : 0 < 2 ^ (- e)) by (apply Z.pow_pos_nonneg; lia).
    rewrite Z2Pos.id by done. apply Z.shiftl_div_pow2. lia.
Qed.

Lemma draw_ints_length n low range (g : Rng) :
  length (fst (draw_ints n low range g)) = n.
Proof.
  revert g. induction n as [|n IH]; intros g; [done|].
  cbn [draw_ints]. destruct (random_bits g) as [r g1].
  specialize (IH g1). destruct (draw_ints n low range g1) as [rest g2].
  cbn in *. by rewrite IH.
Qed.

Lemma draw_ints_range n low range (g : Rng) :
  0 < range ->
  Forall (fun t => low <= t < low + range) (fst (draw_ints n low range g)).
Proof.
  intros Hr. revert g. induction n as [|n IH]; intros g; [by constructor|].
  cbn [draw_ints]. destruct (random_bits g) as [r g1].
  specialize (IH g1). destruct (draw_ints n low range g1) as [rest g2].
  cbn in *. constructor; [|done].
  pose proof (Z.mod_pos_bound r range Hr). lia.
Qed.

(** *** Calls that fail *)

Lemma fails_bind_l {A B} P (m : Py A) (k : A -> Py B) :
  fails_with P m -> fails_with P (mbind k m).
Proof.
  intros Hm w. destruct (Hm w) as (e & w' & evs & E & T & F).
  exists e, w', evs. by rewrite bind_run, E.
Qed.

Lemma fails_bind_r {A B} P (m : Py A) (k : A -> Py B) :
  emits P m -> (forall a, fails_with P (k a)) -> fails_with P (mbind k m).
Proof.
  intros Hm Hk w. rewrite bind_run.
  destruct (m w) as [[a|e] w1] eqn:Em;
    destruct (Hm _ _ _ Em) as (evs1 & T1 & F1).
  - destruct (Hk a w1) as (e & w' & evs2 & E & T2 & F2).
    exists e, w', (evs1 ++ evs2). split; [done|]. split.
    + by rewrite T2, T1, app_assoc.
    + by apply Forall_app.
  - by exists e, w1, evs1.
Qed.

Lemma sample_timestep_fails (P : Event -> Prop) self x args :
  (forall low high, P (EvRandint low high)) ->
  (forall product high,
     int_mul_float (num_train_timesteps (noise_scheduler self))
       (TrainArgs.max_noising_strength args) = Ok product ->
     py_int product = Ok high -> high <= 0) ->
  fails_with P (sample_timestep self x args).
Proof.
  intros HP Hhigh w. unfold sample_timestep, shape_get.
  destruct (int_mul_float _ _) as [product|e] eqn:Ep.
  2:{ exists e, w, []. rewrite app_nil_r.
      split; [reflexivity|]. split; [reflexivity|constructor]. }
  destruct (py_int product) as [high|e] eqn:Eh.
  2:{ exists e, w, []. rewrite app_nil_r.
      split; [|split; [reflexivity|constructor]].
      rewrite bind_run, lift_run. cbv beta iota.
      by rewrite bind_run, lift_run, Eh. }
  specialize (Hhigh _ _ eq_refl Eh).
  rewrite bind_run, lift_run. cbv beta iota.
  rewrite bind_run, lift_run, Eh. cbv beta iota.
  rewrite bind_run, lift_run.
  destruct (shape x !! 0%nat) as [n|].
  2:{ eexists _, w, []. rewrite app_nil_r.
      split; [reflexivity|]. split; [reflexivity|constructor]. }
  cbv beta iota. rewrite torch_randint_run.
  destruct (high <=? 0) eqn:Hle; [|apply Z.leb_gt in Hle; lia].
  eexists _, _, [EvRandint 0 high].
  split; [reflexivity|]. split; [reflexivity|]. by constructor.
Qed.

Lemma forward_fails self batch args :
  (forall product high,
     int_mul_float (num_train_timesteps (noise_scheduler self))
       (TrainArgs.max_noising_strength args) = Ok product ->
     py_int product = Ok high -> high <= 0) ->
  fails_with (fun ev => is_unet ev = false) (forward self batch args).
Proof.
  intros Hhigh.
  unfold forward, draw_latent_noise, batch_get, self_global_step, torch_randn.
  repeat first
    [ apply fails_bind_l; apply sample_timestep_fails; [done|exact Hhigh]
    | apply fails_bind_r; [solve [repeat emits_step; reflexivity]|intros ?]
    | progress cbv zeta ].
Qed.

(** C10.  With a [max_noising_strength] in (0, 1] and a product
    [num_train_timesteps * max_noising_strength] below 1, the bound
    [int(product)] of the timestep draw is not positive, so the range of
    the draw is empty; [predict] raises, and no event of the call is a call
    of the denoiser. *)
Theorem predict_empty_timestep_range self batch args w product :
  let T := num_train_timesteps (noise_scheduler self) in
  let strength := TrainArgs.max_noising_strength args in
  float_is_finite strength = true ->
  (0 < float_value strength)%Q -> (float_value strength <= 1)%Q ->
  int_mul_float T strength = Ok product ->
  float_is_finite product = true ->
  (float_value product < 1)%Q ->
  (exists high, py_int product = Ok high /\ high <= 0) /\
  exists e w',
    predict self batch args w = (Raise e, w') /\
    Forall (fun ev => is_unet ev = false) (events_since w w').
Proof.
  cbv zeta. intros _ _ _ Hprod Hfin Hlt.
  destruct (py_int_below_one product Hfin Hlt) as (high & Hint & Hle).
  split; [by exists high|].
  assert (Hf : fails_with (fun ev => is_unet ev = false)
                 (predict self batch args)).
  { unfold predict. apply fails_bind_l, forward_fails.
    intros product' high' Hp' Hi'. congruence. }
  destruct (Hf w) as (e & w' & evs & E & T & F).
  exists e, w'. split; [done|]. by rewrite (events_since_app _ _ _ T).
Qed.


(** C3 (amended).  When [predict] returns a pair with [debug_mode] off,
    then with [debug_mode] on it runs the same forward pass and then the
    debug block: it returns the same pair if the debug block returns, and
    raises the exception of the debug block if that raises.  So turning
    [debug_mode] on never changes a returned pair, and a failure of the
    debug block is not swallowed. *)
Theorem predict_debug_mode self batch args w r w1 :
  predict self batch (with_debug_mode false args) w = (Ok r, w1) ->
  exists fw,
    forward self batch args w = (Ok fw, w1) /\
    r = (fw_predicted_latent_noise fw, fw_latent_noise fw) /\
    predict self batch (with_debug_mode true args) w =
      match debug_images self args (fw_latent_image fw)
              (fw_latent_conditioning_image fw) (fw_latent_noise fw)
              (fw_predicted_latent_noise fw)
              (fw_scaled_noisy_latent_image fw) (fw_timestep fw) w1 with
      | (Ok _, w2) => (Ok r, w2)
      | (Raise e, w2) => (Raise e, w2)
      end /\
    (forall r' w2,
       predict self batch (with_debug_mode true args) w = (Ok r', w2) ->
       r' = r).
Proof.
  rewrite !predict_run. cbn [with_debug_mode TrainArgs.debug_mode].
  change (forward self batch (with_debug_mode false args))
    with (forward self batch args).
  change (forward self batch (with_debug_mode true args))
    with (forward self batch args).
  destruct (forward self batch args w) as [[fw|e] w1'] eqn:Ef; [|discriminate].
  intros [= <- <-]. exists fw. split; [done|]. split; [done|].
  change (debug_images self (with_debug_mode true args))
    with (debug_images self args).
  split; [done|].
  intros r' w2.
  destruct (debug_images _ _ _ _ _ _ _ _ w1') as [[u|e] w2']; intros E;
    [by injection E as <- _|discriminate].
Qed.

(** X1.  The timesteps of a forward pass that returns: one per element of
    the leading dimension of the scaled latent image, each in
    [0, high) where [high = int(num_train_timesteps * max_noising_strength)]
    is the floor of that product, and all of them drawn from the default
    generator of the latent's device.  The generator seeded with the global
    step takes no part in the draw. *)
Theorem forward_timesteps self batch args w fw w' :
  forward self batch args w = (Ok fw, w') ->
  exists latent product high n,
    let x := mul_scalar latent (scaling_factor (vae self)) in
    batch !! "latent_image" = Some latent /\
    int_mul_float (num_train_timesteps (noise_scheduler self))
      (TrainArgs.max_noising_strength args) = Ok product /\
    py_int product = Ok high /\
    high = Qfloor (float_value product) /\
    shape x !! 0%nat = Some n /\
    length (fw_timestep fw) = n /\
    Forall (fun t => 0 <= t < high) (fw_timestep fw) /\
    fw_timestep fw
      = fst (draw_ints n 0 high (default_generator w (device_of x))).
Proof.
  intros E.
  destruct (forward_ok _ _ _ _ _ _ E)
    as (latent & tp & seed & g0 & g & product & high & n & Hf).
  cbv zeta in Hf.
  destruct Hf as (Hl & _ & _ & _ & _ & _ & _ & Hp & Hi & Hpos & Hn & Ht & _).
  exists latent, product, high, n. cbv zeta.
  repeat (split; [done|]).
  split; [by apply py_int_floor|]. split; [done|].
  rewrite Ht. split; [apply draw_ints_length|]. split; [|done].
  pose proof (draw_ints_range n 0 high
                (default_generator w
                   (device_of (mul_scalar latent (scaling_factor (vae self)))))
                Hpos) as F.
  eapply Forall_impl; [exact F|]. cbn. intros; lia.
Qed.

(** *** [create_pipeline] *)

(** C9.  [create_pipeline] returns a pipeline and leaves the world as it
    was.  The variant follows the capability flags of the bundle's model
    type in priority order: the depth pipeline whenever the type has a depth
    input, whatever its other flags; otherwise the inpainting pipeline when
    it has a conditioning image input; otherwise the text-to-image pipeline.
    Every variant refers to the bundle's own sub-networks and scheduler; the
    depth pipeline gets the bundle's depth estimator and image processor;
    the other two are built with no safety checker, no feature extractor
    and [requires_safety_checker=False]. *)
Theorem create_pipeline_by_capability (self : StableDiffusionModel) (w : World) :
  exists p,
    create_pipeline self w = (Ok p, w) /\
    pipeline_variant p =
      (if has_depth_input (model_type self) then DepthVariant
       else if has_conditioning_image_input (model_type self)
            then InpaintVariant
            else TextToImageVariant) /\
    pipeline_components p =
      (vae self, text_encoder self, tokenizer self, unet self,
       noise_scheduler self) /\
    match p with
    | StableDiffusionDepth2ImgPipeline _ _ _ _ _ estimator extractor =>
        estimator = depth_estimator self /\
        extractor = image_depth_processor self
    | StableDiffusionInpaintPipeline _ _ _ _ _ checker extractor required
    | StableDiffusionPipeline _ _ _ _ _ checker extractor required =>
        checker = None /\ extractor = None /\ required = false
    end.
Proof.
  unfold create_pipeline.
  destruct (has_depth_input (model_type self));
    [|destruct (has_conditioning_image_input (model_type self))];
    eexists; (split; [reflexivity|]); cbn; auto.
Qed.

End PredictProofs.

Ltac run_goal :=
  repeat first
    [ rewrite bind_run
    | rewrite ret_run
    | rewrite lift_run
    | rewrite try_except_run
    | progress unfold read_env, from_pretrained, os_path_exists
    | progress cbv beta iota zeta
    | progress cbn [fst snd env heap trace default_generator add_trace
                    with_env with_generator alloc] ].

Ltac goal_case :=
  match goal with
  | |- context [match ?x with _ => _ end] =>
      lazymatch x with
      | context [match _ with _ => _ end] => fail
      | _ => destruct x eqn:?
      end
  end.


(** ** The loader *)

Section LoaderProofs.
Context `{Externals} `{Capabilities}.

Lemma emits_try_except {A} P (body : Py A) :
  emits P body -> emits P (try_except body).
Proof.
  intros Hb w r w' E. rewrite try_except_run in E.
  destruct (body w) as [[a|e] w1] eqn:Eb;
    injection E as <- <-; exact (Hb _ _ _ Eb).
Qed.

Lemma emits_new_train_progress P tp : emits P (new_train_progress tp).
Proof.
  intros w r w' E. injection E as <- <-. exists []. by rewrite app_nil_r.
Qed.

Lemma load_diffusers_emits P base mt :
  (forall cls b sub, P (EvFromPretrained cls b sub)) ->
  emits P (__load_diffusers_model base mt).
Proof.
  intros HP. apply emits_try_except.
  unfold load_diffusers_body, from_pretrained.
  repeat emits_step; apply HP.
Qed.

Lemma load_internal_emits base mt :
  emits (fun ev => is_internal_event ev = true)
    (__load_internal_model base mt).
Proof.
  apply emits_try_except. unfold load_internal_body.
  repeat first
    [ apply load_diffusers_emits; reflexivity
    | apply emits_new_train_progress
    | emits_step ]; reflexivity.
Qed.

Lemma load_ckpt_emits base mt :
  emits (fun ev => is_ckpt_event ev = true) (__load_ckpt_model base mt).
Proof.
  apply emits_try_except.
  unfold load_ckpt_body, resolve_yaml_name, os_path_exists.
  repeat emits_step; reflexivity.
Qed.

(** C1.  [load] runs the internal-checkpoint strategy, then the
    bare-weights strategy in the world the first left, then the single-file
    strategy in the world the second left.  None of the three raises: each
    ends in a bundle or in [None].  Each only adds events of its own kind to
    the trace, so the calls of an earlier strategy all precede those of a
    later one.  [load] returns the first bundle, in the world of the
    strategy that built it (the later strategies are not run), and [None]
    when all three end in [None]; it never raises. *)
Theorem load_first_success (base_model_name : string) (mt : ModelType)
    (w : World) :
  let r1 := __load_internal_model base_model_name mt w in
  let r2 := __load_diffusers_model base_model_name mt (snd r1) in
  let r3 := __load_ckpt_model base_model_name mt (snd r2) in
  exists o1 o2 o3 evs1 evs2 evs3,
    fst r1 = Ok o1 /\ fst r2 = Ok o2 /\ fst r3 = Ok o3 /\
    trace (snd r1) = trace w ++ evs1 /\
    Forall (fun ev => is_internal_event ev = true) evs1 /\
    trace (snd r2) = trace (snd r1) ++ evs2 /\
    Forall (fun ev => is_diffusers_event ev = true) evs2 /\
    trace (snd r3) = trace (snd r2) ++ evs3 /\
    Forall (fun ev => is_ckpt_event ev = true) evs3 /\
    load base_model_name mt w =
      match o1 with
      | Some m => (Ok (Some m), snd r1)
      | None =>
          match o2 with
          | Some m => (Ok (Some m), snd r2)
          | None =>
              match o3 with
              | Some m => (Ok (Some m), snd r3)
              | None => (Ok None, snd r3)
              end
          end
      end.
Proof.
  cbv zeta. unfold load.
  destruct (try_except_ok (load_internal_body base_model_name mt) w)
    as [o1 E1].
  fold (__load_internal_model base_model_name mt) in E1.
  destruct (__load_internal_model base_model_name mt w) as [r1 w1] eqn:R1.
  cbn [fst snd] in *. subst r1.
  destruct (try_except_ok (load_diffusers_body base_model_name mt) w1)
    as [o2 E2].
  fold (__load_diffusers_model base_model_name mt) in E2.
  destruct (__load_diffusers_model base_model_name mt w1) as [r2 w2] eqn:R2.
  cbn [fst snd] in *. subst r2.
  destruct (try_except_ok (load_ckpt_body base_model_name mt) w2)
    as [o3 E3].
  fold (__load_ckpt_model base_model_name mt) in E3.
  destruct (__load_ckpt_model base_model_name mt w2) as [r3 w3] eqn:R3.
  cbn [fst snd] in *. subst r3.
  destruct (load_internal_emits _ _ _ _ _ R1) as (evs1 & T1 & F1).
  destruct (load_diffusers_emits (fun ev => is_diffusers_event ev = true)
              base_model_name mt (fun _ _ _ => eq_refl) _ _ _ R2)
    as (evs2 & T2 & F2).
  destruct (load_ckpt_emits _ _ _ _ _ R3) as (evs3 & T3 & F3).
  exists o1, o2, o3, evs1, evs2, evs3.
  do 9 (split; [done|]).
  rewrite bind_run, R1.
  destruct o1 as [m1|]; [reflexivity|].
  rewrite bind_run, R2.
  destruct o2 as [m2|]; [reflexivity|].
  rewrite bind_run, R3.
  destruct o3 as [m3|]; reflexivity.
Qed.


Lemma resolve_yaml_name_run base mt w :
  let stem := fst (splitext base) in
  let yaml := stem +:+ ".yaml" in
  let yml := stem +:+ ".yml" in
  resolve_yaml_name base mt w =
  if path_exists (env w) yaml
  then (Ok (Some yaml), add_trace w [EvExists yaml])
  else if path_exists (env w) yml
       then (Ok (Some yml), add_trace w [EvExists yaml; EvExists yml])
       else (Ok (__default_yaml_name mt),
             add_trace w [EvExists yaml; EvExists yml]).
Proof.
  cbv zeta. unfold resolve_yaml_name. run_goal.
  destruct (path_exists (env w) _) eqn:E1; cbn [negb]; run_goal.
  { reflexivity. }
  rewrite add_trace_add_trace.
  destruct (path_exists (env w) (_ +:+ ".yml")) eqn:E2; cbn [negb];
    reflexivity.
Qed.


Lemma load_ckpt_body_run base mt w :
  let stem := fst (splitext base) in
  let yaml := stem +:+ ".yaml" in
  let yml := stem +:+ ".yml" in
  let config :=
    if path_exists (env w) yaml then Some yaml
    else if path_exists (env w) yml then Some yml
         else __default_yaml_name mt in
  fst (load_ckpt_body base mt w) =
  match download_from_original_stable_diffusion_ckpt (env w) base config with
  | Ok pipeline =>
      Ok (StableDiffusionModel_init mt
            (pipeline_tokenizer pipeline) (pipeline_scheduler pipeline)
            (text_encoder_to (pipeline_text_encoder pipeline) float32)
            (vae_to (pipeline_vae pipeline) float32)
            (unet_to (pipeline_unet pipeline) float32)
            None None None None)
  | Raise e => Raise e
  end.
Proof.
  cbv zeta. unfold load_ckpt_body.
  rewrite bind_run.
  pose proof (resolve_yaml_name_run base mt w) as R. cbv zeta in R.
  rewrite R. clear R.
  destruct (path_exists (env w) (_ +:+ ".yaml"));
    [|destruct (path_exists (env w) (_ +:+ ".yml"))]; run_goal;
    destruct (download_from_original_stable_diffusion_ckpt _ _ _);
    reflexivity.
Qed.

(** C6 (amended).  The single-file strategy hands the converter the
    sibling [.yaml] if it exists, else the sibling [.yml] if it exists, else
    the entry of the built-in table for the model type: a named config for
    each of the five known variants and no config ([None]) for any other
    type.  The strategy ends in the bundle built from the converter's
    pipeline, or in [None] when the converter raises.  A sibling [.yaml]
    wins over every built-in default.  For a type outside the five variants
    with no sibling config, the converter is called with no config, and the
    strategy fails exactly when the converter raises on that. *)
Theorem ckpt_config_resolution (base_model_name : string) (mt : ModelType)
    (w : World) :
  let stem := fst (splitext base_model_name) in
  let yaml := stem +:+ ".yaml" in
  let yml := stem +:+ ".yml" in
  let config :=
    if path_exists (env w) yaml then Some yaml
    else if path_exists (env w) yml then Some yml
         else __default_yaml_name mt in
  fst (resolve_yaml_name base_model_name mt w) = Ok config /\
  fst (__load_ckpt_model base_model_name mt w) =
    Ok (match download_from_original_stable_diffusion_ckpt (env w)
                base_model_name config with
        | Ok pipeline =>
            Some (StableDiffusionModel_init mt
                    (pipeline_tokenizer pipeline) (pipeline_scheduler pipeline)
                    (text_encoder_to (pipeline_text_encoder pipeline) float32)
                    (vae_to (pipeline_vae pipeline) float32)
                    (unet_to (pipeline_unet pipeline) float32)
                    None None None None)
        | Raise _ => None
        end) /\
  __default_yaml_name STABLE_DIFFUSION_15
    = Some "resources/diffusers_model_config/v1-inference.yaml" /\
  __default_yaml_name STABLE_DIFFUSION_15_INPAINTING
    = Some "resources/diffusers_model_config/v1-inpainting-inference.yaml" /\
  __default_yaml_name STABLE_DIFFUSION_20
    = Some "resources/diffusers_model_config/v2-inference.yaml" /\
  __default_yaml_name STABLE_DIFFUSION_20_INPAINTING
    = Some "resources/diffusers_model_config/v2-inpainting-inference.yaml" /\
  __default_yaml_name STABLE_DIFFUSION_20_DEPTH
    = Some "resources/diffusers_model_config/v2-midas-inference.yaml" /\
  (forall name, __default_yaml_name (OTHER_MODEL_TYPE name) = None) /\
  (path_exists (env w) yaml = true -> config = Some yaml) /\
  (forall name,
     mt = OTHER_MODEL_TYPE name ->
     path_exists (env w) yaml = false -> path_exists (env w) yml = false ->
     config = None /\
     (fst (__load_ckpt_model base_model_name mt w) = Ok None <->
      raises (download_from_original_stable_diffusion_ckpt (env w)
                base_model_name None))).
Proof.
  cbv zeta.
  pose proof (resolve_yaml_name_run base_model_name mt w) as R.
  pose proof (load_ckpt_body_run base_model_name mt w) as B.
  cbv zeta in R, B.
  assert (L : fst (__load_ckpt_model base_model_name mt w) =
              Ok (match fst (load_ckpt_body base_model_name mt w) with
                  | Ok m => Some m
                  | Raise _ => None
                  end)).
  { unfold __load_ckpt_model. rewrite try_except_run.
    by destruct (load_ckpt_body base_model_name mt w) as [[m|e] w']. }
  split.
  { rewrite R. destruct (path_exists (env w) (_ +:+ ".yaml"));
      [|destruct (path_exists (env w) (_ +:+ ".yml"))]; reflexivity. }
  split.
  { rewrite L, B.
    by destruct (download_from_original_stable_diffusion_ckpt _ _ _). }
  repeat (split; [reflexivity|]).
  split; [by intros ->|].
  intros name -> E1 E2. rewrite L, B, E1, E2. cbn [__default_yaml_name].
  clear L B R.
  split; [reflexivity|].
  destruct (download_from_original_stable_diffusion_ckpt
              (env w) base_model_name None); cbn;
    split; intros; try done.
Qed.


(** The bare-weights strategy reads the environment and nothing else. *)
Lemma load_diffusers_body_env base mt (w1 w2 : World) :
  env w1 = env w2 ->
  fst (load_diffusers_body base mt w1) = fst (load_diffusers_body base mt w2).
Proof.
  intros Henv. unfold load_diffusers_body.
  repeat first [ progress run_goal | rewrite Henv | goal_case ]; reflexivity.
Qed.

(** What the bare-weights strategy builds and leaves. *)
Lemma load_diffusers_body_fresh base mt w m w' :
  load_diffusers_body base mt w = (Ok m, w') ->
  model_type m = mt /\
  train_progress m = default_train_progress /\
  optimizer m = None /\ optimizer_state_dict m = None /\
  heap w' = heap w /\ env w' = env w.
Proof.
  intros E. unfold load_diffusers_body, from_pretrained in E.
  repeat first
    [ rewrite bind_run in E | rewrite ret_run in E | rewrite read_env_run in E
    | progress cbv beta iota zeta in E
    | run_case E; try discriminate E ];
    injection E as <- <-; by repeat split.
Qed.

Lemma load_internal_no_meta base mt w :
  raises (read_json (env w) (path_join base ["meta.json"])) ->
  __load_internal_model base mt w
  = (Ok None, add_trace w [EvReadJson (path_join base ["meta.json"])]).
Proof.
  intros Hraise. unfold __load_internal_model, load_internal_body.
  rewrite try_except_run. cbv zeta. rewrite bind_run, read_env_run.
  by destruct (read_json (env w) _).
Qed.

(** X2.  The bare-weights fallthrough of [load]: when [meta.json] cannot be
    read and the bare-weights strategy yields a bundle, [load] returns that
    bundle; it has no optimizer and no optimizer state, and its training
    progress is the default-argument instance shared by every bundle built
    without one: reading it gives what that shared object holds. *)
Theorem load_bare_weights base_model_name mt w m :
  raises (read_json (env w) (path_join base_model_name ["meta.json"])) ->
  fst (__load_diffusers_model base_model_name mt w) = Ok (Some m) ->
  exists w',
    load base_model_name mt w = (Ok (Some m), w') /\
    heap w' = heap w /\
    train_progress m = default_train_progress /\
    optimizer m = None /\
    optimizer_state_dict m = None /\
    fst (read_train_progress (train_progress m) w')
    = fst (read_train_progress default_train_progress w).
Proof.
  intros Hmeta Hbare.
  unfold load. rewrite bind_run, (load_internal_no_meta _ _ _ Hmeta).
  cbv beta iota. rewrite bind_run.
  set (w1 := add_trace w _).
  unfold __load_diffusers_model in *. rewrite try_except_run in *.
  pose proof (load_diffusers_body_env base_model_name mt w1 w eq_refl) as Henv.
  destruct (load_diffusers_body base_model_name mt w) as [[m0|e] w0];
    [|discriminate]. cbn [fst] in *. injection Hbare as ->.
  destruct (load_diffusers_body base_model_name mt w1) as [[m1|e] w'] eqn:E1;
    [|discriminate]. cbn [fst] in Henv. injection Henv as ->.
  destruct (load_diffusers_body_fresh _ _ _ _ _ E1)
    as (_ & Htp & Hopt & Hsd & Hheap & _).
  exists w'. split; [reflexivity|]. split; [exact Hheap|].
  split; [exact Htp|]. split; [exact Hopt|]. split; [exact Hsd|].
  unfold read_train_progress. rewrite Htp, Hheap. subst w1.
  cbn [heap add_trace]. by destruct (heap w !! default_train_progress).
Qed.

End LoaderProofs.

(** * The two files on the small interpretation *)

(** Case analysis on a concrete call known to return. *)
Ltac sim_returns X r w E :=
  destruct X as [[r|?] w] eqn:E;
  [|exfalso;
    assert (Hok : is_ok (fst X) = true) by (vm_compute; reflexivity);
    rewrite E in Hok; discriminate Hok].

Section SimProofs.
#[local] Existing Instance Sim.externals.
#[local] Existing Instance Sim.capabilities.

Lemma sim_shape_laws : ShapeLaws.
Proof.
  split.
  - intros sh g d t x g' [= <- _]. reflexivity.
  - reflexivity.
  - intros x y z. cbn. unfold Sim.pointwise.
    destruct (broadcast_shapes _ _) eqn:E; [|discriminate].
    intros [= <-]. cbn. exact E.
Qed.

Example sim_predict_runs :
  returned (predict (Sim.model STABLE_DIFFUSION_15) Sim.batch
              (Sim.args STABLE_DIFFUSION_15 float_zero float_one false)
              (Sim.world Sim.empty_env TrainProgress_default 42))
  = Some (Sim.mkTensor [2; 4; 8; 8]%nat 6562645377006488,
          Sim.mkTensor [2; 4; 8; 8]%nat 0).
Proof. vm_compute. reflexivity. Qed.

(** In binary64, [3 * (1/3)] rounds to 1, so its [int] is 1. *)
Example three_thirds :
  result_bind (int_mul_float 3 Sim.f_third) py_int = Ok 1.
Proof. vm_compute. reflexivity. Qed.

(** C4 at work: with an offset-noise weight of 0.1 and a latent of shape
    (2, 4, 8, 8), [predict] makes the two [randn] calls and returns noise of
    the latent's shape. *)
Lemma predict_actual_noise_witness :
  randn_shapes
    (events_since (Sim.world Sim.empty_env TrainProgress_default 42)
       (snd (predict (Sim.model STABLE_DIFFUSION_15) Sim.batch
               (Sim.args STABLE_DIFFUSION_15 Sim.f_0_1 float_one false)
               (Sim.world Sim.empty_env TrainProgress_default 42))))
  = [[2; 4; 8; 8]; [2; 4; 1; 1]]%nat /\
  (fun r => shape (snd r))
    <$> returned
          (predict (Sim.model STABLE_DIFFUSION_15) Sim.batch
             (Sim.args STABLE_DIFFUSION_15 Sim.f_0_1 float_one false)
             (Sim.world Sim.empty_env TrainProgress_default 42))
  = Some [2; 4; 8; 8]%nat.
Proof.
  split; [vm_compute; reflexivity|].
  sim_returns
    (predict (Sim.model STABLE_DIFFUSION_15) Sim.batch
       (Sim.args STABLE_DIFFUSION_15 Sim.f_0_1 float_one false)
       (Sim.world Sim.empty_env TrainProgress_default 42)) r w' E.
  destruct r as [predicted noise].
  destruct (predict_actual_noise _ _ _ _ _ _ _ E)
    as (latent & tp & seed & g0 & g & Hl & _ & _ & _ & _ & _ & _ & Hshape).
  vm_compute in Hl. injection Hl as <-.
  unfold returned. cbn [fst snd fmap option_fmap option_map]. f_equal.
  apply (Hshape sim_shape_laws). reflexivity.
Defined.


(** C5 at work: two worlds with other files and another default generator,
    the same global step: the same noise. *)
Lemma predict_noise_deterministic_witness :
  snd <$> returned
            (predict (Sim.model STABLE_DIFFUSION_15) Sim.batch
               (Sim.args STABLE_DIFFUSION_15 Sim.f_0_1 float_one false)
               (Sim.world Sim.empty_env TrainProgress_default 42))
  = snd <$> returned
              (predict (Sim.model STABLE_DIFFUSION_15) Sim.batch
                 (Sim.args STABLE_DIFFUSION_15 Sim.f_0_1 float_one false)
                 (Sim.world Sim.bare_weights_env TrainProgress_default 2024)).
Proof.
  sim_returns
    (predict (Sim.model STABLE_DIFFUSION_15) Sim.batch
       (Sim.args STABLE_DIFFUSION_15 Sim.f_0_1 float_one false)
       (Sim.world Sim.empty_env TrainProgress_default 42)) r1 w1 E1.
  sim_returns
    (predict (Sim.model STABLE_DIFFUSION_15) Sim.batch
       (Sim.args STABLE_DIFFUSION_15 Sim.f_0_1 float_one false)
       (Sim.world Sim.bare_weights_env TrainProgress_default 2024)) r2 w2 E2.
  unfold returned. cbn [fst fmap option_fmap option_map]. f_equal.
  exact (predict_noise_deterministic _ _ _
           (Sim.world Sim.empty_env TrainProgress_default 42)
           (Sim.world Sim.bare_weights_env TrainProgress_default 2024)
           _ _ _ _ eq_refl E1 E2).
Defined.

(** C7 at work: for Stable Diffusion 1.5, dropping [latent_mask] from a
    batch changes nothing and dropping [tokens] makes [predict] raise. *)
Lemma predict_reads_required_fields_witness :
  predict (Sim.model STABLE_DIFFUSION_15)
    (delete "latent_mask" Sim.inpainting_batch)
    (Sim.args STABLE_DIFFUSION_15 float_zero float_one false)
    (Sim.world Sim.empty_env TrainProgress_default 42)
  = predict (Sim.model STABLE_DIFFUSION_15) Sim.inpainting_batch
      (Sim.args STABLE_DIFFUSION_15 float_zero float_one false)
      (Sim.world Sim.empty_env TrainProgress_default 42) /\
  raises
    (fst (predict (Sim.model STABLE_DIFFUSION_15)
            (delete "tokens" Sim.inpainting_batch)
            (Sim.args STABLE_DIFFUSION_15 float_zero float_one false)
            (Sim.world Sim.empty_env TrainProgress_default 42))).
Proof.
  destruct (predict_reads_required_fields
              (Sim.model STABLE_DIFFUSION_15) Sim.inpainting_batch
              (Sim.args STABLE_DIFFUSION_15 float_zero float_one false)
              (Sim.world Sim.empty_env TrainProgress_default 42))
    as (_ & _ & Hunused & Hused).
  split; [apply Hunused|apply Hused].
  - apply (bool_decide_unpack _). vm_compute. exact I.
  - apply (bool_decide_unpack _). vm_compute. exact I.
Defined.

(** C10 at work: 1000 timesteps and a strength of 0.0005. *)
Lemma predict_empty_timestep_range_witness :
  (exists high, py_int Sim.small_product = Ok high /\ high <= 0) /\
  exists e w',
    predict (Sim.model STABLE_DIFFUSION_15) Sim.batch
      (Sim.args STABLE_DIFFUSION_15 float_zero Sim.f_0_0005 false)
      (Sim.world Sim.empty_env TrainProgress_default 42)
    = (Raise e, w') /\
    Forall (fun ev => is_unet ev = false)
      (events_since (Sim.world Sim.empty_env TrainProgress_default 42) w').
Proof.
  apply (predict_empty_timestep_range
           (Sim.model STABLE_DIFFUSION_15) Sim.batch
           (Sim.args STABLE_DIFFUSION_15 float_zero Sim.f_0_0005 false)
           (Sim.world Sim.empty_env TrainProgress_default 42)
           Sim.small_product);
    by vm_compute.
Defined.

(** C3 (amended) at work: on a writable disk the debug block returns and
    [predict] returns the same pair with [debug_mode] on and off. *)
Lemma predict_debug_mode_witness :
  returned
    (predict (Sim.model STABLE_DIFFUSION_15) Sim.batch
       (with_debug_mode true
          (Sim.args STABLE_DIFFUSION_15 float_zero float_one false))
       (Sim.world Sim.empty_env TrainProgress_default 42))
  = returned
      (predict (Sim.model STABLE_DIFFUSION_15) Sim.batch
         (with_debug_mode false
            (Sim.args STABLE_DIFFUSION_15 float_zero float_one false))
         (Sim.world Sim.empty_env TrainProgress_default 42)).
Proof.
  sim_returns
    (predict (Sim.model STABLE_DIFFUSION_15) Sim.batch
       (with_debug_mode false
          (Sim.args STABLE_DIFFUSION_15 float_zero float_one false))
       (Sim.world Sim.empty_env TrainProgress_default 42)) r1 w1 E1.
  destruct (predict_debug_mode _ _ _ _ _ _ E1) as (fw & _ & _ & _ & Hsame).
  sim_returns
    (predict (Sim.model STABLE_DIFFUSION_15) Sim.batch
       (with_debug_mode true
          (Sim.args STABLE_DIFFUSION_15 float_zero float_one false))
       (Sim.world Sim.empty_env TrainProgress_default 42)) r2 w2 E2.
  unfold returned. cbn [fst]. f_equal. exact (Hsame r2 w2 eq_refl).
Defined.

(** C3 as stated fails: on a read-only disk, [predict] returns with
    [debug_mode] off and raises [OSError] with [debug_mode] on. *)
Lemma predict_debug_failure_aborts :
  is_ok (fst (predict (Sim.model STABLE_DIFFUSION_15) Sim.batch
                (Sim.args STABLE_DIFFUSION_15 float_zero float_one false)
                (Sim.world Sim.read_only_env TrainProgress_default 42)))
  = true /\
  fst (predict (Sim.model STABLE_DIFFUSION_15) Sim.batch
         (Sim.args STABLE_DIFFUSION_15 float_zero float_one true)
         (Sim.world Sim.read_only_env TrainProgress_default 42))
  = Raise (OSError "read-only file system").
Proof. split; vm_compute; reflexivity. Qed.

(** C6 (amended) at work: [foo.ckpt] with a sibling [foo.yaml]. *)
Lemma ckpt_config_resolution_witness :
  fst (resolve_yaml_name "models/foo.ckpt" STABLE_DIFFUSION_15
         (Sim.world Sim.ckpt_yaml_env TrainProgress_default 42))
  = Ok (Some "models/foo.yaml").
Proof.
  pose proof (ckpt_config_resolution "models/foo.ckpt" STABLE_DIFFUSION_15
                (Sim.world Sim.ckpt_yaml_env TrainProgress_default 42)) as R.
  cbv zeta in R.
  destruct R as (Hconfig & _ & _ & _ & _ & _ & _ & _ & Hyaml & _).
  rewrite Hconfig, Hyaml; [reflexivity|vm_compute; reflexivity].
Defined.

(** C6 as stated fails: a packed file with no sibling config and a model
    type outside the five variants is loaded by the single-file strategy
    when the converter works without a config. *)
Lemma ckpt_without_config_loads :
  path_exists Sim.ckpt_env "models/custom.yaml" = false /\
  path_exists Sim.ckpt_env "models/custom.yml" = false /\
  __default_yaml_name (OTHER_MODEL_TYPE "STABLE_DIFFUSION_XL") = None /\
  model_type
    <$> loaded (__load_ckpt_model "models/custom.ckpt"
                  (OTHER_MODEL_TYPE "STABLE_DIFFUSION_XL")
                  (Sim.world Sim.ckpt_env TrainProgress_default 42))
  = Some (OTHER_MODEL_TYPE "STABLE_DIFFUSION_XL").
Proof. repeat split; vm_compute; reflexivity. Qed.

(** The defect behind C8: two bundles loaded from a bare-weights directory
    share one [TrainProgress].  The first [load] of a process returns a
    bundle at zero; once the training loop has advanced that bundle's
    counters in place, a second [load] of the same directory returns a
    bundle, again without optimizer state, whose counters are the advanced
    ones. *)
Theorem load_shares_default_train_progress :
  progress_of_loaded Sim.first_load = Some TrainProgress_default /\
  optimizer_state_dict <$> loaded Sim.second_load = Some None /\
  train_progress <$> loaded Sim.second_load = Some default_train_progress /\
  progress_of_loaded Sim.second_load = Some Sim.advanced.
Proof. repeat split; vm_compute; reflexivity. Qed.

(** The defect behind C2: the timesteps follow the default generator of
    the device, not the generator seeded with the global step.  Two calls
    on the same bundle, batch and configuration at the same global step
    draw the same noise and different timesteps when the default
    generator differs. *)
Theorem timesteps_ignore_seeded_generator :
  fw_latent_noise
    <$> returned
          (forward (Sim.model STABLE_DIFFUSION_15) Sim.batch
             (Sim.args STABLE_DIFFUSION_15 float_zero float_one false)
             (Sim.world Sim.empty_env TrainProgress_default 42))
  = fw_latent_noise
      <$> returned
            (forward (Sim.model STABLE_DIFFUSION_15) Sim.batch
               (Sim.args STABLE_DIFFUSION_15 float_zero float_one false)
               (Sim.world Sim.empty_env TrainProgress_default 43)) /\
  fw_timestep
    <$> returned
          (forward (Sim.model STABLE_DIFFUSION_15) Sim.batch
             (Sim.args STABLE_DIFFUSION_15 float_zero float_one false)
             (Sim.world Sim.empty_env TrainProgress_default 42))
  = Some [42; 993] /\
  fw_timestep
    <$> returned
          (forward (Sim.model STABLE_DIFFUSION_15) Sim.batch
             (Sim.args STABLE_DIFFUSION_15 float_zero float_one false)
             (Sim.world Sim.empty_env TrainProgress_default 43))
  = Some [43; 998].
Proof. repeat split; vm_compute; reflexivity. Qed.

(** The fallthrough at work in a fresh process: the counters are zero. *)
Lemma load_bare_weights_witness :
  progress_of_loaded
    (load "models/sd15" STABLE_DIFFUSION_15
       (Sim.world Sim.bare_weights_env TrainProgress_default 42))
  = Some TrainProgress_default.
Proof.
  destruct (__load_diffusers_model "models/sd15" STABLE_DIFFUSION_15
              (Sim.world Sim.bare_weights_env TrainProgress_default 42))
    as [[[m|]|e] w0] eqn:E.
  2,3: exfalso;
    assert (Hok : is_Some
                    (train_progress
                       <$> loaded (__load_diffusers_model "models/sd15"
                                     STABLE_DIFFUSION_15
                                     (Sim.world Sim.bare_weights_env
                                        TrainProgress_default 42))))
      by (vm_compute; eexists; reflexivity);
    rewrite E in Hok; destruct Hok as [? Hok]; discriminate Hok.
  destruct (load_bare_weights "models/sd15" STABLE_DIFFUSION_15
              (Sim.world Sim.bare_weights_env TrainProgress_default 42) m)
    as (w' & Hload & Hheap & Htp & _ & _ & _).
  - vm_compute. exact I.
  - by rewrite E.
  - rewrite Hload. unfold progress_of_loaded, loaded. cbn [fst snd].
    rewrite Hheap, Htp. reflexivity.
Defined.

(** The timestep range at work: 1000 timesteps and a strength of 0.3. *)
Lemma forward_timesteps_witness :
  Forall (fun t => 0 <= t < 300)
    (default []
       (fw_timestep
          <$> returned
                (forward (Sim.model STABLE_DIFFUSION_15) Sim.batch
                   (Sim.args STABLE_DIFFUSION_15 float_zero Sim.f_0_3 false)
                   (Sim.world Sim.empty_env TrainProgress_default 42)))).
Proof.
  sim_returns
    (forward (Sim.model STABLE_DIFFUSION_15) Sim.batch
       (Sim.args STABLE_DIFFUSION_15 float_zero Sim.f_0_3 false)
       (Sim.world Sim.empty_env TrainProgress_default 42)) fw w' E.
  destruct (forward_timesteps _ _ _ _ _ _ E)
    as (latent & product & high & n & Hf).
  cbv zeta in Hf.
  destruct Hf as (_ & Hp & Hi & _ & _ & _ & Hrange & _).
  vm_compute in Hp. injection Hp as <-.
  vm_compute in Hi. injection Hi as <-.
  exact Hrange.
Defined.

End SimProofs.

(** * Further properties *)

(** ** What the calls leave alone *)


Section FrameProofs.
Context `{Externals} `{Capabilities}.

Lemma same_heap_frame : Frame same_heap.
Proof.
  split; unfold same_heap; [done| |done].
  intros w1 w2 w3 H12 H23. by rewrite H23.
Qed.

Lemma same_env_frame : Frame same_env.
Proof.
  split; unfold same_env; [done| |done].
  intros w1 w2 w3 H12 H23. by rewrite H23.
Qed.

Lemma same_generators_frame : Frame same_generators.
Proof.
  split; unfold same_generators; [done| |done].
  intros w1 w2 w3 H12 H23. by rewrite H23.
Qed.


Section Generic.
Variable R : World -> World -> Prop.
Hypothesis HR : Frame R.

Lemma preserves_ret {A} (a : A) : preserves R (ret a).
Proof. intros w r w' [= <- <-]. apply (frame_refl R HR). Qed.

Lemma preserves_raise {A} e : preserves R (raise (A:=A) e).
Proof. intros w r w' [= <- <-]. apply (frame_refl R HR). Qed.

Lemma preserves_lift {A} (x : Result A) : preserves R (lift x).
Proof. intros w r w' [= <- <-]. apply (frame_refl R HR). Qed.

Lemma preserves_log ev : preserves R (log ev).
Proof. intros w r w' [= <- <-]. apply (frame_trace R HR). Qed.

Lemma preserves_read_env {A} ev (f : Env -> Result A) :
  preserves R (read_env ev f).
Proof. intros w r w' [= <- <-]. apply (frame_trace R HR). Qed.

Lemma preserves_read_train_progress addr :
  preserves R (read_train_progress addr).
Proof.
  intros w r w' E. unfold read_train_progress in E.
  destruct (heap w !! addr); injection E as <- <-; apply (frame_refl R HR).
Qed.

Lemma preserves_bind {A B} (m : Py A) (k : A -> Py B) :
  preserves R m -> (forall a, preserves R (k a)) -> preserves R (mbind k m).
Proof.
  intros Hm Hk w r w' E. rewrite bind_run in E.
  destruct (m w) as [[a|e] w1] eqn:Em.
  - eapply (frame_trans R HR); [exact (Hm _ _ _ Em)|exact (Hk _ _ _ _ E)].
  - injection E as <- <-. exact (Hm _ _ _ Em).
Qed.

Lemma preserves_try_except {A} (body : Py A) :
  preserves R body -> preserves R (try_except body).
Proof.
  intros Hb w r w' E. rewrite try_except_run in E.
  destruct (body w) as [[a|e] w1] eqn:Eb;
    injection E as <- <-; exact (Hb _ _ _ Eb).
Qed.

Lemma preserves_write_env ev (f : Env -> Result Env) :
  (forall w e, R w (with_env w e)) -> preserves R (write_env ev f).
Proof.
  intros Henv w r w' E. unfold write_env in E.
  destruct (f (env w)); injection E as <- <-.
  - eapply (frame_trans R HR); [apply (frame_trace R HR)|apply Henv].
  - apply (frame_trace R HR).
Qed.


Lemma preserves_torch_randint low high n d :
  (forall w d g, R w (with_generator w d g)) ->
  preserves R (torch_randint low high n d).
Proof.
  intros Hg w r w' E. rewrite torch_randint_run in E.
  destruct (high <=? low); injection E as <- <-.
  - apply (frame_trace R HR).
  - eapply (frame_trans R HR); [apply (frame_trace R HR)|apply Hg].
Qed.

End Generic.

End FrameProofs.

Ltac preserves_step HR :=
  first
    [ apply (preserves_ret _ HR)
    | apply (preserves_raise _ HR)
    | apply (preserves_lift _ HR)
    | apply (preserves_read_train_progress _ HR)
    | apply (preserves_log _ HR)
    | apply (preserves_read_env _ HR)
    | apply preserves_try_except
    | apply (preserves_bind _ HR); [|intros ?]
    | progress cbv zeta
    | match goal with
      | |- preserves _ (match ?c with _ => _ end) => destruct c eqn:?
      end ].

Section FrameUses.
Context `{Externals} `{Capabilities}.

Lemma forward_same_heap self batch args :
  preserves same_heap (forward self batch args).
Proof.
  unfold forward, draw_latent_noise, sample_timestep, batch_get,
    self_global_step, torch_randn.
  repeat first
    [ apply (preserves_torch_randint _ same_heap_frame); done
    | preserves_step same_heap_frame ].
Qed.

Lemma forward_same_env self batch args :
  preserves same_env (forward self batch args).
Proof.
  unfold forward, draw_latent_noise, sample_timestep, batch_get,
    self_global_step, torch_randn.
  repeat first
    [ apply (preserves_torch_randint _ same_env_frame); done
    | preserves_step same_env_frame ].
Qed.

Lemma debug_images_same_heap self args latent cond noise predicted noisy ts :
  preserves same_heap
    (debug_images self args latent cond noise predicted noisy ts).
Proof.
  unfold debug_images, __save_image, decode, self_global_step.
  repeat first
    [ apply (preserves_write_env _ same_heap_frame); done
    | preserves_step same_heap_frame ].
Qed.


Lemma debug_images_same_generators self args latent cond noise predicted
    noisy ts :
  preserves same_generators
    (debug_images self args latent cond noise predicted noisy ts).
Proof.
  unfold debug_images, __save_image, decode, self_global_step.
  repeat first
    [ apply (preserves_write_env _ same_generators_frame); done
    | preserves_step same_generators_frame ].
Qed.

(** X3.  [predict] and the rest of the process.  Whatever its outcome, a
    call of [predict] leaves every [TrainProgress] object as it was: it
    reads [global_step] and never advances a counter.  With [debug_mode]
    off it also leaves the file system as it was. *)
Theorem predict_frame self batch args w :
  heap (snd (predict self batch args w)) = heap w /\
  (TrainArgs.debug_mode args = false ->
   env (snd (predict self batch args w)) = env w).
Proof.
  destruct (predict self batch args w) as [r w'] eqn:E. cbn [snd]. split.
  - revert E. rewrite predict_run.
    destruct (forward self batch args w) as [[fw|e] w1] eqn:Ef;
      pose proof (forward_same_heap _ _ _ _ _ _ Ef) as H1.
    + destruct (TrainArgs.debug_mode args).
      * destruct (debug_images _ _ _ _ _ _ _ _ w1) as [[u|e] w2] eqn:Ed;
          pose proof (debug_images_same_heap _ _ _ _ _ _ _ _ _ _ _ Ed) as H2;
          intros [= <- <-]; unfold same_heap in *; congruence.
      * by intros [= <- <-].
    + by intros [= <- <-].
  - intros Hoff. revert E. rewrite predict_run, Hoff.
    destruct (forward self batch args w) as [[fw|e] w1] eqn:Ef;
      pose proof (forward_same_env _ _ _ _ _ _ Ef) as H1;
      by intros [= <- <-].
Qed.

Section LoaderFrame.
Variable R : World -> World -> Prop.
Hypothesis HR : Frame R.
Hypothesis Halloc : forall w t, R w (alloc w t).





End LoaderFrame.


End FrameUses.

(** ** The forward pass and the networks *)

Section Networks.
Context `{Externals} `{Capabilities}.

Lemma forward_networks self batch args w fw w' :
  forward self batch args w = (Ok fw, w') ->
  exists latent tokens emb input,
    let sf := scaling_factor (vae self) in
    let mt := TrainArgs.model_type args in
    let ts := fw_timestep fw in
    let noisy := fw_scaled_noisy_latent_image fw in
    batch !! "latent_image" = Some latent /\
    batch !! "tokens" = Some tokens /\
    fw_latent_conditioning_image fw =
      (if has_conditioning_image_input mt
       then batch !! "latent_conditioning_image" else None) /\
    add_noise (noise_scheduler self) (mul_scalar latent sf)
      (fw_latent_noise fw) ts = Ok noisy /\
    text_encoder_forward (text_encoder self) tokens = Ok emb /\
    (if has_mask_input mt && has_conditioning_image_input mt
     then exists mask cond,
         batch !! "latent_mask" = Some mask /\
         batch !! "latent_conditioning_image" = Some cond /\
         t_concat [noisy; mask; mul_scalar cond sf] 1 = Ok input
     else input = noisy) /\
    (if has_depth_input mt
     then exists depth,
         batch !! "latent_depth" = Some depth /\
         unet_forward (unet self) input ts emb (Some depth)
         = Ok (fw_predicted_latent_noise fw)
     else unet_forward (unet self) input ts emb None
          = Ok (fw_predicted_latent_noise fw)).
Proof.
  intros Hrun. unfold forward, as_int in Hrun.
  run_ok Hrun; injection Hrun as <- <-;
    repeat match goal with
           | Hb : _ = true |- _ => rewrite andb_true_r in Hb
           | Hb : _ = false |- _ => rewrite andb_false_r in Hb
           end;
    cbv zeta;
    repeat match goal with
           | Hb : ?c = _ |- context [?c] => rewrite Hb
           end;
    rewrite ?andb_true_r, ?andb_false_r;
    repeat match goal with
           | Hb : ?c = _ |- context [?c] => rewrite Hb
           end;
    cbn [fw_timestep fw_scaled_noisy_latent_image fw_latent_noise
         fw_predicted_latent_noise fw_latent_conditioning_image];
    match goal with
    | Hl : batch !! "latent_image" = Some ?lat,
      Ht : batch !! "tokens" = Some ?tok,
      He : text_encoder_forward _ ?tok = Ok ?emb,
      Hu : unet_forward _ ?input _ ?emb _ = Ok _ |- _ =>
        exists lat, tok, emb, input
    end;
    repeat (split; [done|]); eauto 10.
Qed.

End Networks.

(** ** Saved images *)


Section WorldWrites.
Context `{Externals} `{Capabilities}.

Lemma write_env_run ev (f : Env -> Result Env) (w : World) :
  write_env ev f w =
  match f (env w) with
  | Ok e => (Ok tt, with_env (add_trace w [ev]) e)
  | Raise x => (Raise x, add_trace w [ev])
  end.
Proof. reflexivity. Qed.

Lemma add_trace_with_env (w : World) e (a : list Event) :
  add_trace (with_env w e) a = with_env (add_trace w a) e.
Proof. reflexivity. Qed.

Lemma with_env_with_env (w : World) e1 e2 :
  with_env (with_env w e1) e2 = with_env w e2.
Proof. reflexivity. Qed.

End WorldWrites.

Ltac run_io H :=
  repeat first
    [ rewrite bind_run in H
    | rewrite log_run in H
    | rewrite lift_run in H
    | rewrite ret_run in H
    | rewrite raise_run in H
    | rewrite read_env_run in H
    | rewrite write_env_run in H
    | rewrite self_global_step_run in H
    | progress cbv beta iota zeta in H
    | progress cbn [fst snd env heap trace default_generator negb
                    add_trace with_env with_generator alloc] in H ].

Section SaveImage.
Context `{Externals} `{Capabilities}.

(** The world a returning [__save_image] leaves. *)
Lemma save_image_ok_world t dir name step w u w' :
  __save_image t dir name step w = (Ok u, w') ->
  exists first x img e0 e1,
    (if path_exists (env w) dir then e0 = env w
     else makedirs (env w) dir = Ok e0) /\
    t_getitem t 0 = Ok first /\
    t_unsqueeze first 0 = Ok x /\
    to_pil_image (t_squeeze (div_int (sub_int x (-1)) 2)) = Ok img /\
    image_save e0 img (image_path dir name step) = Ok e1 /\
    w' = with_env
           (add_trace w
              (EvExists dir
               :: (if path_exists (env w) dir then [] else [EvMakedirs dir])
               ++ [EvImageSave (image_path dir name step)]))
           e1.
Proof.
  intros E. unfold __save_image in E. fold (image_path dir name step) in E.
  run_io E.
  destruct (path_exists (env w) dir) eqn:Ex; run_io E.
  - destruct (t_getitem t 0) as [first|] eqn:E1; run_io E; [|discriminate].
    destruct (t_unsqueeze first 0) as [x|] eqn:E2; run_io E; [|discriminate].
    destruct (to_pil_image _) as [img|] eqn:E3; run_io E; [|discriminate].
    destruct (image_save _ _ _) as [e1|] eqn:E4; [|discriminate].
    injection E as <- <-. exists first, x, img, (env w), e1.
    repeat (split; [done|]).
    unfold with_env, add_trace; cbn [env heap trace default_generator];
    by rewrite <- ?app_assoc.
  - destruct (makedirs (env w) dir) as [e0|] eqn:E0; run_io E; [|discriminate].
    destruct (t_getitem t 0) as [first|] eqn:E1; run_io E; [|discriminate].
    destruct (t_unsqueeze first 0) as [x|] eqn:E2; run_io E; [|discriminate].
    destruct (to_pil_image _) as [img|] eqn:E3; run_io E; [|discriminate].
    destruct (image_save _ _ _) as [e1|] eqn:E4; [|discriminate].
    injection E as <- <-. exists first, x, img, e0, e1.
    repeat (split; [done|]).
    unfold with_env, add_trace; cbn [env heap trace default_generator];
    by rewrite <- ?app_assoc.
Qed.

(** X5.  [__save_image] when it returns.  The directory is looked up and
    created exactly when it was missing; then one file is written,
    [os.path.join(directory, "step-<step>-<name>.png")], and nothing else.
    The image is the first element of the batch, mapped from [-1, 1] to
    [0, 1].  No [TrainProgress] object changes. *)
Theorem save_image_ok t dir name step w u w' :
  __save_image t dir name step w = (Ok u, w') ->
  exists first x img e0,
    (if path_exists (env w) dir then e0 = env w
     else makedirs (env w) dir = Ok e0) /\
    t_getitem t 0 = Ok first /\
    t_unsqueeze first 0 = Ok x /\
    to_pil_image (t_squeeze (div_int (sub_int x (-1)) 2)) = Ok img /\
    image_save e0 img (image_path dir name step) = Ok (env w') /\
    events_since w w' =
      EvExists dir
      :: (if path_exists (env w) dir then [] else [EvMakedirs dir])
      ++ [EvImageSave (image_path dir name step)] /\
    heap w' = heap w.
Proof.
  intros E.
  destruct (save_image_ok_world _ _ _ _ _ _ _ E)
    as (first & x & img & e0 & e1 & H0' & H1 & H2 & H3 & H4 & ->).
  exists first, x, img, e0. repeat (split; [done|]).
  split; [|reflexivity].
  by apply events_since_app.
Qed.

(** X6.  The directory check of [__save_image].  An existing directory is
    never created again, whatever the outcome of the call.  When the
    directory is missing and [os.makedirs] raises, that exception leaves
    [__save_image] at once: the tensor is not touched and nothing is
    written. *)
Theorem save_image_directory t dir name step w :
  (path_exists (env w) dir = true ->
   forall p,
     EvMakedirs p ∉ events_since w (snd (__save_image t dir name step w))) /\
  (path_exists (env w) dir = false ->
   forall e, makedirs (env w) dir = Raise e ->
     __save_image t dir name step w
     = (Raise e, add_trace w [EvExists dir; EvMakedirs dir])).
Proof.
  destruct (__save_image t dir name step w) as [r w'] eqn:E. cbn [snd].
  unfold __save_image in E. fold (image_path dir name step) in E.
  run_io E. split.
  - intros Ex p. rewrite Ex in E. run_io E.
    assert (Hev : exists evs,
               trace w' = trace w ++ evs /\
               (evs = [EvExists dir] \/
                evs = [EvExists dir; EvImageSave (image_path dir name step)])).
    { destruct (t_getitem t 0) as [first|]; run_io E;
        [|injection E as <- <-; eauto].
      destruct (t_unsqueeze first 0) as [x|]; run_io E;
        [|injection E as <- <-; eauto].
      destruct (to_pil_image _) as [img|]; run_io E;
        [|injection E as <- <-; eauto].
      destruct (image_save _ _ _) as [e1|]; injection E as <- <-;
        cbn [trace with_env add_trace]; rewrite <- ?app_assoc; eauto. }
    destruct Hev as (evs & T & Hevs).
    rewrite (events_since_app _ _ _ T).
    destruct Hevs as [-> | ->]; intros Hin;
      repeat (apply elem_of_cons in Hin as [Hin|Hin]; [discriminate Hin|]);
      by apply elem_of_nil in Hin.
  - intros Ex e Em. rewrite Ex in E. run_io E. rewrite Em in E.
    rewrite <- E. f_equal.
    unfold add_trace; cbn [env heap trace default_generator].
    by rewrite <- app_assoc.
Qed.

Lemma str_endswith_sep_cons c s :
  str_endswith_sep (String c s) =
  match s with
  | EmptyString => Ascii.eqb c "/"%char
  | _ => str_endswith_sep s
  end.
Proof.
  unfold str_endswith_sep, str_get. cbn [String.length].
  destruct s as [|c' s']; [reflexivity|].
  cbn [String.length String.get]. reflexivity.
Qed.

Lemma str_endswith_sep_app a b :
  b <> EmptyString -> str_endswith_sep (a +:+ b) = str_endswith_sep b.
Proof.
  intros Hb. induction a as [|c a IH]; [reflexivity|].
  change (String c a +:+ b) with (String c (a +:+ b)).
  rewrite str_endswith_sep_cons, IH.
  destruct (a +:+ b) eqn:E; [|reflexivity].
  destruct a; [|discriminate E].
  change (b = EmptyString) in E. contradiction.
Qed.

(** The file name of [__save_image]: the directory, a separator unless the
    directory is empty or already ends in one, then
    [step-<step>-<name>.png]. *)
Theorem image_path_spec directory name step :
  image_path directory name step =
  directory
  +:+ (if (String.length directory =? 0)%nat || str_endswith_sep directory
       then "" else "/")
  +:+ "step-" +:+ py_str step +:+ "-" +:+ name +:+ ".png".
Proof.
  unfold image_path, path_join. cbn [fold_left]. unfold join2.
  cbn [String.append str_startswith String.prefix Ascii.ascii_dec].
  destruct ((String.length directory =? 0)%nat || str_endswith_sep directory);
    reflexivity.
Qed.

End SaveImage.


Section DebugProofs.
Context `{Externals} `{Capabilities}.

Lemma saved_images_app a b :
  saved_images (a ++ b) = saved_images a ++ saved_images b.
Proof. apply omap_app. Qed.

Lemma saved_images_save_image c dir p :
  saved_images (EvExists dir :: (if c : bool then [] else [EvMakedirs dir])
                ++ [EvImageSave p]) = [p].
Proof. by destruct c. Qed.

Lemma forward_emits_compute self batch args :
  emits (fun ev => is_debug_event ev = false) (forward self batch args).
Proof.
  unfold forward, draw_latent_noise, sample_timestep, batch_get,
    self_global_step, torch_randn.
  repeat emits_step; reflexivity.
Qed.

Lemma saved_images_compute evs :
  Forall (fun ev => is_debug_event ev = false) evs -> saved_images evs = [].
Proof.
  induction 1 as [|ev evs Hev _ IH]; [reflexivity|].
  unfold saved_images in *. cbn [omap list_omap]. rewrite IH.
  by destruct ev.
Qed.

Lemma str_app_assoc (a b c : string) : a +:+ b +:+ c = (a +:+ b) +:+ c.
Proof.
  induction a as [|x a IH]; [reflexivity|].
  change (String x (a +:+ b +:+ c) = String x ((a +:+ b) +:+ c)).
  by rewrite IH.
Qed.

Lemma str_app_length (a b : string) :
  String.length (a +:+ b) = (String.length a + String.length b)%nat.
Proof.
  induction a as [|x a IH]; [reflexivity|].
  change (S (String.length (a +:+ b))
          = S (String.length a + String.length b)). by rewrite IH.
Qed.

(** The files of the debug block: [debug_dir + "/training_batches"] never
    ends in a separator, so [os.path.join] adds one. *)
Lemma image_path_training_batches debug_dir name step :
  image_path (debug_dir +:+ "/training_batches") name step =
  debug_dir +:+ "/training_batches/step-" +:+ py_str step +:+ "-" +:+ name
  +:+ ".png".
Proof.
  rewrite image_path_spec, str_endswith_sep_app by discriminate.
  rewrite str_app_length.
  replace (String.length debug_dir + String.length "/training_batches"
           =? 0)%nat with false
    by (symmetry; apply Nat.eqb_neq; cbn [String.length]; lia).
  change (str_endswith_sep "/training_batches") with false.
  cbn [orb]. by rewrite <- !str_app_assoc.
Qed.

Lemma trace_with_env (w : World) e : trace (with_env w e) = trace w.
Proof. reflexivity. Qed.

Lemma trace_add_trace (w : World) evs :
  trace (add_trace w evs) = trace w ++ evs.
Proof. reflexivity. Qed.

(** What a returning [__save_image] adds to the world: one image. *)
Lemma save_image_ok_files t dir name step w u w' :
  __save_image t dir name step w = (Ok u, w') ->
  exists evs e1,
    saved_images evs = [image_path dir name step] /\
    w' = with_env (add_trace w evs) e1.
Proof.
  intros E. apply save_image_ok_world in E.
  destruct E as (? & ? & ? & ? & e1 & _ & _ & _ & _ & _ & ->).
  eexists _, e1. split; [|reflexivity]. apply saved_images_save_image.
Qed.

Ltac run_debug E Hh :=
  repeat first
    [ progress run_io E
    | rewrite Hh in E
    | match type of E with
      | context [__save_image ?a ?b ?c ?d ?W] =>
          let Hs := fresh "Hs" in
          destruct (__save_image a b c d W) as [[[]|?] ?] eqn:Hs;
          [apply save_image_ok_files in Hs;
           destruct Hs as (? & ? & ? & ->)
          |discriminate E]
      end
    | run_case E; try discriminate E ].

(** The images of a debug block that returns. *)
Lemma debug_images_files self args latent cond noise predicted noisy ts
    w tp u w' :
  heap w !! train_progress self = Some tp ->
  debug_images self args latent cond noise predicted noisy ts w = (Ok u, w') ->
  saved_images (events_since w w') = debug_files self args (global_step tp).
Proof.
  intros Hh E. unfold debug_images, decode in E.
  run_debug E Hh; injection E as _ <-;
    (erewrite events_since_app;
     [|repeat (rewrite trace_with_env || rewrite trace_add_trace);
       rewrite <- ?app_assoc; reflexivity]);
    unfold debug_files, debug_labels;
    repeat match goal with
           | Hb : has_conditioning_image_input _ = _ |- _ => rewrite Hb
           end;
    rewrite ?saved_images_app;
    change (saved_images [EvVaeDecode]) with (@nil string);
    repeat match goal with
           | Hs : saved_images _ = _ |- _ => rewrite Hs; clear Hs
           end;
    rewrite !image_path_training_batches;
    reflexivity.
Qed.


(** A debug block that is to save a conditioning image needs one. *)
Lemma debug_images_needs_conditioning self args latent noise predicted noisy
    ts w u w' :
  has_conditioning_image_input (model_type self) = true ->
  debug_images self args latent None noise predicted noisy ts w <> (Ok u, w').
Proof.
  intros Hself E. unfold debug_images, decode in E. rewrite Hself in E.
  destruct (heap w !! train_progress self) as [tp|] eqn:Hh;
    run_debug E Hh; discriminate E.
Qed.

End DebugProofs.

Section PredictExtras.
Context `{Externals} `{Capabilities}.

(** X7.  What a returning [predict] has computed.  The second component
    of the pair is the noise that the scheduler added to the scaled latent
    image at the sampled timesteps.  The first is the output of the
    denoiser on that noised latent (with [batch['latent_mask']] and the
    scaled conditioning image concatenated along dimension 1 when the
    configured model type has a mask and a conditioning image input), the
    same timesteps, the output of the text encoder on [batch['tokens']],
    and [batch['latent_depth']] exactly when the configured model type has
    a depth input. *)
Theorem predict_networks self batch args w predicted noise w' :
  predict self batch args w = (Ok (predicted, noise), w') ->
  exists latent tokens ts noisy emb input,
    let sf := scaling_factor (vae self) in
    let mt := TrainArgs.model_type args in
    batch !! "latent_image" = Some latent /\
    batch !! "tokens" = Some tokens /\
    add_noise (noise_scheduler self) (mul_scalar latent sf) noise ts
      = Ok noisy /\
    text_encoder_forward (text_encoder self) tokens = Ok emb /\
    (if has_mask_input mt && has_conditioning_image_input mt
     then exists mask cond,
         batch !! "latent_mask" = Some mask /\
         batch !! "latent_conditioning_image" = Some cond /\
         t_concat [noisy; mask; mul_scalar cond sf] 1 = Ok input
     else input = noisy) /\
    (if has_depth_input mt
     then exists depth,
         batch !! "latent_depth" = Some depth /\
         unet_forward (unet self) input ts emb (Some depth) = Ok predicted
     else unet_forward (unet self) input ts emb None = Ok predicted).
Proof.
  intros E. apply predict_ok in E.
  destruct E as (fw & w1 & evs & Ef & [= -> ->] & _).
  destruct (forward_networks _ _ _ _ _ _ Ef)
    as (latent & tokens & emb & input & Hl & Ht & _ & Hn & He & Hc & Hu).
  by exists latent, tokens, (fw_timestep fw),
    (fw_scaled_noisy_latent_image fw), emb, input.
Qed.

(** X8.  The rank [predict] needs.  When it returns, the scaled latent
    image has at least one dimension, and at least two when
    [offset_noise_weight > 0]: the offset noise has the shape
    [(shape[0], shape[1], 1, 1)]. *)
Theorem predict_latent_rank self batch args w r w' :
  predict self batch args w = (Ok r, w') ->
  exists latent,
    let sh := shape (mul_scalar latent (scaling_factor (vae self))) in
    batch !! "latent_image" = Some latent /\
    (1 <= length sh)%nat /\
    (float_gt_zero (TrainArgs.offset_noise_weight args) = true ->
     (2 <= length sh)%nat).
Proof.
  intros E. apply predict_ok in E.
  destruct E as (fw & w1 & evs & Ef & _).
  unfold forward, as_int, sample_timestep, draw_latent_noise, shape_get in Ef.
  run_ok Ef;
    match goal with
    | Hl : batch !! "latent_image" = Some ?lat |- _ => exists lat
    end; cbv zeta; (split; [done|]);
    repeat match goal with
           | Hs : _ !! _ = Some _ |- _ => apply lookup_lt_Some in Hs
           end;
    (split; [lia|]); intros; first [lia | congruence].
Qed.

(** X9.  The files of a returning [predict].  With [debug_mode] off it
    writes none.  With [debug_mode] on it writes, in this order,
    [<debug_dir>/training_batches/step-<global_step>-<label>.png] for the
    labels [1-noise], [2-predicted_noise], [3-noisy_image],
    [4-predicted_image], [5-image], and then [6-conditioning_image] exactly
    when the model type of the bundle has a conditioning image input;
    [global_step] is the one the training progress of the bundle holds at
    the call. *)
Theorem predict_debug_files self batch args w r w' :
  predict self batch args w = (Ok r, w') ->
  exists tp,
    heap w !! train_progress self = Some tp /\
    saved_images (events_since w w') =
      if TrainArgs.debug_mode args
      then debug_files self args (global_step tp)
      else [].
Proof.
  rewrite predict_run. intros E.
  destruct (forward self batch args w) as [[fw|e] w1] eqn:Ef; [|discriminate].
  destruct (forward_ok _ _ _ _ _ _ Ef)
    as (latent & tp & seed & g0 & g & product & high & n & Hok).
  cbv zeta in Hok. destruct Hok as (_ & _ & Htp & _).
  pose proof (forward_same_heap _ _ _ _ _ _ Ef) as Hheap.
  destruct (forward_emits_compute _ _ _ _ _ _ Ef) as (evs1 & T1 & F1).
  exists tp. split; [exact Htp|].
  destruct (TrainArgs.debug_mode args).
  - destruct (debug_images _ _ _ _ _ _ _ _ w1) as [[u|e] w2] eqn:Ed;
      [|discriminate].
    injection E as _ <-.
    assert (Htp1 : heap w1 !! train_progress self = Some tp)
      by (unfold same_heap in Hheap; by rewrite Hheap).
    pose proof (debug_images_files _ _ _ _ _ _ _ _ _ _ _ _ Htp1 Ed) as Hfiles.
    destruct (debug_images_emits _ _ _ _ _ _ _ _ _ _ _ Ed) as (evs2 & T2 & _).
    rewrite (events_since_app _ _ _ T2) in Hfiles.
    rewrite (events_since_app w w2 (evs1 ++ evs2))
      by (by rewrite T2, T1, app_assoc).
    by rewrite saved_images_app, (saved_images_compute _ F1).
  - injection E as _ <-. rewrite (events_since_app _ _ _ T1).
    by apply saved_images_compute.
Qed.

(** X10.  The forward pass asks the configured model type
    ([args.model_type]), the debug block asks the one of the bundle
    ([self.model_type]).  When [debug_mode] is on, the configured model
    type has no conditioning image input and the one of the bundle has,
    [predict] never returns a pair: the debug block decodes the
    conditioning image that the forward pass left at [None]. *)
Theorem predict_debug_conditioning_mismatch self batch args w :
  TrainArgs.debug_mode args = true ->
  has_conditioning_image_input (TrainArgs.model_type args) = false ->
  has_conditioning_image_input (model_type self) = true ->
  is_ok (fst (predict self batch args w)) = false.
Proof.
  intros Hd Hargs Hself. rewrite predict_run, Hd.
  destruct (forward self batch args w) as [[fw|e] w1] eqn:Ef; [|reflexivity].
  destruct (forward_networks _ _ _ _ _ _ Ef)
    as (_ & _ & _ & _ & _ & _ & Hc & _).
  cbv zeta in Hc. rewrite Hargs in Hc. rewrite Hc.
  destruct (debug_images _ _ _ _ _ _ _ _ w1) as [[u|e] w2] eqn:Ed;
    [|reflexivity].
  exfalso. by apply debug_images_needs_conditioning in Ed.
Qed.


(** X11.  The default generators after a returning [predict].  The
    default generator of the device of the latent image has advanced by
    the draws of [torch.randint], one per element of the leading
    dimension, whether [debug_mode] is on or off; the default generator of
    every other device is as it was. *)
Theorem predict_default_generator self batch args w r w' :
  predict self batch args w = (Ok r, w') ->
  exists latent product high n,
    let x := mul_scalar latent (scaling_factor (vae self)) in
    batch !! "latent_image" = Some latent /\
    int_mul_float (num_train_timesteps (noise_scheduler self))
      (TrainArgs.max_noising_strength args) = Ok product /\
    py_int product = Ok high /\
    shape x !! 0%nat = Some n /\
    default_generator w' (device_of x)
      = snd (draw_ints n 0 high (default_generator w (device_of x))) /\
    forall d, d <> device_of x ->
      default_generator w' d = default_generator w d.
Proof.
  rewrite predict_run. intros E.
  destruct (forward self batch args w) as [[fw|e] w1] eqn:Ef; [|discriminate].
  destruct (forward_ok _ _ _ _ _ _ Ef)
    as (latent & tp & seed & g0 & g & product & high & n & Hok).
  cbv zeta in Hok.
  destruct Hok as (Hl & _ & _ & _ & _ & _ & _ & Hp & Hi & _ & Hn & _ & _ & ->).
  assert (Hgen : default_generator w' = default_generator
                   (with_generator
                      (add_trace w
                         (forward_events args
                            (shape (mul_scalar latent (scaling_factor (vae self))))
                            high))
                      (device_of (mul_scalar latent (scaling_factor (vae self))))
                      (snd (draw_ints n 0 high
                              (default_generator w
                                 (device_of
                                    (mul_scalar latent
                                       (scaling_factor (vae self))))))))).
  { destruct (TrainArgs.debug_mode args); [|by injection E as _ <-].
    destruct (debug_images _ _ _ _ _ _ _ _ _) as [[u|e] w2] eqn:Ed;
      [|discriminate].
    injection E as _ <-.
    exact (debug_images_same_generators _ _ _ _ _ _ _ _ _ _ _ Ed). }
  exists latent, product, high, n. cbv zeta.
  repeat (split; [done|]). rewrite Hgen.
  cbn [default_generator with_generator add_trace]. split.
  - by rewrite String.eqb_refl.
  - intros d Hd. by apply String.eqb_neq in Hd as ->.
Qed.

End PredictExtras.

(** ** More on the loader *)


Section LoaderExtras.
Context `{Externals} `{Capabilities}.

Lemma events_since_add_trace (w : World) evs :
  events_since w (add_trace w evs) = evs.
Proof. by apply events_since_app. Qed.

(** The bare-weights strategy, whatever its outcome: the calls it makes. *)
Lemma load_diffusers_body_calls base mt w r w' :
  load_diffusers_body base mt w = (r, w') ->
  exists evs,
    w' = add_trace w evs /\ evs `prefix_of` diffusers_calls base mt /\
    (is_ok r = true -> evs = diffusers_calls base mt).
Proof.
  intros E. unfold load_diffusers_body, from_pretrained in E.
  unfold diffusers_calls.
  repeat first
    [ progress run_io E
    | rewrite add_trace_add_trace in E
    | run_case E ];
    injection E as <- <-; eexists; (split; [reflexivity|]);
    cbn [app is_ok];
    (split; [|first [discriminate | reflexivity]]);
    repeat first [ apply prefix_nil | apply prefix_cons | reflexivity ].
Qed.

(** The bare-weights strategy when it yields a bundle: its parts. *)
Lemma load_diffusers_body_parts base mt w m w' :
  load_diffusers_body base mt w = (Ok m, w') ->
  tokenizer_from_pretrained (env w) base "tokenizer" = Ok (tokenizer m) /\
  scheduler_from_pretrained (env w) base "scheduler"
    = Ok (noise_scheduler m) /\
  text_encoder_from_pretrained (env w) base "text_encoder" float32
    = Ok (text_encoder m) /\
  vae_from_pretrained (env w) base "vae" float32 = Ok (vae m) /\
  unet_from_pretrained (env w) base "unet" float32 = Ok (unet m) /\
  (if has_depth_input mt
   then
     exists p d,
       depth_processor_from_pretrained (env w) base "feature_extractor"
         = Ok p /\
       depth_estimator_from_pretrained (env w) base "depth_estimator"
         = Ok d /\
       image_depth_processor m = Some p /\ depth_estimator m = Some d
   else image_depth_processor m = None /\ depth_estimator m = None).
Proof.
  intros E. unfold load_diffusers_body, from_pretrained in E.
  repeat first
    [ progress run_io E
    | run_case E; try discriminate E ];
    injection E as <- <-;
    cbn [tokenizer noise_scheduler text_encoder vae unet
         image_depth_processor depth_estimator StableDiffusionModel_init];
    repeat (split; [done|]); eauto 10.
Qed.


(** X12.  The bare-weights strategy reads the sub-folders [tokenizer],
    [scheduler], [text_encoder], [vae] and [unet] in this order, then
    [feature_extractor] and [depth_estimator] exactly when the model type
    has a depth input, and it stops at the first that fails: the calls it
    made are a prefix of that list.  When it yields a bundle it has made
    them all, the parts of the bundle are what these calls returned (the
    three networks loaded as float32), and the depth parts are present
    exactly when the model type has a depth input. *)
Theorem diffusers_call_sequence base_model_name mt w :
  let out := __load_diffusers_model base_model_name mt w in
  events_since w (snd out) `prefix_of` diffusers_calls base_model_name mt /\
  forall m, fst out = Ok (Some m) ->
    events_since w (snd out) = diffusers_calls base_model_name mt /\
    tokenizer_from_pretrained (env w) base_model_name "tokenizer"
      = Ok (tokenizer m) /\
    scheduler_from_pretrained (env w) base_model_name "scheduler"
      = Ok (noise_scheduler m) /\
    text_encoder_from_pretrained (env w) base_model_name "text_encoder"
      float32 = Ok (text_encoder m) /\
    vae_from_pretrained (env w) base_model_name "vae" float32
      = Ok (vae m) /\
    unet_from_pretrained (env w) base_model_name "unet" float32
      = Ok (unet m) /\
    (if has_depth_input mt
     then
       exists p d,
         depth_processor_from_pretrained (env w) base_model_name
           "feature_extractor" = Ok p /\
         depth_estimator_from_pretrained (env w) base_model_name
           "depth_estimator" = Ok d /\
         image_depth_processor m = Some p /\ depth_estimator m = Some d
     else image_depth_processor m = None /\ depth_estimator m = None).
Proof.
  cbv zeta. unfold __load_diffusers_model. rewrite try_except_run.
  destruct (load_diffusers_body base_model_name mt w) as [r0 w0] eqn:E.
  destruct (load_diffusers_body_calls _ _ _ _ _ E) as (evs & -> & Hpre & Hall).
  assert (Hsnd : snd (match r0 with
                      | Ok a => (Ok (Some a), add_trace w evs)
                      | Raise _ => (Ok None, add_trace w evs)
                      end) = add_trace w evs) by (by destruct r0).
  rewrite Hsnd, events_since_add_trace. split; [exact Hpre|].
  intros m Hm. destruct r0 as [m0|e]; [|discriminate].
  injection Hm as ->. split; [by apply Hall|].
  by apply load_diffusers_body_parts in E.
Qed.

(** The internal strategy when it yields a bundle. *)
Lemma load_internal_body_ok base mt w m w' :
  load_internal_body base mt w = (Ok m, w') ->
  exists m0 state tp,
    m = set_train_progress (set_optimizer_state_dict m0 (Some state))
          (length (heap w)) /\
    model_type m0 = mt /\ optimizer m0 = None /\
    (is_Some (image_depth_processor m0) -> has_depth_input mt = true) /\
    (is_Some (depth_estimator m0) -> has_depth_input mt = true) /\
    heap w' = heap w ++ [tp].
Proof.
  intros E. unfold load_internal_body, new_train_progress in E.
  cbv zeta in E. rewrite bind_run, read_env_run in E.
  destruct (read_json _ _) as [meta|]; [|discriminate].
  cbv beta iota in E.
  repeat (rewrite bind_run, lift_run in E;
          destruct (meta_counter meta _); [|discriminate];
          cbv beta iota in E).
  rewrite bind_run in E. cbv beta iota in E. rewrite bind_run in E.
  unfold __load_diffusers_model in E. rewrite try_except_run in E.
  destruct (load_diffusers_body _ _ _) as [[m0|e] w0] eqn:Eb;
    cbv beta iota in E; rewrite bind_run, read_env_run in E;
    (destruct (torch_load _ _) as [state|]; [|discriminate]);
    cbv beta iota in E; [|discriminate].
  injection E as <- <-.
  destruct (load_diffusers_body_fresh _ _ _ _ _ Eb)
    as (Hmt & _ & Hopt & _ & Hheap & _).
  pose proof (load_diffusers_body_parts _ _ _ _ _ Eb)
    as (_ & _ & _ & _ & _ & Hdepth).
  eexists m0, state, _. split; [reflexivity|].
  split; [exact Hmt|]. split; [exact Hopt|].
  split; [|split].
  - destruct (has_depth_input mt); [done|].
    destruct Hdepth as [-> _]. by intros [? [=]].
  - destruct (has_depth_input mt); [done|].
    destruct Hdepth as [_ ->]. by intros [? [=]].
  - cbn [heap add_trace]. rewrite Hheap. reflexivity.
Qed.

(** The single-file strategy when it yields a bundle. *)
Lemma load_ckpt_body_ok base mt w m w' :
  load_ckpt_body base mt w = (Ok m, w') ->
  model_type m = mt /\ optimizer m = None /\
  optimizer_state_dict m = None /\
  train_progress m = default_train_progress /\
  image_depth_processor m = None /\ depth_estimator m = None /\
  heap w' = heap w.
Proof.
  intros E.
  unfold load_ckpt_body, resolve_yaml_name, os_path_exists in E.
  repeat first
    [ progress run_io E
    | run_case E; try discriminate E ];
    injection E as <- <-; by repeat split.
Qed.

(** X13.  What every bundle returned by [load] has in common, whichever
    strategy built it: it has the requested model type and no optimizer;
    it has depth parts only for a model type with a depth input; and it
    has either an optimizer state together with a training progress of its
    own, created by this call, or no optimizer state and the shared
    default training progress. *)
Theorem load_result_invariants base_model_name mt w m w' :
  load base_model_name mt w = (Ok (Some m), w') ->
  model_type m = mt /\
  optimizer m = None /\
  (is_Some (image_depth_processor m) -> has_depth_input mt = true) /\
  (is_Some (depth_estimator m) -> has_depth_input mt = true) /\
  match optimizer_state_dict m with
  | Some _ =>
      train_progress m = length (heap w) /\
      is_Some (heap w' !! train_progress m)
  | None => train_progress m = default_train_progress
  end.
Proof.
  unfold load. rewrite bind_run.
  unfold __load_internal_model at 1. rewrite try_except_run.
  destruct (load_internal_body base_model_name mt w) as [[m1|e1] w1] eqn:E1.
  - cbv beta iota. rewrite ret_run. intros [= <- <-].
    destruct (load_internal_body_ok _ _ _ _ _ E1)
      as (m0 & state & tp & -> & Hmt & Hopt & Hp & Hd & Hheap).
    cbn [model_type optimizer image_depth_processor depth_estimator
         optimizer_state_dict train_progress set_train_progress
         set_optimizer_state_dict].
    repeat (split; [done|]). rewrite Hheap.
    rewrite lookup_app_r, Nat.sub_diag by lia. by eexists.
  - cbv beta iota. rewrite bind_run.
    unfold __load_diffusers_model at 1. rewrite try_except_run.
    destruct (load_diffusers_body base_model_name mt w1) as [[m2|e2] w2] eqn:E2.
    + cbv beta iota. rewrite ret_run. intros [= <- <-].
      destruct (load_diffusers_body_fresh _ _ _ _ _ E2)
        as (Hmt & Htp & Hopt & Hsd & _ & _).
      pose proof (load_diffusers_body_parts _ _ _ _ _ E2)
        as (_ & _ & _ & _ & _ & Hdepth).
      rewrite Hsd. split; [done|]. split; [done|].
      destruct (has_depth_input mt); [done|].
      destruct Hdepth as [-> ->].
      split; [by intros [? [=]]|]. split; [by intros [? [=]]|]. done.
    + cbv beta iota. rewrite bind_run.
      unfold __load_ckpt_model. rewrite try_except_run.
      destruct (load_ckpt_body base_model_name mt w2) as [[m3|e3] w3] eqn:E3;
        cbv beta iota; rewrite ret_run; intros [= <- <-].
      destruct (load_ckpt_body_ok _ _ _ _ _ E3)
        as (Hmt & Hopt & Hsd & Htp & -> & -> & _).
      rewrite Hsd. split; [done|]. split; [done|].
      split; [by intros [? [=]]|]. split; [by intros [? [=]]|]. done.
Qed.

(** X14.  The single-file strategy never sets the depth parts (the two
    [None  # TODO] of the source): a bundle it yields has no depth
    estimator and no image depth processor, and for a model type with a
    depth input [create_pipeline] then builds the depth-to-image pipeline
    with [depth_estimator=None] and [feature_extractor=None]. *)
Theorem ckpt_depth_pipeline base_model_name mt w m w' :
  __load_ckpt_model base_model_name mt w = (Ok (Some m), w') ->
  image_depth_processor m = None /\ depth_estimator m = None /\
  (has_depth_input mt = true ->
   forall w2 : World,
     create_pipeline m w2 =
     (Ok (StableDiffusionDepth2ImgPipeline (vae m) (text_encoder m)
            (tokenizer m) (unet m) (noise_scheduler m) None None), w2)).
Proof.
  unfold __load_ckpt_model. rewrite try_except_run.
  destruct (load_ckpt_body base_model_name mt w) as [[m3|e3] w3] eqn:E3;
    intros [= <- <-].
  destruct (load_ckpt_body_ok _ _ _ _ _ E3)
    as (Hmt & _ & _ & _ & Hp & Hd & _).
  split; [exact Hp|]. split; [exact Hd|].
  intros Hdepth w2. unfold create_pipeline.
  by rewrite Hmt, Hdepth, Hp, Hd.
Qed.

(** X15.  [load] on a complete internal checkpoint.  When [meta.json]
    holds the four counters, the bare-weights layout loads and
    [optimizer/optimizer.pt] loads, [load] returns the bare-weights bundle
    with that optimizer state and with a new training progress that holds
    the four counters as they were read; this object is not the shared
    default instance. *)
Theorem load_internal_checkpoint base_model_name mt w meta ep es esa gs
    m0 state :
  read_json (env w) (path_join base_model_name ["meta.json"]) = Ok meta ->
  meta_counter meta "epoch" = Ok ep ->
  meta_counter meta "epoch_step" = Ok es ->
  meta_counter meta "epoch_sample" = Ok esa ->
  meta_counter meta "global_step" = Ok gs ->
  fst (__load_diffusers_model base_model_name mt w) = Ok (Some m0) ->
  torch_load (env w)
    (path_join base_model_name ["optimizer"; "optimizer.pt"]) = Ok state ->
  exists m w',
    load base_model_name mt w = (Ok (Some m), w') /\
    m = set_train_progress (set_optimizer_state_dict m0 (Some state))
          (length (heap w)) /\
    heap w' = heap w ++ [mkTrainProgress ep es esa gs] /\
    fst (read_train_progress (train_progress m) w')
      = Ok (mkTrainProgress ep es esa gs) /\
    (heap w <> [] -> train_progress m <> default_train_progress).
Proof.
  intros Hmeta Hep Hes Hesa Hgs Hbare Hstate.
  unfold load. rewrite bind_run.
  unfold __load_internal_model, load_internal_body, new_train_progress.
  rewrite try_except_run. cbv zeta.
  rewrite bind_run, read_env_run, Hmeta. cbv beta iota.
  rewrite bind_run, lift_run, Hep. cbv beta iota.
  rewrite bind_run, lift_run, Hes. cbv beta iota.
  rewrite bind_run, lift_run, Hesa. cbv beta iota.
  rewrite bind_run, lift_run, Hgs. cbv beta iota.
  rewrite bind_run. cbv beta iota. rewrite bind_run.
  set (w1 := alloc _ _).
  unfold __load_diffusers_model in *. rewrite try_except_run in *.
  pose proof (load_diffusers_body_env base_model_name mt w1 w eq_refl) as Henv.
  destruct (load_diffusers_body base_model_name mt w) as [[m0'|e] w0];
    [|discriminate]. cbn [fst] in *. injection Hbare as ->.
  destruct (load_diffusers_body base_model_name mt w1) as [[m1|e] w2] eqn:E1;
    [|discriminate]. cbn [fst] in Henv. injection Henv as ->.
  destruct (load_diffusers_body_fresh _ _ _ _ _ E1)
    as (_ & _ & _ & _ & Hheap & Henv).
  cbv beta iota. rewrite bind_run, read_env_run, Henv.
  subst w1. cbn [env heap alloc add_trace] in *. rewrite Hstate.
  cbv beta iota. rewrite ret_run.
  eexists _, _. split; [reflexivity|]. split; [reflexivity|].
  cbn [heap add_trace train_progress set_train_progress].
  split; [exact Hheap|]. split.
  - unfold read_train_progress. cbn [heap add_trace]. rewrite Hheap.
    by rewrite lookup_app_r, Nat.sub_diag by lia.
  - unfold default_train_progress. destruct (heap w); [done|].
    cbn [length]. lia.
Qed.

(** X16.  [load] on an internal checkpoint without optimizer state.  When
    [meta.json] holds the four counters and the bare-weights layout loads
    but [optimizer/optimizer.pt] does not, the internal strategy gives up
    and [load] returns the bundle of the bare-weights strategy: it has no
    optimizer state and the shared default training progress; the counters
    of [meta.json] are dropped (the object built from them stays behind,
    referred to by nothing), and the weights have been read twice. *)
Theorem load_optimizer_missing base_model_name mt w meta ep es esa gs m0 :
  let meta_path := path_join base_model_name ["meta.json"] in
  let optimizer_path :=
    path_join base_model_name ["optimizer"; "optimizer.pt"] in
  read_json (env w) meta_path = Ok meta ->
  meta_counter meta "epoch" = Ok ep ->
  meta_counter meta "epoch_step" = Ok es ->
  meta_counter meta "epoch_sample" = Ok esa ->
  meta_counter meta "global_step" = Ok gs ->
  fst (__load_diffusers_model base_model_name mt w) = Ok (Some m0) ->
  raises (torch_load (env w) optimizer_path) ->
  exists w',
    load base_model_name mt w = (Ok (Some m0), w') /\
    train_progress m0 = default_train_progress /\
    optimizer_state_dict m0 = None /\
    heap w' = heap w ++ [mkTrainProgress ep es esa gs] /\
    events_since w w' =
      [EvReadJson meta_path]
      ++ diffusers_calls base_model_name mt
      ++ [EvTorchLoad optimizer_path]
      ++ diffusers_calls base_model_name mt.
Proof.
  intros meta_path optimizer_path Hmeta Hep Hes Hesa Hgs Hbare Hstate.
  subst meta_path optimizer_path.
  assert (Hrun : forall w1 : World, env w1 = env w ->
            exists w2, load_diffusers_body base_model_name mt w1 = (Ok m0, w2)).
  { intros w1 Hw1. unfold __load_diffusers_model in Hbare.
    rewrite try_except_run in Hbare.
    pose proof (load_diffusers_body_env base_model_name mt w1 w Hw1) as Henv.
    destruct (load_diffusers_body base_model_name mt w) as [[m0'|e] w0];
      [|discriminate]. cbn [fst] in *. injection Hbare as ->.
    destruct (load_diffusers_body base_model_name mt w1) as [[m1|e] w2];
      [|discriminate]. cbn [fst] in Henv. injection Henv as ->. by exists w2. }
  unfold load. rewrite bind_run.
  unfold __load_internal_model, load_internal_body, new_train_progress.
  rewrite try_except_run. cbv zeta.
  rewrite bind_run, read_env_run, Hmeta. cbv beta iota.
  rewrite bind_run, lift_run, Hep. cbv beta iota.
  rewrite bind_run, lift_run, Hes. cbv beta iota.
  rewrite bind_run, lift_run, Hesa. cbv beta iota.
  rewrite bind_run, lift_run, Hgs. cbv beta iota.
  rewrite bind_run. cbv beta iota. rewrite bind_run.
  set (w1 := alloc _ _).
  unfold __load_diffusers_model. rewrite !try_except_run.
  destruct (Hrun w1 eq_refl) as (w2 & E1). rewrite E1.
  destruct (load_diffusers_body_fresh _ _ _ _ _ E1)
    as (_ & Htp & _ & Hsd & _ & Henv).
  destruct (load_diffusers_body_calls _ _ _ _ _ E1) as (evs1 & -> & _ & Hevs1).
  rewrite (Hevs1 eq_refl) in *. clear Hevs1.
  cbv beta iota. rewrite bind_run, read_env_run.
  subst w1. cbn [env heap alloc add_trace] in *.
  destruct (torch_load (env w) _) as [state|e]; [by destruct Hstate|].
  cbv beta iota. rewrite bind_run, try_except_run.
  match goal with
  | |- context [load_diffusers_body _ _ ?w3] =>
      destruct (Hrun w3 eq_refl) as (w4 & E3); rewrite E3
  end.
  destruct (load_diffusers_body_calls _ _ _ _ _ E3) as (evs3 & -> & _ & Hevs3).
  rewrite (Hevs3 eq_refl). clear Hevs3.
  cbv beta iota. rewrite ret_run.
  eexists. split; [reflexivity|]. split; [exact Htp|]. split; [exact Hsd|].
  split; [reflexivity|].
  apply events_since_app. cbn [trace add_trace alloc].
  by rewrite <- !app_assoc.
Qed.

End LoaderExtras.

(** ** The further properties on the small interpretation *)


Section ExtraSimProofs.
#[local] Existing Instance Sim.externals.
#[local] Existing Instance Sim.capabilities.

(** X3 at work: a call with [debug_mode] off on an empty disk leaves it empty. *)
Lemma predict_frame_witness :
  env (snd (predict (Sim.model STABLE_DIFFUSION_15) Sim.batch
              (Sim.args STABLE_DIFFUSION_15 float_zero float_one false)
              (Sim.world Sim.empty_env TrainProgress_default 42)))
  = Sim.empty_env.
Proof.
  exact (proj2 (predict_frame (Sim.model STABLE_DIFFUSION_15) Sim.batch
                  (Sim.args STABLE_DIFFUSION_15 float_zero float_one false)
                  (Sim.world Sim.empty_env TrainProgress_default 42))
           eq_refl).
Defined.

(** X7 at work: Stable Diffusion 1.5, no mask, no depth. *)
Lemma predict_networks_witness :
  exists predicted noise ts noisy emb,
    returned (predict (Sim.model STABLE_DIFFUSION_15) Sim.batch
                (Sim.args STABLE_DIFFUSION_15 float_zero float_one false)
                (Sim.world Sim.empty_env TrainProgress_default 42))
    = Some (predicted, noise) /\
    add_noise 1000
      (mul_scalar Sim.latent
         (scaling_factor (vae (Sim.model STABLE_DIFFUSION_15))))
      noise ts = Ok noisy /\
    text_encoder_forward ("te", "float32") (Sim.mkTensor [2; 77]%nat 9)
      = Ok emb /\
    unet_forward ("unet", "float32") noisy ts emb None = Ok predicted.
Proof.
  sim_returns
    (predict (Sim.model STABLE_DIFFUSION_15) Sim.batch
       (Sim.args STABLE_DIFFUSION_15 float_zero float_one false)
       (Sim.world Sim.empty_env TrainProgress_default 42)) r w' E.
  destruct r as [predicted noise].
  destruct (predict_networks _ _ _ _ _ _ _ E)
    as (latent & tokens & ts & noisy & emb & input
        & Hl & Ht & Hn & He & Hc & Hu).
  vm_compute in Hl. injection Hl as <-.
  vm_compute in Ht. injection Ht as <-.
  change (input = noisy) in Hc. subst input.
  exists predicted, noise, ts, noisy, emb.
  split; [reflexivity|]. split; [exact Hn|]. split; [exact He|exact Hu].
Defined.

(** X8 at work: offset noise on a latent of rank 4. *)
Lemma predict_latent_rank_witness :
  (2 <= length (shape (mul_scalar Sim.latent
                         (scaling_factor
                            (vae (Sim.model STABLE_DIFFUSION_15))))))%nat.
Proof.
  sim_returns
    (predict (Sim.model STABLE_DIFFUSION_15) Sim.batch
       (Sim.args STABLE_DIFFUSION_15 Sim.f_0_1 float_one false)
       (Sim.world Sim.empty_env TrainProgress_default 42)) r w' E.
  destruct (predict_latent_rank _ _ _ _ _ _ E) as (latent & Hl & _ & H2).
  vm_compute in Hl. injection Hl as <-.
  apply H2. reflexivity.
Defined.

(** X11 at work: two draws on the CPU generator, none on another device. *)
Lemma predict_default_generator_witness :
  default_generator
    (snd (predict (Sim.model STABLE_DIFFUSION_15) Sim.batch
            (Sim.args STABLE_DIFFUSION_15 float_zero float_one false)
            (Sim.world Sim.empty_env TrainProgress_default 42))) "cuda"
  = 42 /\
  default_generator
    (snd (predict (Sim.model STABLE_DIFFUSION_15) Sim.batch
            (Sim.args STABLE_DIFFUSION_15 float_zero float_one false)
            (Sim.world Sim.empty_env TrainProgress_default 42))) "cpu"
  = Sim.lcg (Sim.lcg 42).
Proof.
  sim_returns
    (predict (Sim.model STABLE_DIFFUSION_15) Sim.batch
       (Sim.args STABLE_DIFFUSION_15 float_zero float_one false)
       (Sim.world Sim.empty_env TrainProgress_default 42)) r w' E.
  destruct (predict_default_generator _ _ _ _ _ _ E)
    as (latent & product & high & n & Hl & Hp & Hi & Hn & Hg & Hother).
  vm_compute in Hl. injection Hl as <-.
  vm_compute in Hp. injection Hp as <-.
  vm_compute in Hi. injection Hi as <-.
  vm_compute in Hn. injection Hn as <-.
  cbn [snd]. split.
  - apply Hother. discriminate.
  - exact Hg.
Defined.

(** X9 at work: the five files of a debug call at step 0. *)
Lemma predict_debug_files_witness :
  saved_images
    (events_since (Sim.world Sim.empty_env TrainProgress_default 42)
       (snd (predict (Sim.model STABLE_DIFFUSION_15) Sim.batch
               (Sim.args STABLE_DIFFUSION_15 float_zero float_one true)
               (Sim.world Sim.empty_env TrainProgress_default 42))))
  = ["debug/training_batches/step-0-1-noise.png";
     "debug/training_batches/step-0-2-predicted_noise.png";
     "debug/training_batches/step-0-3-noisy_image.png";
     "debug/training_batches/step-0-4-predicted_image.png";
     "debug/training_batches/step-0-5-image.png"].
Proof.
  sim_returns
    (predict (Sim.model STABLE_DIFFUSION_15) Sim.batch
       (Sim.args STABLE_DIFFUSION_15 float_zero float_one true)
       (Sim.world Sim.empty_env TrainProgress_default 42)) r w' E.
  destruct (predict_debug_files _ _ _ _ _ _ E) as (tp & Htp & Hfiles).
  vm_compute in Htp. injection Htp as <-.
  cbn [snd]. rewrite Hfiles. vm_compute. reflexivity.
Defined.

(** X10 at work: an inpainting bundle under a Stable Diffusion 1.5
    configuration returns with [debug_mode] off and raises with it on. *)
Lemma predict_debug_conditioning_mismatch_witness :
  is_ok (fst (predict (Sim.model STABLE_DIFFUSION_15_INPAINTING)
                Sim.inpainting_batch
                (Sim.args STABLE_DIFFUSION_15 float_zero float_one true)
                (Sim.world Sim.empty_env TrainProgress_default 42)))
  = false /\
  is_ok (fst (predict (Sim.model STABLE_DIFFUSION_15_INPAINTING)
                Sim.inpainting_batch
                (Sim.args STABLE_DIFFUSION_15 float_zero float_one false)
                (Sim.world Sim.empty_env TrainProgress_default 42)))
  = true.
Proof.
  split; [|vm_compute; reflexivity].
  apply predict_debug_conditioning_mismatch; reflexivity.
Defined.

(** X5 at work: a missing directory is created, one file is written. *)
Lemma save_image_ok_witness :
  events_since (Sim.world Sim.empty_env TrainProgress_default 42)
    (snd (__save_image Sim.latent "out" "noise" (PyInt 3)
            (Sim.world Sim.empty_env TrainProgress_default 42)))
  = [EvExists "out"; EvMakedirs "out";
     EvImageSave "out/step-3-noise.png"].
Proof.
  sim_returns
    (__save_image Sim.latent "out" "noise" (PyInt 3)
       (Sim.world Sim.empty_env TrainProgress_default 42)) u w' E.
  destruct (save_image_ok _ _ _ _ _ _ _ E)
    as (first & x & img & e0 & _ & _ & _ & _ & _ & Hev & _).
  cbn [snd]. rewrite Hev. vm_compute. reflexivity.
Defined.

(** X6 at work: a read-only disk. *)
Lemma save_image_directory_witness :
  fst (__save_image Sim.latent "out" "noise" (PyInt 3)
         (Sim.world Sim.read_only_env TrainProgress_default 42))
  = Raise (OSError "read-only file system").
Proof.
  rewrite (proj2 (@save_image_directory Sim.externals Sim.latent "out"
                    "noise" (PyInt 3)
                    (Sim.world Sim.read_only_env TrainProgress_default 42))
             eq_refl (OSError "read-only file system") eq_refl).
  reflexivity.
Defined.

(** X12 at work: the five reads of a Stable Diffusion 1.5 directory. *)
Lemma diffusers_call_sequence_witness :
  events_since (Sim.world Sim.bare_weights_env TrainProgress_default 42)
    (snd (__load_diffusers_model "models/sd15" STABLE_DIFFUSION_15
            (Sim.world Sim.bare_weights_env TrainProgress_default 42)))
  = [EvFromPretrained "CLIPTokenizer" "models/sd15" "tokenizer";
     EvFromPretrained "DDPMScheduler" "models/sd15" "scheduler";
     EvFromPretrained "CLIPTextModel" "models/sd15" "text_encoder";
     EvFromPretrained "AutoencoderKL" "models/sd15" "vae";
     EvFromPretrained "UNet2DConditionModel" "models/sd15" "unet"].
Proof.
  pose proof (diffusers_call_sequence "models/sd15" STABLE_DIFFUSION_15
                (Sim.world Sim.bare_weights_env TrainProgress_default 42))
    as [_ Hm].
  destruct (__load_diffusers_model "models/sd15" STABLE_DIFFUSION_15
              (Sim.world Sim.bare_weights_env TrainProgress_default 42))
    as [[[m|]|e] w0] eqn:E.
  2,3: exfalso;
    assert (Hok : is_Some
                    (train_progress
                       <$> loaded (__load_diffusers_model "models/sd15"
                                     STABLE_DIFFUSION_15
                                     (Sim.world Sim.bare_weights_env
                                        TrainProgress_default 42))))
      by (vm_compute; eexists; reflexivity);
    rewrite E in Hok; destruct Hok as [? Hok]; discriminate Hok.
  exact (proj1 (Hm m eq_refl)).
Defined.


(** X13 at work: a bare-weights directory. *)
Lemma load_result_invariants_witness :
  model_type
    <$> loaded (load "models/sd15" STABLE_DIFFUSION_15
                  (Sim.world Sim.bare_weights_env TrainProgress_default 42))
  = Some STABLE_DIFFUSION_15.
Proof.
  destruct (load "models/sd15" STABLE_DIFFUSION_15
              (Sim.world Sim.bare_weights_env TrainProgress_default 42))
    as [[[m|]|e] w'] eqn:E.
  2,3: exfalso;
    assert (Hok : is_Some
                    (train_progress
                       <$> loaded (load "models/sd15" STABLE_DIFFUSION_15
                                     (Sim.world Sim.bare_weights_env
                                        TrainProgress_default 42))))
      by (vm_compute; eexists; reflexivity);
    rewrite E in Hok; destruct Hok as [? Hok]; discriminate Hok.
  destruct (load_result_invariants _ _ _ _ _ E) as (Hmt & _).
  unfold loaded. cbn [fst fmap option_fmap option_map]. by rewrite Hmt.
Defined.

(** X14 at work: a depth model from a packed file. *)
Lemma ckpt_depth_pipeline_witness :
  match loaded (__load_ckpt_model "models/custom.ckpt"
                  STABLE_DIFFUSION_20_DEPTH
                  (Sim.world Sim.ckpt_env TrainProgress_default 42)) with
  | Some m =>
      pipeline_depth_parts
        <$> returned (create_pipeline m
                        (Sim.world Sim.ckpt_env TrainProgress_default 42))
  | None => None
  end = Some (Some (None, None)).
Proof.
  destruct (__load_ckpt_model "models/custom.ckpt" STABLE_DIFFUSION_20_DEPTH
              (Sim.world Sim.ckpt_env TrainProgress_default 42))
    as [[[m|]|e] w'] eqn:E.
  2,3: exfalso;
    assert (Hok : is_Some
                    (train_progress
                       <$> loaded (__load_ckpt_model "models/custom.ckpt"
                                     STABLE_DIFFUSION_20_DEPTH
                                     (Sim.world Sim.ckpt_env
                                        TrainProgress_default 42))))
      by (vm_compute; eexists; reflexivity);
    rewrite E in Hok; destruct Hok as [? Hok]; discriminate Hok.
  destruct (ckpt_depth_pipeline _ _ _ _ _ E) as (_ & _ & Hp).
  unfold loaded, returned. cbn [fst].
  rewrite (Hp eq_refl (Sim.world Sim.ckpt_env TrainProgress_default 42)).
  reflexivity.
Defined.

(** X15 at work: a backup taken at step 103; the restored progress is at
    address 1, beside the default instance at address 0. *)
Lemma load_internal_checkpoint_witness :
  progress_of_loaded
    (load "backup" STABLE_DIFFUSION_15
       (Sim.world SimCheckpoint.checkpoint_env TrainProgress_default 42))
  = Some SimCheckpoint.restored /\
  (fun m => (train_progress m, optimizer_state_dict m))
    <$> loaded
          (load "backup" STABLE_DIFFUSION_15
             (Sim.world SimCheckpoint.checkpoint_env TrainProgress_default 42))
  = Some (1%nat, Some "backup/optimizer/optimizer.pt").
Proof.
  destruct (__load_diffusers_model "backup" STABLE_DIFFUSION_15
              (Sim.world SimCheckpoint.checkpoint_env TrainProgress_default
                 42))
    as [[[m0|]|e] w0] eqn:E0.
  2,3: exfalso;
    assert (Hok : is_Some
                    (train_progress
                       <$> loaded (__load_diffusers_model "backup"
                                     STABLE_DIFFUSION_15
                                     (Sim.world SimCheckpoint.checkpoint_env
                                        TrainProgress_default 42))))
      by (vm_compute; eexists; reflexivity);
    rewrite E0 in Hok; destruct Hok as [? Hok]; discriminate Hok.
  destruct (@load_internal_checkpoint Sim.externals Sim.capabilities
              "backup" STABLE_DIFFUSION_15
              (Sim.world SimCheckpoint.checkpoint_env TrainProgress_default 42)
              SimCheckpoint.meta (PyInt 1) (PyInt 3) (PyInt 12) (PyInt 103)
              m0 "backup/optimizer/optimizer.pt")
    as (m & w' & Hload & -> & Hheap & _ & _).
  1-5, 7: vm_compute; reflexivity.
  - by rewrite E0.
  - rewrite Hload. unfold progress_of_loaded, loaded. cbn [fst snd].
    rewrite Hheap. split; reflexivity.
Defined.

(** X16 at work: the same backup without [optimizer/optimizer.pt]. *)
Lemma load_optimizer_missing_witness :
  events_since
    (Sim.world SimCheckpoint.no_optimizer_env TrainProgress_default 42)
    (snd (load "backup" STABLE_DIFFUSION_15
            (Sim.world SimCheckpoint.no_optimizer_env TrainProgress_default
               42)))
  = [EvReadJson "backup/meta.json";
     EvFromPretrained "CLIPTokenizer" "backup" "tokenizer";
     EvFromPretrained "DDPMScheduler" "backup" "scheduler";
     EvFromPretrained "CLIPTextModel" "backup" "text_encoder";
     EvFromPretrained "AutoencoderKL" "backup" "vae";
     EvFromPretrained "UNet2DConditionModel" "backup" "unet";
     EvTorchLoad "backup/optimizer/optimizer.pt";
     EvFromPretrained "CLIPTokenizer" "backup" "tokenizer";
     EvFromPretrained "DDPMScheduler" "backup" "scheduler";
     EvFromPretrained "CLIPTextModel" "backup" "text_encoder";
     EvFromPretrained "AutoencoderKL" "backup" "vae";
     EvFromPretrained "UNet2DConditionModel" "backup" "unet"] /\
  progress_of_loaded
    (load "backup" STABLE_DIFFUSION_15
       (Sim.world SimCheckpoint.no_optimizer_env TrainProgress_default 42))
  = Some TrainProgress_default.
Proof.
  destruct (__load_diffusers_model "backup" STABLE_DIFFUSION_15
              (Sim.world SimCheckpoint.no_optimizer_env TrainProgress_default
                 42))
    as [[[m0|]|e] w0] eqn:E0.
  2,3: exfalso;
    assert (Hok : is_Some
                    (train_progress
                       <$> loaded (__load_diffusers_model "backup"
                                     STABLE_DIFFUSION_15
                                     (Sim.world SimCheckpoint.no_optimizer_env
                                        TrainProgress_default 42))))
      by (vm_compute; eexists; reflexivity);
    rewrite E0 in Hok; destruct Hok as [? Hok]; discriminate Hok.
  destruct (@load_optimizer_missing Sim.externals Sim.capabilities
              "backup" STABLE_DIFFUSION_15
              (Sim.world SimCheckpoint.no_optimizer_env TrainProgress_default
                 42)
              SimCheckpoint.meta (PyInt 1) (PyInt 3) (PyInt 12) (PyInt 103)
              m0)
    as (w' & Hload & Htp & _ & Hheap & Hev).
  1-5: vm_compute; reflexivity.
  - by rewrite E0.
  - vm_compute. exact I.
  - rewrite Hload. cbn [snd]. split; [exact Hev|].
    unfold progress_of_loaded, loaded. cbn [fst snd].
    rewrite Htp, Hheap. reflexivity.
Defined.

End ExtraSimProofs.
